(** * Predictive fertility window: a shallow embedding of [app.py]

    The development follows the source file top to bottom: the Python
    values the program manipulates (exceptions, binary64 floats,
    [datetime] and [timedelta], dictionaries), the four cycle-math
    functions, and the two Flask handlers [predict] and [receive_data].
    Theorems come after the definitions. *)

From Stdlib Require Import ZArith List String Ascii Bool Lia Permutation.
From Stdlib Require Import SpecFloat DecimalString DecimalPos DecimalFacts.
Import ListNotations.

Local Open Scope string_scope.
Local Open Scope Z_scope.

(** ** Python exceptions and fallible computations *)

Inductive exn_kind :=
| OverflowError
| ValueError
| KeyError (key : string)   (* [key] is [e.args[0]] *)
| ZeroDivisionError
| IndexError
| TypeError
| LibraryError.

(** An exception value: its class and the text [str(e)] yields. *)
Record exn := Exn { exn_class : exn_kind; exn_text : string }.

(** A computation that either raises or returns. *)
Definition result (A : Type) : Type := (exn + A)%type.

Definition Ok {A} (a : A) : result A := inr a.
Definition Raise {A} (k : exn_kind) (msg : string) : result A := inl (Exn k msg).

Definition bind {A B} (c : result A) (f : A -> result B) : result B :=
  match c with
  | inl e => inl e
  | inr a => f a
  end.

Notation "x <- c ;; k" := (bind c (fun x => k))
  (at level 61, c at next level, right associativity).

(** ** binary64 arithmetic as Python performs it

    The operations are the IEEE 754 ones of the standard library's
    [SpecFloat], instantiated at binary64. *)

Module Float64.

Definition prec : Z := 53.
Definition emax : Z := 1024.

Definition float := spec_float.

(** [float(n)] for an [int]: the nearest double, ties to even. *)
Definition of_int (n : Z) : result float :=
  match binary_normalize prec emax n 0 false with
  | S754_infinity _ => Raise OverflowError "int too large to convert to float"
  | f => Ok f
  end.

(** The literal [0.6], that is [0x1.3333333333333p-1]. *)
Definition lit_0_6 : float := S754_finite false 5404319552844595 (-53).

Definition mul : float -> float -> float := SFmul prec emax.

(** [n * x] with [n] an [int] and [x] a [float]. *)
Definition int_mul_float (n : Z) (x : float) : result float :=
  f <- of_int n ;; Ok (mul f x).

Definition exact_int (n : Z) : float :=
  match n with
  | Z0 => S754_zero false
  | Zpos p => S754_finite false p 0
  | Zneg p => S754_finite true p 0
  end.

(** [a / b] on two [int]s: the correctly rounded quotient. *)
Definition int_truediv (a b : Z) : result float :=
  if b =? 0 then Raise ZeroDivisionError "division by zero"
  else
    match SFdiv prec emax (exact_int a) (exact_int b) with
    | S754_infinity _ =>
        Raise OverflowError "integer division result too large for a float"
    | f => Ok f
    end.

(** [int(x)]: truncation toward zero. *)
Definition to_int (x : float) : result Z :=
  match x with
  | S754_zero _ => Ok 0
  | S754_finite s m e => Ok (cond_Zopp s (Z.shiftl (Zpos m) e))
  | S754_infinity _ =>
      Raise OverflowError "cannot convert float infinity to integer"
  | S754_nan => Raise ValueError "cannot convert float NaN to integer"
  end.

(** The integer nearest to [m * 2^e], ties to even. *)
Definition nearest_even (m e : Z) : Z :=
  if 0 <=? e then Z.shiftl m e
  else
    let d := 2 ^ (- e) in
    let q := m / d in
    match 2 * (m mod d) ?= d with
    | Lt => q
    | Eq => if Z.even q then q else q + 1
    | Gt => q + 1
    end.

(** [round(x)] with one argument. *)
Definition round (x : float) : result Z :=
  match x with
  | S754_zero _ => Ok 0
  | S754_finite s m e => Ok (cond_Zopp s (nearest_even (Zpos m) e))
  | S754_infinity _ =>
      Raise OverflowError "cannot convert float infinity to integer"
  | S754_nan => Raise ValueError "cannot convert float NaN to integer"
  end.

End Float64.

(** ** Text

    A [string] stands for a Python [str] whose characters have code
    points below 256, one [ascii] per character.  On such text the
    functions below are those of CPython, character by character. *)

Definition chars (s : string) : list ascii := list_ascii_of_string s.

Definition code (c : ascii) : Z := Z.of_N (N_of_ascii c).

Definition char_of (n : Z) : ascii := ascii_of_N (Z.to_N n).

Definition backslash : ascii := char_of 92.
Definition single_quote : ascii := char_of 39.
Definition double_quote : ascii := char_of 34.

(** [str(n)] for an [int]. *)
Definition str_of_int (n : Z) : string := NilZero.string_of_int (Z.to_int n).

(** The value of a decimal digit; below code point 256 the only
    decimal digits are [0] to [9]. *)
Definition digit_value (c : ascii) : option Z :=
  let n := code c in
  if (48 <=? n) && (n <=? 57) then Some (n - 48) else None.

(** [Py_ISSPACE]: the blanks the integer parser skips around a
    number. *)
Definition is_space (c : ascii) : bool :=
  let n := code c in
  ((9 <=? n) && (n <=? 13)) || (n =? 32).

(** [c.isspace()]. *)
Definition isspace (c : ascii) : bool :=
  let n := code c in
  ((9 <=? n) && (n <=? 13)) || ((28 <=? n) && (n <=? 32))
  || (n =? 133) || (n =? 160).

(** [c.isprintable()]. *)
Definition isprintable (c : ascii) : bool :=
  let n := code c in
  ((32 <=? n) && (n <=? 126)) || ((161 <=? n) && negb (n =? 173)).

(** [c.lower()]: the letters [A] to [Z], and the capital letters from
    code point 192 to 222 but for the multiplication sign. *)
Definition lower_char (c : ascii) : ascii :=
  let n := code c in
  if ((65 <=? n) && (n <=? 90))
     || ((192 <=? n) && (n <=? 222) && negb (n =? 215))
  then char_of (n + 32) else c.

(** [s.lower()]. *)
Definition lower (s : string) : string :=
  string_of_list_ascii (map lower_char (chars s)).

(** [s.endswith(suffix)]. *)
Definition endswith (s suffix : string) : bool :=
  let n := String.length s in
  let k := String.length suffix in
  (k <=? n)%nat && String.eqb (substring (n - k) k s) suffix.

Definition hex_digit (n : Z) : ascii :=
  nth (Z.to_nat n) (chars "0123456789abcdef") "0"%char.

(** One character of [repr(s)] inside the quotes. *)
Definition repr_char (quote c : ascii) : list ascii :=
  let n := code c in
  if Ascii.eqb c quote || Ascii.eqb c backslash then [backslash; c]
  else if n =? 9 then [backslash; "t"%char]
  else if n =? 10 then [backslash; "n"%char]
  else if n =? 13 then [backslash; "r"%char]
  else if isprintable c then [c]
  else [backslash; "x"%char; hex_digit (n / 16); hex_digit (n mod 16)].

(** [repr(s)]: in double quotes when the text has a single quote and
    no double quote, in single quotes otherwise. *)
Definition repr_str (s : string) : string :=
  let cs := chars s in
  let quote :=
    if existsb (Ascii.eqb single_quote) cs
       && negb (existsb (Ascii.eqb double_quote) cs)
    then double_quote else single_quote in
  string_of_list_ascii
    (quote :: flat_map (repr_char quote) cs ++ [quote]).

Fixpoint drop_spaces (cs : list ascii) : list ascii :=
  match cs with
  | c :: rest => if is_space c then drop_spaces rest else cs
  | [] => []
  end.

(** What [int()] hands to the integer parser
    ([_PyUnicode_TransformDecimalAndSpaceToASCII]): ASCII text as it
    is; in other text, from code point 127 on, a whitespace character
    becomes a blank and any other character ends the text with a
    question mark. *)
Fixpoint blanks_to_ascii (cs : list ascii) : list ascii :=
  match cs with
  | [] => []
  | c :: rest =>
      if code c <? 127 then c :: blanks_to_ascii rest
      else if isspace c then " "%char :: blanks_to_ascii rest
      else ["?"%char]
  end.

Definition to_ascii_text (cs : list ascii) : list ascii :=
  if forallb (fun c => code c <? 128) cs then cs else blanks_to_ascii cs.

(** The run of digits and underscores at the head of [cs]: how many
    digits, their value, and the text after the run.  Two underscores
    in a row and an underscore at the end of the run are refused.
    [after_underscore] tells whether the previous character was an
    underscore. *)
Fixpoint scan_digits (cs : list ascii) (after_underscore : bool)
         (count acc : Z) : option (Z * Z * list ascii) :=
  match cs with
  | [] => if after_underscore then None else Some (count, acc, [])
  | c :: rest =>
      match digit_value c with
      | Some d => scan_digits rest false (count + 1) (10 * acc + d)
      | None =>
          if Ascii.eqb c "_"
          then if after_underscore then None
               else scan_digits rest true count acc
          else if after_underscore then None
               else Some (count, acc, cs)
      end
  end.

(** [sys.get_int_max_str_digits()], as the interpreter starts. *)
Definition MAX_STR_DIGITS : Z := 4300.

(** [int(s)] for a [str] in base 10 ([PyLong_FromUnicodeObject] and
    [PyLong_FromString]). *)
Definition int_of_str (s : string) : result Z :=
  let bad := Raise ValueError
               ("invalid literal for int() with base 10: "
                ++ substring 0 200 (repr_str s)) in
  let text := drop_spaces (to_ascii_text (chars s)) in
  let '(negative, text) :=
    match text with
    | c :: rest =>
        if Ascii.eqb c "-" then (true, rest)
        else if Ascii.eqb c "+" then (false, rest)
        else (false, text)
    | [] => (false, text)
    end in
  match text with
  | c :: _ =>
      if Ascii.eqb c "_" then bad
      else
        match scan_digits text false 0 0 with
        | None => bad
        | Some (count, n, rest) =>
            if MAX_STR_DIGITS <? count
            then Raise ValueError
                   ("Exceeds the limit (" ++ str_of_int MAX_STR_DIGITS
                    ++ " digits) for integer string conversion: value has "
                    ++ str_of_int count
                    ++ " digits; use sys.set_int_max_str_digits() "
                    ++ "to increase the limit")
            else if count =? 0 then bad
            else
              match drop_spaces rest with
              | [] => Ok (if negative then - n else n)
              | _ :: _ => bad
              end
        end
  | [] => bad
  end.

(** ** [datetime] and [timedelta]

    The program only builds datetimes at midnight ([strptime] with a
    date-only format) and only adds whole days, so a [datetime] is
    represented by its proleptic Gregorian ordinal ([toordinal()]), the
    quantity CPython's [datetime.__add__] itself computes with. *)

Module Calendar.

Definition MAXORDINAL : Z := 3652059.   (* date(9999, 12, 31).toordinal() *)
Definition MAX_DELTA_DAYS : Z := 999999999.

Record datetime := Datetime { toordinal : Z }.
Record timedelta := Timedelta { days : Z }.

Definition valid (d : datetime) : Prop := 1 <= toordinal d <= MAXORDINAL.

(** [timedelta(days=n)]. *)
Definition timedelta_days (n : Z) : result timedelta :=
  if Z.abs n <=? MAX_DELTA_DAYS then Ok (Timedelta n)
  else Raise OverflowError
         ("days=" ++ str_of_int n ++ "; must have magnitude <= 999999999").

(** [d + delta]. *)
Definition add (d : datetime) (delta : timedelta) : result datetime :=
  let o := toordinal d + days delta in
  if (0 <? o) && (o <=? MAXORDINAL) then Ok (Datetime o)
  else Raise OverflowError "date value out of range".

(** [d - delta], which CPython evaluates as [d + (-delta)]. *)
Definition sub (d : datetime) (delta : timedelta) : result datetime :=
  add d (Timedelta (- days delta)).

Definition is_leap (year : Z) : bool :=
  (year mod 4 =? 0) && (negb (year mod 100 =? 0) || (year mod 400 =? 0)).

Definition DAYS_IN_MONTH : list Z :=
  [-1; 31; 28; 31; 30; 31; 30; 31; 31; 30; 31; 30; 31].

Definition DAYS_BEFORE_MONTH : list Z :=
  [-1; 0; 31; 59; 90; 120; 151; 181; 212; 243; 273; 304; 334].

Definition days_before_year (year : Z) : Z :=
  let y := year - 1 in
  y * 365 + y / 4 - y / 100 + y / 400.

Definition days_in_month (year month : Z) : Z :=
  if (month =? 2) && is_leap year then 29
  else nth (Z.to_nat month) DAYS_IN_MONTH 0.

Definition days_before_month (year month : Z) : Z :=
  nth (Z.to_nat month) DAYS_BEFORE_MONTH 0
  + (if (2 <? month) && is_leap year then 1 else 0).

Definition ymd2ord (year month day : Z) : Z :=
  days_before_year year + days_before_month year month + day.

Definition ord2ymd (ordinal : Z) : Z * Z * Z :=
  let n := ordinal - 1 in
  let n400 := n / 146097 in
  let n := n mod 146097 in
  let year := n400 * 400 + 1 in
  let n100 := n / 36524 in
  let n := n mod 36524 in
  let n4 := n / 1461 in
  let n := n mod 1461 in
  let n1 := n / 365 in
  let n := n mod 365 in
  let year := year + n100 * 100 + n4 * 4 + n1 in
  if (n1 =? 4) || (n100 =? 4) then (year - 1, 12, 31)
  else
    let leapyear := (n1 =? 3) && (negb (n4 =? 24) || (n100 =? 3)) in
    let month := Z.shiftr (n + 50) 5 in
    let preceding :=
      nth (Z.to_nat month) DAYS_BEFORE_MONTH 0
      + (if (2 <? month) && leapyear then 1 else 0) in
    if n <? preceding then
      let month := month - 1 in
      let preceding :=
        preceding - (nth (Z.to_nat month) DAYS_IN_MONTH 0
                     + (if (month =? 2) && leapyear then 1 else 0)) in
      (year, month, n - preceding + 1)
    else (year, month, n - preceding + 1).

(** [datetime(year, month, day)]. *)
Definition make (year month day : Z) : result datetime :=
  if negb ((1 <=? year) && (year <=? 9999))
  then Raise ValueError ("year " ++ str_of_int year ++ " is out of range")
  else if negb ((1 <=? month) && (month <=? 12))
  then Raise ValueError "month must be in 1..12"
  else if negb ((1 <=? day) && (day <=? days_in_month year month))
  then Raise ValueError "day is out of range for month"
  else Ok (Datetime (ymd2ord year month day)).

(** Monday is 0. *)
Definition weekday (d : datetime) : Z := (toordinal d + 6) mod 7.

Definition day_names : list string :=
  ["Monday"; "Tuesday"; "Wednesday"; "Thursday"; "Friday"; "Saturday";
   "Sunday"].

Definition month_names : list string :=
  [""; "January"; "February"; "March"; "April"; "May"; "June"; "July";
   "August"; "September"; "October"; "November"; "December"].

Definition pad2 (n : Z) : string :=
  if n <? 10 then "0" ++ str_of_int n else str_of_int n.

(** [d.strftime('%B %d')]. *)
Definition strftime_B_d (d : datetime) : string :=
  let '(_, month, day) := ord2ymd (toordinal d) in
  nth (Z.to_nat month) month_names "" ++ " " ++ pad2 day.

(** [d.strftime('%A, %B %d, %Y')]; [%Y] is the year as the C library
    of a Linux host writes it, without zero filling. *)
Definition strftime_A_B_d_Y (d : datetime) : string :=
  let '(year, month, day) := ord2ymd (toordinal d) in
  nth (Z.to_nat (weekday d)) day_names "" ++ ", "
  ++ nth (Z.to_nat month) month_names "" ++ " " ++ pad2 day ++ ", "
  ++ str_of_int year.

(** The alternatives of the regular expressions [_strptime] compiles
    for [%m] and [%d], in their order; each returns the value read
    and the rest of the input. *)
Definition two_digits (lo1 hi1 lo2 hi2 : Z) (cs : list ascii)
  : option (Z * list ascii) :=
  match cs with
  | a :: b :: rest =>
      match digit_value a, digit_value b with
      | Some x, Some y =>
          if (lo1 <=? x) && (x <=? hi1) && (lo2 <=? y) && (y <=? hi2)
          then Some (10 * x + y, rest) else None
      | _, _ => None
      end
  | _ => None
  end.

Definition one_digit (cs : list ascii) : option (Z * list ascii) :=
  match cs with
  | a :: rest =>
      match digit_value a with
      | Some x => if 1 <=? x then Some (x, rest) else None
      | None => None
      end
  | _ => None
  end.

Definition space_digit (cs : list ascii) : option (Z * list ascii) :=
  match cs with
  | a :: rest => if Ascii.eqb a " " then one_digit rest else None
  | _ => None
  end.

(** The first alternative whose continuation succeeds, as a
    backtracking matcher finds it. *)
Fixpoint first_match {A} (alts : list (list ascii -> option (Z * list ascii)))
         (cs : list ascii) (k : Z -> list ascii -> option A) : option A :=
  match alts with
  | [] => None
  | alt :: more =>
      match alt cs with
      | Some (v, rest) =>
          match k v rest with
          | Some r => Some r
          | None => first_match more cs k
          end
      | None => first_match more cs k
      end
  end.

Definition month_alts := [two_digits 1 1 0 2; two_digits 0 0 1 9; one_digit].
Definition day_alts :=
  [two_digits 3 3 0 1; two_digits 1 2 0 9; two_digits 0 0 1 9; one_digit;
   space_digit].

Definition expect_dash {A} (cs : list ascii)
           (k : list ascii -> option A) : option A :=
  match cs with
  | c :: rest => if Ascii.eqb c "-" then k rest else None
  | [] => None
  end.

(** The match of [(\d\d\d\d)-(%m)-(%d)] at the start of the input:
    the three numbers and what is left over. *)
Definition match_Y_m_d (cs : list ascii) : option (Z * Z * Z * list ascii) :=
  match cs with
  | a :: b :: c :: d :: rest =>
      match digit_value a, digit_value b, digit_value c, digit_value d with
      | Some y3, Some y2, Some y1, Some y0 =>
          let year := 1000 * y3 + 100 * y2 + 10 * y1 + y0 in
          expect_dash rest (fun rest =>
            first_match month_alts rest (fun month rest =>
              expect_dash rest (fun rest =>
                first_match day_alts rest (fun day rest =>
                  Some (year, month, day, rest)))))
      | _, _, _, _ => None
      end
  | _ => None
  end.

(** [datetime.strptime(s, '%Y-%m-%d')]; below code point 256 the
    regular expression's [\d] matches the digits [0] to [9] only. *)
Definition strptime_Y_m_d (s : string) : result datetime :=
  match match_Y_m_d (chars s) with
  | None =>
      Raise ValueError
        ("time data " ++ repr_str s ++ " does not match format '%Y-%m-%d'")
  | Some (year, month, day, rest) =>
      match rest with
      | [] => make year month day
      | _ :: _ =>
          Raise ValueError
            ("unconverted data remains: " ++ string_of_list_ascii rest)
      end
  end.

End Calendar.

(** ** JSON-serialisable Python values and dictionaries *)

#[warnings="-register-all"]
Inductive json :=
| JNull
| JBool (b : bool)
| JInt (n : Z)
| JStr (s : string)
| JList (items : list json)
| JObj (items : list (string * json)).

(** A [dict] with string keys, in insertion order. *)
Definition dict (V : Type) : Type := list (string * V).

Fixpoint dict_get {V} (d : dict V) (key : string) : option V :=
  match d with
  | [] => None
  | (k, v) :: rest => if String.eqb k key then Some v else dict_get rest key
  end.

(** [d[key] = v]: an existing key keeps its position. *)
Fixpoint dict_set {V} (d : dict V) (key : string) (v : V) : dict V :=
  match d with
  | [] => [(key, v)]
  | (k, w) :: rest =>
      if String.eqb k key then (k, v) :: rest
      else (k, w) :: dict_set rest key v
  end.

Definition keys {V} (d : dict V) : list string := map fst d.

(** werkzeug's [BadRequestKeyError(key)]: a [KeyError] whose [args[0]]
    is the key and whose [str] is that of the HTTP error 400. *)
Definition BadRequestKeyError (key : string) : exn :=
  Exn (KeyError key)
      ("400 Bad Request: The browser (or proxy) sent a request that "
       ++ "this server could not understand.").

(** [d[key]] on a form: a missing key raises [BadRequestKeyError]. *)
Definition dict_item (d : dict string) (key : string) : result string :=
  match dict_get d key with
  | Some v => Ok v
  | None => inl (BadRequestKeyError key)
  end.

(** [d.get(key) == value]. *)
Definition get_equals (d : dict string) (key value : string) : bool :=
  match dict_get d key with
  | Some v => String.eqb v value
  | None => false
  end.

(** [xs[i]]; a negative index counts from the end. *)
Definition list_item {A} (xs : list A) (i : Z) : result A :=
  let j := if i <? 0 then Z.of_nat (List.length xs) + i else i in
  match (if j <? 0 then None else nth_error xs (Z.to_nat j)) with
  | Some x => Ok x
  | None => Raise IndexError "list index out of range"
  end.

Definition sum (xs : list Z) : Z := fold_left Z.add xs 0.

(** [max(xs)] and [min(xs)] on a list. *)
Definition py_max (xs : list Z) : result Z :=
  match xs with
  | [] => Raise ValueError "max() arg is an empty sequence"
  | x :: rest => Ok (fold_left Z.max rest x)
  end.

Definition py_min (xs : list Z) : result Z :=
  match xs with
  | [] => Raise ValueError "min() arg is an empty sequence"
  | x :: rest => Ok (fold_left Z.min rest x)
  end.

(** [for x in xs: ...] collecting what each iteration appends. *)
Fixpoint for_each {A B} (xs : list A) (body : A -> result B) : result (list B) :=
  match xs with
  | [] => Ok []
  | x :: rest =>
      y <- body x ;;
      ys <- for_each rest body ;;
      Ok (y :: ys)
  end.

Definition range (n : nat) : list Z := map Z.of_nat (seq 0 n).

(** ** Cycle math ([app.py], lines 10-48) *)

Import Calendar.

Definition calculate_ovulation_day
           (lmp_date : datetime) (cycle_length : Z) (has_pcos : bool)
  : result datetime :=
  let days_to_ovulation := cycle_length - 14 in
  days_to_ovulation <-
    (if has_pcos
     then x <- Float64.int_mul_float cycle_length Float64.lit_0_6 ;;
          Float64.to_int x
     else Ok days_to_ovulation) ;;
  delta <- timedelta_days days_to_ovulation ;;
  ovulation_date <- add lmp_date delta ;;
  Ok ovulation_date.

(** The dictionary [{'start': ..., 'end': ...}]. *)
Record fertile_window := FertileWindow { start : datetime; end_ : datetime }.

Definition calculate_fertile_window (ovulation_day : datetime)
  : result fertile_window :=
  delta5 <- timedelta_days 5 ;;
  fertile_start <- sub ovulation_day delta5 ;;
  delta1 <- timedelta_days 1 ;;
  fertile_end <- add ovulation_day delta1 ;;
  Ok (FertileWindow fertile_start fertile_end).

Definition analyze_cycle_regularity (cycle_lengths : list Z) (has_pcos : bool)
  : result string :=
  if has_pcos then Ok "Irregular - PCOS may cause irregular cycles"
  else
    hi <- py_max cycle_lengths ;;
    lo <- py_min cycle_lengths ;;
    if hi - lo >? 8 then Ok "Irregular" else Ok "Regular".

(** The entries [{'day_offset': ..., 'prob': ...}] of the table. *)
Record probability := Probability { day_offset : Z; prob : string }.

Definition probabilities : list probability :=
  [ Probability (-5) "Low (~4%)";
    Probability (-4) "Low (~10%)";
    Probability (-3) "Medium (~15%)";
    Probability (-2) "High (~27%)";
    Probability (-1) "High (~30%)";
    Probability 0 "Peak (~33%)";
    Probability 1 "Very Low" ].

Definition calculate_conception_probability (window : fertile_window)
  : result (list json) :=
  for_each (range 7) (fun i =>
    delta <- timedelta_days i ;;
    day <- add (start window) delta ;;
    entry <- list_item probabilities i ;;
    Ok (JObj [("date", JStr (strftime_B_d day));
              ("probability", JStr (prob entry))])).

(** ** Requests and uploaded tables *)

(** An uploaded file (werkzeug's [FileStorage]). *)
Record FileStorage := { filename : string; stream : string }.

Record request := { form : dict string; files : dict FileStorage }.

(** A scalar held in a table cell. *)
Inductive cell :=
| CNone                    (* Python's [None] *)
| CNaN                     (* [nan]: how pandas' readers load an empty cell *)
| CStr (s : string)
| CInt (n : Z)
| CBool (b : bool)
| COther (text : string).  (* any other scalar, by the text [str] gives *)

(** [str(value)]. *)
Definition str_of_cell (value : cell) : string :=
  match value with
  | CNone => "None"
  | CNaN => "nan"
  | CStr s => s
  | CInt n => str_of_int n
  | CBool true => "True"
  | CBool false => "False"
  | COther text => text
  end.

(** A pandas [DataFrame] with uniquely labelled columns, row by row. *)
Record DataFrame := { columns : list string; rows : list (list cell) }.

(** A row of a frame: a [Series] indexed by the column labels. *)
Record Series := { index : list string; values : list cell }.

Definition contains (labels : list string) (col : string) : bool :=
  existsb (String.eqb col) labels.

Fixpoint position (labels : list string) (col : string) : option nat :=
  match labels with
  | [] => None
  | l :: rest =>
      if String.eqb l col then Some O
      else option_map S (position rest col)
  end.

(** The cell of [row] under [col]; a short row reads as empty. *)
Definition cell_at (labels : list string) (row : list cell) (col : string)
  : option cell :=
  option_map (fun i => nth i row CNaN) (position labels col).

(** One element of [df['user_id'] == name]: only a string equals a
    string, and nothing equals a missing [name]. *)
Definition cell_eq (value : cell) (name : option string) : bool :=
  match value, name with
  | CStr s, Some n => String.eqb s n
  | _, _ => false
  end.

(** [df[df['user_id'] == name]]. *)
Definition select_user (df : DataFrame) (name : option string) : DataFrame :=
  {| columns := columns df;
     rows := filter (fun row =>
                       match cell_at (columns df) row "user_id" with
                       | Some value => cell_eq value name
                       | None => false
                       end) (rows df) |}.

(** [df.empty]. *)
Definition empty (df : DataFrame) : bool :=
  match columns df, rows df with
  | _ :: _, _ :: _ => false
  | _, _ => true
  end.

(** [df.iloc[0]]. *)
Definition iloc0 (df : DataFrame) : result Series :=
  match rows df with
  | row :: _ => Ok {| index := columns df; values := row |}
  | [] => Raise IndexError "single positional indexer is out-of-bounds"
  end.

(** [row.get(col, None)]. *)
Definition series_get (row : Series) (col : string) : cell :=
  match cell_at (index row) (values row) col with
  | Some value => value
  | None => CNone
  end.

(** [df[col]] as the list of its cells. *)
Definition column (df : DataFrame) (col : string) : list cell :=
  map (fun row => match cell_at (columns df) row col with
                  | Some value => value
                  | None => CNaN
                  end) (rows df).

(** [{name}] inside an f-string. *)
Definition fmt_name (name : option string) : string :=
  match name with
  | Some n => n
  | None => "None"
  end.

(** ** Handlers: a state and exceptions

    A handler body runs over a mutable state (the lines printed so far,
    or the [result] dictionary under construction); what it did to the
    state before raising stays done. *)

Definition handler (S A : Type) : Type := S -> result A * S.

Definition ret {S A} (a : A) : handler S A := fun s => (Ok a, s).

Definition lift {S A} (c : result A) : handler S A := fun s => (c, s).

Definition hbind {S A B} (c : handler S A) (f : A -> handler S B)
  : handler S B :=
  fun s =>
    match c s with
    | (inl e, s') => (inl e, s')
    | (inr a, s') => f a s'
    end.

Notation "x <~ c ;; k" := (hbind c (fun x => k))
  (at level 61, c at next level, right associativity).
Notation "c ;;; k" := (hbind c (fun _ => k))
  (at level 61, right associativity).

(** [try: body  except Exception as e: on_exn]. *)
Definition try_except {S A} (body : handler S A) (on_exn : exn -> handler S A)
  : handler S A :=
  fun s =>
    match body s with
    | (inl e, s') => on_exn e s'
    | (inr a, s') => (inr a, s')
    end.

Definition get_state {S} : handler S S := fun s => (Ok s, s).

(** [print(line)]. *)
Definition print (line : string) : handler (list string) unit :=
  fun out => (Ok tt, (out ++ [line])%list).

(** [result[key] = v]. *)
Definition assign (key : string) (v : json) : handler (dict json) unit :=
  fun d => (Ok tt, dict_set d key v).

Fixpoint for_ {S A} (xs : list A) (body : A -> handler S unit) : handler S unit :=
  match xs with
  | [] => ret tt
  | x :: rest => body x ;;; for_ rest body
  end.

(** [f and f.filename != '']; a [FileStorage] is truthy when its
    filename is not empty. *)
Definition truthy (f : FileStorage) : bool := negb (String.eqb (filename f) "").

Definition uploaded (f : option FileStorage) : option FileStorage :=
  match f with
  | Some f =>
      if truthy f && negb (String.eqb (filename f) "") then Some f else None
  | None => None
  end.

(** [value is not None]. *)
Definition is_not_None (value : cell) : bool :=
  match value with
  | CNone => false
  | _ => true
  end.

Definition columns_to_load : list string :=
  ["LMP_Cycle_1"; "LMP_Cycle_2"; "LMP_Cycle_3";
   "Cycle_Length_1"; "Cycle_Length_2"; "Cycle_Length_3";
   "Period_Duration_1"; "Period_Duration_2"; "Period_Duration_3";
   "is_pcos"].

Definition bbt_columns : list string :=
  ["bbt"; "BBT"; "temperature"; "Temperature"].

Section Handlers.

(** pandas' readers, and the mean of a column written with [:.2f];
    each may raise. *)
Variable read_csv read_excel : FileStorage -> result DataFrame.
Variable mean_2f : list cell -> result string.

Definition read_table (f : FileStorage) : result DataFrame :=
  if endswith (lower (filename f)) ".csv" then read_csv f else read_excel f.

(** Lines 70-97 of [predict]. *)
Definition bbt_average (req : request) (name : option string)
  : handler (list string) unit :=
  match uploaded (dict_get (files req) "bbtFile") with
  | Some bbt_file =>
      print ("Received file: " ++ filename bbt_file) ;;;
      try_except
        (df <~ lift (read_table bbt_file) ;;
         if contains (columns df) "user_id" then
           let user_rows := select_user df name in
           if negb (empty user_rows) then
             match find (contains (columns user_rows)) bbt_columns with
             | Some col =>
                 avg_bbt <~ lift (mean_2f (column user_rows col)) ;;
                 print ("Average BBT for user '" ++ fmt_name name ++ "': "
                        ++ avg_bbt)
             | None => print "No BBT column found in the file."
             end
           else print ("No rows found for user_id '" ++ fmt_name name ++ "'.")
         else print "No 'user_id' column found in the file.")
        (fun e => print ("Error reading file: " ++ exn_text e))
  | None => ret tt
  end.

Definition form_int (data : dict string) (key : string) : result Z :=
  s <- dict_item data key ;; int_of_str s.

Definition mean_rounded (xs : list Z) : result Z :=
  x <- Float64.int_truediv (sum xs) (Z.of_nat (List.length xs)) ;;
  Float64.round x.

(** [predict]: the JSON body, or the exception that escapes, and the
    lines printed. *)
Definition predict (req : request) : result json * list string :=
  (let data := form req in
   let name := dict_get data "name" in
   c1 <~ lift (form_int data "cycleLength1") ;;
   c2 <~ lift (form_int data "cycleLength2") ;;
   c3 <~ lift (form_int data "cycleLength3") ;;
   let cycle_lengths := [c1; c2; c3] in
   p1 <~ lift (form_int data "periodDuration1") ;;
   p2 <~ lift (form_int data "periodDuration2") ;;
   p3 <~ lift (form_int data "periodDuration3") ;;
   let period_durations := [p1; p2; p3] in
   lmp_date_str <~ lift (dict_item data "lmpDate3") ;;
   lmp_date <~ lift (strptime_Y_m_d lmp_date_str) ;;
   let has_pcos := get_equals data "pcos" "true" in
   (if has_pcos then bbt_average req name else ret tt) ;;;
   avg_cycle_length <~ lift (mean_rounded cycle_lengths) ;;
   avg_period_duration <~ lift (mean_rounded period_durations) ;;
   delta <~ lift (timedelta_days avg_cycle_length) ;;
   next_lmp_date <~ lift (add lmp_date delta) ;;
   ovulation_day <~
     lift (calculate_ovulation_day next_lmp_date avg_cycle_length has_pcos) ;;
   window <~ lift (calculate_fertile_window ovulation_day) ;;
   cycle_regularity <~
     lift (analyze_cycle_regularity cycle_lengths has_pcos) ;;
   conception_probability <~
     lift (calculate_conception_probability window) ;;
   let response :=
     JObj [("fertileWindow",
            JObj [("start", JStr (strftime_A_B_d_Y (start window)));
                  ("end", JStr (strftime_A_B_d_Y (end_ window)))]);
           ("ovulationDay", JStr (strftime_A_B_d_Y ovulation_day));
           ("cycleRegularity", JStr cycle_regularity);
           ("conceptionProbability", JList conception_probability);
           ("insights",
            JObj [("averageCycleLength", JInt avg_cycle_length);
                  ("averagePeriodDuration", JInt avg_period_duration)])] in
   ret response) [].

(** [receive_data]: the JSON body, or the exception that escapes. *)
Definition receive_data (req : request) : result json :=
  let data := form req in
  let name := dict_get data "name" in
  let bbt_file := dict_get (files req) "bbtFile_data" in
  let result0 := [("success", JBool false); ("message", JStr "")] in
  fst ((match uploaded bbt_file with
        | Some bbt_file =>
            try_except
              (df <~ lift (read_table bbt_file) ;;
               if contains (columns df) "user_id" then
                 let user_rows := select_user df name in
                 if negb (empty user_rows) then
                   user_row <~ lift (iloc0 user_rows) ;;
                   for_ columns_to_load (fun col =>
                     let value := series_get user_row col in
                     if is_not_None value
                     then assign col (JStr (str_of_cell value))
                     else assign col JNull) ;;;
                   assign "success" (JBool true) ;;;
                   assign "message"
                     (JStr ("Data loaded for user '" ++ fmt_name name ++ "'."))
                 else
                   assign "message"
                     (JStr ("No rows found for user_id '" ++ fmt_name name
                            ++ "'."))
               else
                 assign "message"
                   (JStr "No 'user_id' column found in the file."))
              (fun e =>
                 assign "message" (JStr ("Error reading file: " ++ exn_text e)))
        | None => assign "message" (JStr "No file uploaded.")
        end ;;;
        result <~ get_state ;;
        ret (JObj result)) result0).

End Handlers.

(** ** Definitions used to state the properties *)

(** The date [n] days after [d]. *)
Definition plus_days (d : datetime) (n : Z) : datetime :=
  Datetime (toordinal d + n).

(** A member of a JSON object. *)
Definition member (j : json) (key : string) : option json :=
  match j with
  | JObj items => dict_get items key
  | _ => None
  end.

(** One entry of the probability list. *)
Definition probability_entry (day : datetime) (label : string) : json :=
  JObj [("date", JStr (strftime_B_d day)); ("probability", JStr label)].

(** The offset of ovulation from the reference date, in exact
    arithmetic. *)
Definition ovulation_offset (cycle_length : Z) (has_pcos : bool) : Z :=
  if has_pcos then cycle_length * 6 / 10 else cycle_length - 14.

(** The integer nearest to a third of [s]. *)
Definition nearest_third (s : Z) : Z := (s + 1) / 3.

(** The field of a loaded row as the specification words it: text when
    the column is present and the cell is neither empty nor null, the
    absent marker otherwise. *)
Definition is_empty_cell (value : cell) : bool :=
  match value with
  | CNone | CNaN => true
  | _ => false
  end.

Definition field_as_specified (labels : list string) (row : list cell)
           (col : string) : json :=
  match cell_at labels row col with
  | Some value => if is_empty_cell value then JNull else JStr (str_of_cell value)
  | None => JNull
  end.

(** The field as the handler computes it: the absent marker only for a
    missing column or a [None] cell. *)
Definition field_as_loaded (labels : list string) (row : list cell)
           (col : string) : json :=
  match cell_at labels row col with
  | Some CNone | None => JNull
  | Some value => JStr (str_of_cell value)
  end.

(** The four failure messages of [receive_data]. *)
Definition msg_no_file : string := "No file uploaded.".
Definition msg_unreadable (e : exn) : string :=
  "Error reading file: " ++ exn_text e.
Definition msg_no_user_id : string := "No 'user_id' column found in the file.".
Definition msg_no_rows (name : option string) : string :=
  "No rows found for user_id '" ++ fmt_name name ++ "'.".

Definition failure (message : string) : json :=
  JObj [("success", JBool false); ("message", JStr message)].

(** ** Definitions used by the facts about rounding *)

Import Float64.

(** What a location says about the discarded part [rho / den]. *)
Definition loc_ok (lx : location) (rho den : Z) : Prop :=
  match lx with
  | loc_Exact => rho = 0
  | loc_Inexact c => 0 < rho /\ (2 * rho ?= den) = c
  end.

Definition loc_r (lx : location) : bool :=
  match lx with
  | loc_Inexact Eq | loc_Inexact Gt => true
  | _ => false
  end.

Definition loc_s (lx : location) : bool :=
  match lx with
  | loc_Inexact Lt | loc_Inexact Gt => true
  | _ => false
  end.

(** The second half of [binary_round_aux]: renormalise and pack. *)
Definition finish (sx : bool) (q1 e1 : Z) : spec_float :=
  let '(mrs, e) := shr_fexp prec emax q1 e1 loc_Exact in
  match shr_m mrs with
  | Z0 => S754_zero sx
  | Zpos m => if e <=? emax - prec then S754_finite sx m e else S754_infinity sx
  | Zneg _ => S754_nan
  end.

(** ** Sample inputs *)

Definition sample_form : dict string :=
  [("name", "alice");
   ("cycleLength1", "28"); ("cycleLength2", "30"); ("cycleLength3", "26");
   ("periodDuration1", "5"); ("periodDuration2", "6"); ("periodDuration3", "5");
   ("lmpDate3", "2024-01-01"); ("pcos", "false")].

Definition sample_form_pcos : dict string :=
  [("name", "alice");
   ("cycleLength1", "35"); ("cycleLength2", "40"); ("cycleLength3", "33");
   ("periodDuration1", "5"); ("periodDuration2", "6"); ("periodDuration3", "5");
   ("lmpDate3", "2024-01-01"); ("pcos", "true")].

(** A form whose first period duration is [2^53 + 2] days. *)
Definition sample_form_long_period : dict string :=
  [("name", "alice");
   ("cycleLength1", "28"); ("cycleLength2", "30"); ("cycleLength3", "26");
   ("periodDuration1", "9007199254740994"); ("periodDuration2", "0");
   ("periodDuration3", "0");
   ("lmpDate3", "2024-01-01"); ("pcos", "false")].

Definition sample_upload : FileStorage :=
  {| filename := "history.CSV"; stream := "" |}.

(** A table with two rows for alice; her first row has an empty
    [LMP_Cycle_1] cell. *)
Definition sample_table : DataFrame :=
  {| columns := ["user_id"; "bbt"; "LMP_Cycle_1"; "Cycle_Length_1"];
     rows := [[CStr "bob"; COther "36.5"; CStr "2024-01-01"; CInt 28];
              [CStr "alice"; COther "36.6"; CNaN; CInt 30];
              [CStr "alice"; COther "36.9"; CStr "2024-02-01"; CInt 31]] |}.

Definition sample_table_no_user_id : DataFrame :=
  {| columns := ["bbt"]; rows := [[COther "36.5"]] |}.

Definition sample_reader (table : DataFrame) (f : FileStorage)
  : result DataFrame := Ok table.

Definition failing_reader (f : FileStorage) : result DataFrame :=
  Raise LibraryError "No columns to parse from file".

Definition sample_mean (xs : list cell) : result string := Ok "36.75".

Definition sample_request_pcos : request :=
  {| form := sample_form_pcos; files := [("bbtFile", sample_upload)] |}.

(** What [predict] answers to [sample_request_pcos]. *)
Definition sample_body_pcos : json :=
  JObj
    [("fertileWindow",
      JObj [("start", JStr "Thursday, February 22, 2024");
            ("end", JStr "Wednesday, February 28, 2024")]);
     ("ovulationDay", JStr "Tuesday, February 27, 2024");
     ("cycleRegularity", JStr "Irregular - PCOS may cause irregular cycles");
     ("conceptionProbability",
      JList
        [JObj [("date", JStr "February 22"); ("probability", JStr "Low (~4%)")];
         JObj [("date", JStr "February 23"); ("probability", JStr "Low (~10%)")];
         JObj [("date", JStr "February 24");
               ("probability", JStr "Medium (~15%)")];
         JObj [("date", JStr "February 25");
               ("probability", JStr "High (~27%)")];
         JObj [("date", JStr "February 26");
               ("probability", JStr "High (~30%)")];
         JObj [("date", JStr "February 27");
               ("probability", JStr "Peak (~33%)")];
         JObj [("date", JStr "February 28"); ("probability", JStr "Very Low")]]);
     ("insights",
      JObj [("averageCycleLength", JInt 36);
            ("averagePeriodDuration", JInt 5)])].

Definition sample_lookup (name : string) : request :=
  {| form := [("name", name)]; files := [("bbtFile_data", sample_upload)] |}.


(** ** Definitions used to state further properties *)

(** The form fields [predict] reads with [data[...]], in the order it
    reads them. *)
Definition required_fields : list string :=
  ["cycleLength1"; "cycleLength2"; "cycleLength3";
   "periodDuration1"; "periodDuration2"; "periodDuration3"; "lmpDate3"].

(** The form fields the body of [predict] is computed from. *)
Definition body_fields : list string := required_fields ++ ["pcos"].

(** The three texts [analyze_cycle_regularity] can return. *)
Definition regularity_texts : list string :=
  ["Irregular - PCOS may cause irregular cycles"; "Irregular"; "Regular"].

(** The body [predict] builds around an ovulation day. *)
Definition response_around (ovulation_day : datetime) (regularity : string)
           (avg_cycle_length avg_period_duration : Z) : json :=
  JObj
    [("fertileWindow",
      JObj [("start", JStr (strftime_A_B_d_Y (plus_days ovulation_day (-5))));
            ("end", JStr (strftime_A_B_d_Y (plus_days ovulation_day 1)))]);
     ("ovulationDay", JStr (strftime_A_B_d_Y ovulation_day));
     ("cycleRegularity", JStr regularity);
     ("conceptionProbability",
      JList
        [probability_entry (plus_days ovulation_day (-5)) "Low (~4%)";
         probability_entry (plus_days ovulation_day (-4)) "Low (~10%)";
         probability_entry (plus_days ovulation_day (-3)) "Medium (~15%)";
         probability_entry (plus_days ovulation_day (-2)) "High (~27%)";
         probability_entry (plus_days ovulation_day (-1)) "High (~30%)";
         probability_entry ovulation_day "Peak (~33%)";
         probability_entry (plus_days ovulation_day 1) "Very Low"]);
     ("insights",
      JObj [("averageCycleLength", JInt avg_cycle_length);
            ("averagePeriodDuration", JInt avg_period_duration)])].

(** The value of a decimal numeral read after the digits that made
    [acc]. *)
Fixpoint uint_value (d : Decimal.uint) (acc : Z) : Z :=
  match d with
  | Decimal.Nil => acc
  | Decimal.D0 d => uint_value d (10 * acc + 0)
  | Decimal.D1 d => uint_value d (10 * acc + 1)
  | Decimal.D2 d => uint_value d (10 * acc + 2)
  | Decimal.D3 d => uint_value d (10 * acc + 3)
  | Decimal.D4 d => uint_value d (10 * acc + 4)
  | Decimal.D5 d => uint_value d (10 * acc + 5)
  | Decimal.D6 d => uint_value d (10 * acc + 6)
  | Decimal.D7 d => uint_value d (10 * acc + 7)
  | Decimal.D8 d => uint_value d (10 * acc + 8)
  | Decimal.D9 d => uint_value d (10 * acc + 9)
  end.

(** [predict] in two stages, with the temperature block left out: the
    reading of the form (lines 60-65) and the computation of the body
    (lines 99-124). *)
Definition read_form (data : dict string)
  : result (list Z * list Z * datetime) :=
  c1 <- form_int data "cycleLength1" ;;
  c2 <- form_int data "cycleLength2" ;;
  c3 <- form_int data "cycleLength3" ;;
  p1 <- form_int data "periodDuration1" ;;
  p2 <- form_int data "periodDuration2" ;;
  p3 <- form_int data "periodDuration3" ;;
  lmp_date_str <- dict_item data "lmpDate3" ;;
  lmp_date <- strptime_Y_m_d lmp_date_str ;;
  Ok ([c1; c2; c3], [p1; p2; p3], lmp_date).

Definition respond (has_pcos : bool)
           (cycle_lengths period_durations : list Z) (lmp_date : datetime)
  : result json :=
  avg_cycle_length <- mean_rounded cycle_lengths ;;
  avg_period_duration <- mean_rounded period_durations ;;
  delta <- timedelta_days avg_cycle_length ;;
  next_lmp_date <- add lmp_date delta ;;
  ovulation_day <-
    calculate_ovulation_day next_lmp_date avg_cycle_length has_pcos ;;
  window <- calculate_fertile_window ovulation_day ;;
  cycle_regularity <- analyze_cycle_regularity cycle_lengths has_pcos ;;
  conception_probability <- calculate_conception_probability window ;;
  Ok (JObj [("fertileWindow",
             JObj [("start", JStr (strftime_A_B_d_Y (start window)));
                   ("end", JStr (strftime_A_B_d_Y (end_ window)))]);
            ("ovulationDay", JStr (strftime_A_B_d_Y ovulation_day));
            ("cycleRegularity", JStr cycle_regularity);
            ("conceptionProbability", JList conception_probability);
            ("insights",
             JObj [("averageCycleLength", JInt avg_cycle_length);
                   ("averagePeriodDuration", JInt avg_period_duration)])]).

Definition predict_staged (data : dict string) : result json :=
  readings <- read_form data ;;
  let '(cycle_lengths, period_durations, lmp_date) := readings in
  respond (get_equals data "pcos" "true") cycle_lengths period_durations
    lmp_date.

(** The offset of ovulation from the reference date for a cycle length
    of either sign: [int(cycle_length * 0.6)] truncates toward zero. *)
Definition truncated_offset (cycle_length : Z) (has_pcos : bool) : Z :=
  if has_pcos then Z.quot (cycle_length * 6) 10 else cycle_length - 14.

(** A form with negative cycle lengths and the condition flag. *)
Definition sample_form_negative : dict string :=
  [("name", "alice");
   ("cycleLength1", "-7"); ("cycleLength2", "-7"); ("cycleLength3", "-7");
   ("periodDuration1", "5"); ("periodDuration2", "6"); ("periodDuration3", "5");
   ("lmpDate3", "2024-01-01"); ("pcos", "true")].


Definition sample_form_no_date : dict string :=
  [("name", "alice");
   ("cycleLength1", "28"); ("cycleLength2", "30"); ("cycleLength3", "26");
   ("periodDuration1", "5"); ("periodDuration2", "6"); ("periodDuration3", "5");
   ("pcos", "false")].

(** The form of another user, with the fields in another order and one
    field more. *)
Definition sample_form_reordered : dict string :=
  [("pcos", "false"); ("lmpDate3", "2024-01-01"); ("name", "bob");
   ("periodDuration3", "5"); ("periodDuration2", "6"); ("periodDuration1", "5");
   ("cycleLength3", "26"); ("cycleLength2", "30"); ("cycleLength1", "28");
   ("notes", "none")].

(** A table with two of the accepted temperature columns. *)
Definition sample_table_two_columns : DataFrame :=
  {| columns := ["Temperature"; "user_id"; "BBT"];
     rows := [[COther "36.4"; CStr "alice"; COther "36.8"];
              [COther "36.5"; CStr "bob"; COther "36.9"]] |}.

(** A mean that tells which cells it was given. *)
Definition sample_mean_of (xs : list cell) : result string :=
  match xs with
  | [value] => Ok (str_of_cell value)
  | _ => Raise TypeError "unsupported operand"
  end.

Definition sample_request_no_name : request :=
  {| form := [("pcos", "true")]; files := [("bbtFile_data", sample_upload)] |}.

(** The last step of [ord2ymd]: month and day from the day of the
    year, counted from 0. *)
Definition month_day (n : Z) (leapyear : bool) : Z * Z :=
  let month := Z.shiftr (n + 50) 5 in
  let preceding :=
    nth (Z.to_nat month) DAYS_BEFORE_MONTH 0
    + (if (2 <? month) && leapyear then 1 else 0) in
  if n <? preceding then
    let month := month - 1 in
    let preceding :=
      preceding - (nth (Z.to_nat month) DAYS_IN_MONTH 0
                   + (if (month =? 2) && leapyear then 1 else 0)) in
    (month, n - preceding + 1)
  else (month, n - preceding + 1).

(** The days of a month in a leap or common year, and the days of the
    year before it. *)
Definition month_length (leap : bool) (month : Z) : Z :=
  if (month =? 2) && leap then 29 else nth (Z.to_nat month) DAYS_IN_MONTH 0.

Definition month_offset (leap : bool) (month : Z) : Z :=
  nth (Z.to_nat month) DAYS_BEFORE_MONTH 0
  + (if (2 <? month) && leap then 1 else 0).

Definition from_1 (n : nat) : list Z := map Z.of_nat (seq 1 n).
(** * Facts *)

(** ** Facts about the IEEE rounding primitives *)

Section Rounding_facts.

Lemma digits2_pos_size (p : positive) : digits2_pos p = Pos.size p.
Proof. induction p; simpl; congruence. Qed.

Lemma Zdigits2_log2 (p : positive) :
  Zdigits2 (Zpos p) = Z.log2 (Zpos p) + 1.
Proof.
  unfold Zdigits2. rewrite digits2_pos_size.
  destruct p; simpl; try rewrite Pos.add_1_r; reflexivity.
Qed.

Lemma Zdigits2_bounds (m d : Z) :
  2 ^ (d - 1) <= m < 2 ^ d -> 1 <= d -> Zdigits2 m = d.
Proof.
  intros Hm Hd.
  assert (0 < m)
    by (pose proof (Z.pow_pos_nonneg 2 (d - 1) ltac:(lia) ltac:(lia)); lia).
  destruct m as [|p|p]; try lia.
  rewrite Zdigits2_log2.
  rewrite (Z.log2_unique (Zpos p) (d - 1)).
  - lia.
  - lia.
  - unfold Z.succ. replace (d - 1 + 1) with d by lia. exact Hm.
Qed.

Lemma iter_pos_nat {A} (f : A -> A) (p : positive) (x : A) :
  iter_pos f p x = Nat.iter (Pos.to_nat p) f x.
Proof.
  revert x. induction p as [p IH|p IH|]; intros x; cbn [iter_pos].
  - rewrite !IH. rewrite Pos2Nat.inj_xI.
    replace (S (2 * Pos.to_nat p))%nat with (Pos.to_nat p + (Pos.to_nat p + 1))%nat by lia.
    rewrite !Nat.iter_add. reflexivity.
  - rewrite !IH. rewrite Pos2Nat.inj_xO.
    replace (2 * Pos.to_nat p)%nat with (Pos.to_nat p + Pos.to_nat p)%nat by lia.
    rewrite Nat.iter_add. reflexivity.
  - reflexivity.
Qed.

Lemma shr_1_nonneg (m : Z) (r s : bool) :
  0 <= m ->
  shr_1 (Build_shr_record m r s) = Build_shr_record (m / 2) (Z.odd m) (r || s).
Proof.
  intros Hm. rewrite <- Z.div2_div.
  destruct m as [|p|p]; try lia; [reflexivity|].
  destruct p; reflexivity.
Qed.

Lemma mod_pow2_succ (m k : Z) :
  0 <= k ->
  m mod 2 ^ (k + 1) = m mod 2 ^ k + 2 ^ k * Z.b2z (Z.testbit m k).
Proof.
  intros Hk. rewrite Z.pow_add_r by lia. change (2 ^ 1) with 2.
  rewrite Z.rem_mul_r by (try apply Z.pow_nonzero; lia).
  rewrite Z.testbit_spec' by lia. reflexivity.
Qed.

Lemma shr_iter (m : Z) (r0 s0 : bool) (k : nat) :
  0 <= m ->
  Nat.iter (S k) shr_1 (Build_shr_record m r0 s0)
  = Build_shr_record (m / 2 ^ (Z.of_nat k + 1)) (Z.testbit m (Z.of_nat k))
      (negb (m mod 2 ^ Z.of_nat k =? 0) || (r0 || s0)).
Proof.
  intros Hm. induction k as [|k IH].
  - rewrite Nat.iter_succ. change (Nat.iter 0 shr_1 ?x) with x.
    rewrite shr_1_nonneg by assumption.
    change (Z.of_nat 0) with 0.
    f_equal; rewrite ?Z.bit0_odd, ?Z.pow_0_r, ?Z.mod_1_r; reflexivity.
  - rewrite Nat.iter_succ, IH. rewrite shr_1_nonneg
      by (apply Z.div_pos; [assumption | apply Z.pow_pos_nonneg; lia]).
    rewrite Nat2Z.inj_succ. unfold Z.succ.
    f_equal.
    + rewrite Z.div_div by (try apply Z.pow_pos_nonneg; lia).
      rewrite (Z.pow_add_r 2 (Z.of_nat k + 1) 1) by lia. reflexivity.
    + rewrite (Z.testbit_odd m (Z.of_nat k + 1)), Z.shiftr_div_pow2 by lia.
      reflexivity.
    + rewrite (mod_pow2_succ m (Z.of_nat k)) by lia.
      pose proof (Z.mod_pos_bound m (2 ^ Z.of_nat k)
                    ltac:(apply Z.pow_pos_nonneg; lia)) as Hb.
      pose proof (Z.pow_pos_nonneg 2 (Z.of_nat k) ltac:(lia) ltac:(lia)) as Hp.
      destruct (Z.testbit m (Z.of_nat k)); simpl Z.b2z.
      * assert (E : (m mod 2 ^ Z.of_nat k + 2 ^ Z.of_nat k * 1 =? 0) = false)
          by (apply Z.eqb_neq; lia).
        rewrite E. reflexivity.
      * rewrite Z.mul_0_r, Z.add_0_r. reflexivity.
Qed.

End Rounding_facts.

Section Round_to_nearest.

Lemma shr_record_of_loc_bits (m : Z) (lx : location) :
  shr_record_of_loc m lx = Build_shr_record m (loc_r lx) (loc_s lx).
Proof. destruct lx as [|[]]; reflexivity. Qed.

Lemma shr_pos (m ex n : Z) (r0 s0 : bool) :
  0 <= m -> 0 < n ->
  shr (Build_shr_record m r0 s0) ex n
  = (Build_shr_record (m / 2 ^ n) (Z.testbit m (n - 1))
       (negb (m mod 2 ^ (n - 1) =? 0) || (r0 || s0)), ex + n).
Proof.
  intros Hm Hn. destruct n as [|p|p]; try lia.
  unfold shr. rewrite iter_pos_nat.
  destruct (Pos2Nat.is_succ p) as [k Hk]. rewrite Hk, shr_iter by assumption.
  assert (Z.of_nat k = Zpos p - 1) as -> by lia.
  replace (Zpos p - 1 + 1) with (Zpos p) by lia. reflexivity.
Qed.

Lemma shr_fexp_normal (mx ex d : Z) (lx : location) :
  2 ^ (d - 1) <= mx < 2 ^ d -> 53 <= d -> -1074 <= ex + (d - 53) ->
  shr_fexp prec emax mx ex lx = shr (shr_record_of_loc mx lx) ex (d - 53).
Proof.
  intros Hm Hd He. unfold shr_fexp, fexp, emin, prec, emax.
  rewrite (Zdigits2_bounds mx d) by (assumption || lia).
  f_equal. lia.
Qed.

Lemma binary_round_aux_finish (sx : bool) (mx ex : Z) (lx : location) :
  binary_round_aux prec emax sx mx ex lx
  = finish sx (round_nearest_even (shr_m (fst (shr_fexp prec emax mx ex lx)))
                 (loc_of_shr_record (fst (shr_fexp prec emax mx ex lx))))
      (snd (shr_fexp prec emax mx ex lx)).
Proof.
  unfold binary_round_aux, finish.
  destruct (shr_fexp prec emax mx ex lx) as [mrs e]. reflexivity.
Qed.

Lemma finish_spec (sx : bool) (q1 e1 : Z) :
  2 ^ 52 <= q1 <= 2 ^ 53 -> -1074 <= e1 < 971 ->
  exists m' e',
    finish sx q1 e1 = S754_finite sx m' e'
    /\ e1 <= e' <= e1 + 1
    /\ Zpos m' * 2 ^ (e' - e1) = q1
    /\ 2 ^ 52 <= Zpos m' < 2 ^ 53.
Proof.
  intros Hq He. unfold finish.
  destruct (Z.eq_dec q1 (2 ^ 53)) as [->|Hne].
  - rewrite (shr_fexp_normal _ _ 54) by (simpl; lia).
    cbn [shr_record_of_loc]. rewrite shr_pos by (simpl; lia).
    cbn [shr_m]. change (2 ^ 53 / 2 ^ (54 - 53)) with (Zpos (Z.to_pos (2 ^ 52))).
    replace (e1 + (54 - 53) <=? emax - prec) with true
      by (symmetry; apply Z.leb_le; unfold emax, prec; lia).
    exists (Z.to_pos (2 ^ 52)), (e1 + (54 - 53)). repeat split; try lia.
    replace (e1 + (54 - 53) - e1) with 1 by lia. reflexivity.
  - rewrite (shr_fexp_normal _ _ 53) by (simpl in *; lia).
    cbn [shr_record_of_loc]. change (53 - 53) with 0. cbn [shr shr_m].
    destruct q1 as [|p|p]; try (simpl in Hq; lia).
    replace (e1 <=? emax - prec) with true
      by (symmetry; apply Z.leb_le; unfold emax, prec; lia).
    exists p, e1. repeat split; try lia.
    rewrite Z.sub_diag, Z.pow_0_r. lia.
Qed.

Lemma loc_of_record_of_loc (m : Z) (lx : location) :
  loc_of_shr_record (shr_record_of_loc m lx) = lx.
Proof. destruct lx as [|[]]; reflexivity. Qed.

Lemma shr_m_record_of_loc (m : Z) (lx : location) :
  shr_m (shr_record_of_loc m lx) = m.
Proof. destruct lx as [|[]]; reflexivity. Qed.

(** [binary_round_aux] on a mantissa of [d >= 53] digits, in the normal
    range: the result is the multiple of [2^(d-53)] nearest to the true
    value [num / den]. *)
Lemma binary_round_aux_near
      (sx : bool) (mx ex d : Z) (lx : location) (num den rho : Z) :
  2 ^ (d - 1) <= mx < 2 ^ d -> 53 <= d ->
  -1074 <= ex + (d - 53) < 971 ->
  0 < den -> num = mx * den + rho -> 0 <= rho < den -> loc_ok lx rho den ->
  exists m' e' q1,
    binary_round_aux prec emax sx mx ex lx = S754_finite sx m' e'
    /\ ex + (d - 53) <= e' <= ex + (d - 53) + 1
    /\ Zpos m' * 2 ^ (e' - (ex + (d - 53))) = q1
    /\ 2 ^ 52 <= Zpos m' < 2 ^ 53
    /\ 2 * Z.abs (q1 * 2 ^ (d - 53) * den - num) <= den * 2 ^ (d - 53).
Proof.
  intros Hm Hd He Hden Hnum Hrho Hloc.
  assert (Hmpos : 0 < mx)
    by (pose proof (Z.pow_pos_nonneg 2 (d - 1) ltac:(lia) ltac:(lia)); lia).
  rewrite binary_round_aux_finish, (shr_fexp_normal mx ex d) by (assumption || lia).
  destruct (Z.eq_dec d 53) as [->|Hd'].
  - (* no shift *)
    change (53 - 53) with 0 in *. cbn [shr fst snd].
    rewrite loc_of_record_of_loc, shr_m_record_of_loc.
    assert (Hq : round_nearest_even mx lx = mx \/ round_nearest_even mx lx = mx + 1).
    { unfold round_nearest_even. destruct lx as [|[]]; try destruct (Z.even mx); auto. }
    destruct (finish_spec sx (round_nearest_even mx lx) ex) as (m' & e' & Hf & He' & Hv & Hb).
    { change (53 - 1) with 52 in Hm. lia. }
    { lia. }
    exists m', e', (round_nearest_even mx lx).
    rewrite Z.add_0_r. repeat split; try assumption; try lia.
    rewrite Z.pow_0_r, Z.mul_1_r, Z.mul_1_r.
    unfold round_nearest_even, loc_ok in *.
    destruct lx as [|[]].
    + rewrite Hnum, Hloc. replace (mx * den - (mx * den + 0)) with 0 by ring.
      simpl. lia.
    + destruct Hloc as [Hr Hc]. apply Z.compare_eq in Hc.
      destruct (Z.even mx).
      * replace (mx * den - num) with (- rho) by (rewrite Hnum; ring). lia.
      * replace ((mx + 1) * den - num) with (den - rho) by (rewrite Hnum; ring). lia.
    + destruct Hloc as [Hr Hc]. rewrite Z.compare_lt_iff in Hc.
      replace (mx * den - num) with (- rho) by (rewrite Hnum; ring). lia.
    + destruct Hloc as [Hr Hc]. rewrite Z.compare_gt_iff in Hc.
      replace ((mx + 1) * den - num) with (den - rho) by (rewrite Hnum; ring). lia.
  - (* a shift by [n = d - 53 > 0] *)
    set (n := d - 53) in *.
    assert (Hn : 0 < n) by (unfold n; lia).
    rewrite shr_record_of_loc_bits, shr_pos by lia. cbn [fst snd shr_m].
    set (b := Z.testbit mx (n - 1)).
    set (st := negb (mx mod 2 ^ (n - 1) =? 0) || (loc_r lx || loc_s lx)).
    set (q := mx / 2 ^ n).
    set (H := 2 ^ (n - 1)).
    assert (HH : 0 < H) by (apply Z.pow_pos_nonneg; lia).
    assert (H2 : 2 ^ n = 2 * H).
    { unfold H. replace n with (n - 1 + 1) at 1 by lia.
      rewrite Z.pow_add_r by lia. change (2 ^ 1) with 2. ring. }
    assert (Hmod : mx mod 2 ^ n = mx mod H + H * Z.b2z b).
    { unfold H, b. replace n with (n - 1 + 1) at 1 by lia.
      apply mod_pow2_succ. lia. }
    pose proof (Z.mod_pos_bound mx H HH) as Hlow.
    pose proof (Z.div_mod mx (2 ^ n) ltac:(lia)) as Hdm. fold q in Hdm.
    assert (Hqb : 2 ^ 52 <= q < 2 ^ 53).
    { assert (Hd1 : 2 ^ (d - 1) = 2 ^ 52 * 2 ^ n).
      { rewrite <- Z.pow_add_r by lia. f_equal. unfold n. lia. }
      assert (Hd2 : 2 ^ d = 2 ^ 53 * 2 ^ n).
      { rewrite <- Z.pow_add_r by lia. f_equal. unfold n. lia. }
      unfold q. split.
      - apply Z.div_le_lower_bound; lia.
      - apply Z.div_lt_upper_bound; lia. }
    set (l' := loc_of_shr_record (Build_shr_record q b st)).
    assert (Hq : round_nearest_even q l' = q \/ round_nearest_even q l' = q + 1).
    { unfold round_nearest_even. destruct l' as [|[]]; try destruct (Z.even q); auto. }
    destruct (finish_spec sx (round_nearest_even q l') (ex + n))
      as (m' & e' & Hf & He' & Hv & Hb).
    { lia. }
    { lia. }
    exists m', e', (round_nearest_even q l').
    repeat split; try assumption; try lia.
    (* nearness *)
    set (low := mx mod H) in *.
    assert (Hmx : mx * den = (2 * H * q + (low + H * Z.b2z b)) * den).
    { f_equal. rewrite <- Hmod, <- H2. exact Hdm. }
    set (L := low * den).
    set (A := H * den).
    assert (HL : 0 <= L <= A - den).
    { unfold L, A. split.
      - apply Z.mul_nonneg_nonneg; lia.
      - replace (H * den - den) with ((H - 1) * den) by ring.
        apply Z.mul_le_mono_nonneg_r; lia. }
    assert (HA : den * 2 ^ n = 2 * A) by (unfold A; rewrite H2; ring).
    rewrite HA, Hnum, Hmx, H2.
    unfold l', round_nearest_even, loc_of_shr_record.
    destruct b eqn:Eb; simpl Z.b2z.
    + (* the round bit is set *)
      assert (Hup : (q + 1) * (2 * H) * den
                    - ((2 * H * q + (low + H * 1)) * den + rho) = A - L - rho)
        by (unfold A, L; ring).
      destruct st eqn:Est.
      * rewrite Hup. lia.
      * (* a tie: nothing else was discarded *)
        unfold st in Est. apply orb_false_iff in Est. destruct Est as [E1 E2].
        apply negb_false_iff, Z.eqb_eq in E1.
        assert (rho = 0).
        { destruct lx as [|[]]; simpl in E2; try discriminate. exact Hloc. }
        assert (L = 0) by (unfold L, low, H; rewrite E1; ring).
        destruct (Z.even q).
        -- replace (q * (2 * H) * den
                    - ((2 * H * q + (low + H * 1)) * den + rho))
             with (- (A + L + rho)) by (unfold A, L; ring).
           lia.
        -- rewrite Hup. lia.
    + (* the round bit is clear: round down *)
      replace (q * (2 * H) * den - ((2 * H * q + (low + H * 0)) * den + rho))
        with (- (L + rho)) by (unfold L; ring).
      destruct st; lia.
Qed.

End Round_to_nearest.

Section Python_float_facts.

Lemma iter_xO (p d : positive) : Zpos (Pos.iter xO p d) = Zpos p * 2 ^ Zpos d.
Proof.
  induction d as [|d IH] using Pos.peano_ind.
  - simpl. lia.
  - rewrite Pos.iter_succ, Pos2Z.inj_succ, Z.pow_succ_r by lia.
    rewrite Pos2Z.inj_xO, IH. ring.
Qed.

Lemma shl_align_spec (p : positive) (ex ex' : Z) :
  ex' <= ex ->
  exists mz, shl_align p ex ex' = (mz, ex') /\ Zpos mz = Zpos p * 2 ^ (ex - ex').
Proof.
  intros Hle. unfold shl_align. destruct (ex' - ex) as [|q|q] eqn:E; try lia.
  - exists p. assert (ex' = ex) as -> by lia. rewrite Z.sub_diag, Z.pow_0_r.
    split; [reflexivity | lia].
  - exists (Pos.iter xO p q). split; [reflexivity|].
    rewrite iter_xO. f_equal. f_equal. lia.
Qed.

(** [float(c)] is exact below [2^53]: the mantissa is [c] shifted left
    to 53 bits. *)
Lemma of_int_exact (c : Z) :
  0 < c < 2 ^ 53 ->
  exists mc j,
    of_int c = Ok (S754_finite false mc (- j))
    /\ 0 <= j /\ Zpos mc = c * 2 ^ j /\ 2 ^ 52 <= Zpos mc < 2 ^ 53.
Proof.
  intros Hc. destruct c as [|p|p]; try lia.
  unfold of_int, binary_normalize, binary_round.
  set (dc := Z.log2 (Zpos p) + 1).
  pose proof (Z.log2_spec (Zpos p) ltac:(lia)) as Hlog.
  pose proof (Z.log2_nonneg (Zpos p)) as Hnn.
  fold (Zdigits2 (Zpos p)). rewrite Zdigits2_log2. fold dc.
  assert (Hdc : dc <= 53).
  { destruct (Z.le_gt_cases dc 53) as [|Hgt]; [assumption|].
    assert (2 ^ 53 <= 2 ^ Z.log2 (Zpos p))
      by (apply Z.pow_le_mono_r; unfold dc in Hgt; lia).
    lia. }
  assert (Hfexp : fexp prec emax (dc + 0) = dc - 53)
    by (unfold fexp, emin, prec, emax; lia).
  rewrite Hfexp.
  destruct (shl_align_spec p 0 (dc - 53) ltac:(lia)) as (mz & Hsa & Hmz).
  rewrite Hsa.
  replace (0 - (dc - 53)) with (53 - dc) in Hmz by lia.
  assert (Hb : 2 ^ 52 <= Zpos mz < 2 ^ 53).
  { rewrite Hmz.
    replace (2 ^ 52) with (2 ^ (dc - 1) * 2 ^ (53 - dc))
      by (rewrite <- Z.pow_add_r by lia; f_equal; lia).
    replace (2 ^ 53) with (2 ^ dc * 2 ^ (53 - dc))
      by (rewrite <- Z.pow_add_r by lia; f_equal; lia).
    pose proof (Z.pow_pos_nonneg 2 (53 - dc) ltac:(lia) ltac:(lia)).
    assert (Hlog' : 2 ^ (dc - 1) <= Zpos p < 2 ^ dc).
    { unfold dc. replace (Z.log2 (Zpos p) + 1 - 1) with (Z.log2 (Zpos p)) by lia.
      exact Hlog. }
    split.
    - apply Z.mul_le_mono_nonneg_r; lia.
    - apply Z.mul_lt_mono_pos_r; lia. }
  destruct (binary_round_aux_near false (Zpos mz) (dc - 53) 53 loc_Exact
              (Zpos mz) 1 0)
    as (m' & e' & q1 & Hf & He' & Hv & Hm' & Hnear);
    try (simpl; lia).
  rewrite Hf.
  change (53 - 53) with 0 in *. rewrite Z.pow_0_r in Hnear.
  assert (Hq1 : q1 = Zpos mz) by lia. rewrite Hq1 in Hv. clear Hq1 Hnear.
  assert (e' = dc - 53).
  { destruct (Z.eq_dec e' (dc - 53)) as [|Hne]; [assumption|].
    assert (e' - (dc - 53 + 0) = 1) as Hone by lia.
    rewrite Hone in Hv. change (2 ^ 1) with 2 in Hv. lia. }
  subst e'. rewrite Z.add_0_r, Z.sub_diag, Z.pow_0_r, Z.mul_1_r in Hv.
  exists mz, (53 - dc). replace (- (53 - dc)) with (dc - 53) by lia.
  injection Hv as ->. repeat split; try lia.
Qed.

(** The arithmetic behind [int(c * 0.6)]: rounding the 106-bit product
    [c * 2^j * 0x13333333333333] to 53 bits never crosses an integer. *)
Lemma mul_0_6_arith (c J P N q1 : Z) :
  0 < c -> 8 <= J -> 2 ^ 52 <= c * J < 2 ^ 53 ->
  P = c * J * 5404319552844595 ->
  (N = 2 ^ 52 /\ P < 2 ^ 105) \/ (N = 2 ^ 53 /\ 2 ^ 105 <= P) ->
  2 * Z.abs (q1 * N - P) <= N ->
  (q1 * N) / (2 ^ 53 * J) = c * 6 / 10.
Proof.
  intros Hc HJ HC HP HN Hnear.
  pose proof (Z.div_mod (c * 6) 10 ltac:(lia)) as Hdm.
  pose proof (Z.mod_pos_bound (c * 6) 10 ltac:(lia)) as Hr.
  set (a := c * 6 / 10) in *. set (r := (c * 6) mod 10) in *.
  assert (HCA : 6 * (c * J) = 10 * (a * J) + r * J).
  { replace (6 * (c * J)) with (c * 6 * J) by ring. rewrite Hdm. ring. }
  symmetry. apply (Z.div_unique _ _ a (q1 * N - 2 ^ 53 * (a * J))); [|ring].
  left.
  change (2 ^ 52) with 4503599627370496 in *.
  change (2 ^ 53) with 9007199254740992 in *.
  change (2 ^ 105) with 40564819207303340847894502572032 in *.
  assert (Hcases : r = 0 \/ r = 1 \/ r = 2 \/ r = 3 \/ r = 4 \/ r = 5 \/ r = 6
                   \/ r = 7 \/ r = 8 \/ r = 9) by lia.
  destruct HN as [[-> HPb]|[-> HPb]];
    destruct Hcases as [E|[E|[E|[E|[E|[E|[E|[E|[E|E]]]]]]]]];
    rewrite E in HCA; lia.
Qed.

(** [int(c * 0.6)] is [floor(6 c / 10)] for every positive [c] a
    [timedelta] can hold. *)
Lemma int_mul_0_6 (c : Z) :
  0 < c < 2 ^ 50 ->
  (x <- int_mul_float c lit_0_6 ;; to_int x) = Ok (c * 6 / 10).
Proof.
  intros Hc.
  destruct (of_int_exact c) as (mc & j & Hof & Hj & Hmc & Hmcb).
  { change (2 ^ 50) with 1125899906842624 in Hc.
    change (2 ^ 53) with 9007199254740992. lia. }
  unfold int_mul_float. rewrite Hof. cbn [bind Ok].
  unfold mul, lit_0_6. cbn [SFmul xorb].
  set (P := Zpos (mc * 5404319552844595)).
  assert (HP : P = c * 2 ^ j * 5404319552844595)
    by (unfold P; rewrite Pos2Z.inj_mul, Hmc; reflexivity).
  assert (Hj3 : 3 <= j).
  { destruct (Z.le_gt_cases 3 j) as [|Hlt]; [assumption|].
    assert (2 ^ j <= 2 ^ 2) by (apply Z.pow_le_mono_r; lia).
    change (2 ^ 2) with 4 in *. change (2 ^ 50) with 1125899906842624 in Hc.
    change (2 ^ 52) with 4503599627370496 in Hmcb. nia. }
  assert (HJ : 8 <= 2 ^ j)
    by (change 8 with (2 ^ 3); apply Z.pow_le_mono_r; lia).
  assert (HPb : 2 ^ 104 <= P < 2 ^ 106).
  { unfold P. rewrite Pos2Z.inj_mul.
    change (2 ^ 104) with (2 ^ 52 * 2 ^ 52).
    change (2 ^ 106) with (2 ^ 53 * 2 ^ 53). split.
    - apply Z.mul_le_mono_nonneg; simpl; lia.
    - apply Z.mul_lt_mono_nonneg; simpl in *; lia. }
  assert (Hd : exists d, (d = 105 \/ d = 106) /\ 2 ^ (d - 1) <= P < 2 ^ d).
  { destruct (Z.lt_ge_cases P (2 ^ 105)).
    - exists 105. change (105 - 1) with 104. lia.
    - exists 106. change (106 - 1) with 105. lia. }
  destruct Hd as (d & Hd & HPd).
  assert (Hj52 : j <= 52).
  { destruct (Z.le_gt_cases j 52) as [|Hgt]; [assumption|].
    assert (2 ^ 53 <= 2 ^ j) by (apply Z.pow_le_mono_r; lia).
    change (2 ^ 53) with 9007199254740992 in *. nia. }
  destruct (binary_round_aux_near false P (- j + -53) d loc_Exact P 1 0)
    as (m' & e' & q1 & Hf & He' & Hv & Hm' & Hnear);
    try assumption; try (simpl; lia).
  rewrite Hf. cbn [bind Ok to_int cond_Zopp]. unfold Ok. f_equal.
  rewrite Z.shiftl_div_pow2 by lia.
  rewrite <- (mul_0_6_arith c (2 ^ j) P (2 ^ (d - 53)) q1); try assumption; try lia.
  - (* the truncation reads the rounded product at scale [2^(53+j)] *)
    rewrite <- Hv.
    replace (Zpos m' * 2 ^ (e' - (- j + -53 + (d - 53))) * 2 ^ (d - 53))
      with (Zpos m' * 2 ^ (e' + j + 53)).
    + replace (2 ^ 53 * 2 ^ j) with (2 ^ (- e') * 2 ^ (e' + j + 53)).
      * rewrite Z.div_mul_cancel_r; try reflexivity;
          apply Z.pow_nonzero; lia.
      * rewrite <- !Z.pow_add_r by lia. f_equal. lia.
    + rewrite <- Z.mul_assoc, <- Z.pow_add_r by lia. f_equal. f_equal. lia.
  - destruct Hd as [->| ->]; [left | right].
    + change (105 - 53) with 52. change (105 - 1) with 104 in HPd. lia.
    + change (106 - 53) with 53. change (106 - 1) with 105 in HPd. lia.
Qed.

(** The sign of a product is set apart from its rounding, so negating
    the integer negates [int(c * 0.6)]. *)
Lemma binary_round_aux_opp (mx ex : Z) (lx : location) :
  binary_round_aux prec emax true mx ex lx
  = SFopp (binary_round_aux prec emax false mx ex lx).
Proof.
  unfold binary_round_aux.
  destruct (shr_fexp prec emax mx ex lx) as [mrs' e'].
  destruct (shr_fexp prec emax
              (round_nearest_even (shr_m mrs') (loc_of_shr_record mrs'))
              e' loc_Exact) as [mrs'' e''].
  destruct (shr_m mrs''); [reflexivity| |reflexivity].
  destruct (e'' <=? emax - prec); reflexivity.
Qed.

Lemma SFopp_involutive (x : float) : SFopp (SFopp x) = x.
Proof. destruct x as [s|s| |s m e]; cbn; rewrite ?negb_involutive; reflexivity. Qed.

Lemma of_int_neg (p : positive) (f : float) :
  of_int (Zpos p) = Ok f -> of_int (Zneg p) = Ok (SFopp f).
Proof.
  unfold of_int, binary_normalize, binary_round.
  destruct (shl_align p 0 _) as [mz ez].
  rewrite binary_round_aux_opp.
  destruct (binary_round_aux prec emax false (Zpos mz) ez loc_Exact);
    cbn [SFopp]; try discriminate; intros [= <-]; reflexivity.
Qed.

Lemma mul_opp_l (x y : float) : mul (SFopp x) y = SFopp (mul x y).
Proof.
  unfold mul.
  destruct x as [s|s| |s m e], y as [t|t| |t n k]; cbn [SFopp SFmul];
    try reflexivity;
    try (destruct s, t; reflexivity).
  destruct s, t; cbn [negb xorb];
    rewrite ?binary_round_aux_opp, ?SFopp_involutive; reflexivity.
Qed.

Lemma to_int_opp (x : float) (v : Z) :
  to_int x = Ok v -> to_int (SFopp x) = Ok (- v).
Proof.
  destruct x as [s|s| |s m e]; cbn [to_int SFopp]; try discriminate;
    intros [= <-]; [reflexivity|].
  unfold Ok. f_equal. destruct s; cbn [negb cond_Zopp]; lia.
Qed.

(** [int(c * 0.6)] truncates [6 c / 10] toward zero, for every [c] a
    [timedelta] can hold, of either sign. *)
Lemma int_mul_0_6_trunc (c : Z) :
  Z.abs c < 2 ^ 50 ->
  (x <- int_mul_float c lit_0_6 ;; to_int x) = Ok (Z.quot (c * 6) 10).
Proof.
  intros Hc. destruct c as [|p|p].
  - reflexivity.
  - rewrite int_mul_0_6 by lia. rewrite Z.quot_div_nonneg by lia. reflexivity.
  - pose proof (int_mul_0_6 (Zpos p) ltac:(lia)) as Hpos.
    unfold int_mul_float in *.
    destruct (of_int (Zpos p)) as [e|f] eqn:Hof; [discriminate|].
    cbn [bind] in Hpos. rewrite (of_int_neg _ _ Hof). cbn [bind Ok].
    rewrite mul_opp_l. rewrite (to_int_opp _ _ Hpos).
    unfold Ok. f_equal.
    change (Zneg p * 6) with (- (Zpos p * 6)).
    rewrite Z.quot_opp_l by lia. rewrite Z.quot_div_nonneg by lia.
    reflexivity.
Qed.

End Python_float_facts.

Section Python_mean_facts.

Lemma div_eucl_div_mod (a b : Z) : Z.div_eucl a b = (a / b, a mod b).
Proof. unfold Z.div, Z.modulo. destruct (Z.div_eucl a b). reflexivity. Qed.

Lemma nearest_even_near (m e : Z) :
  0 <= m -> e < 0 ->
  2 * Z.abs (nearest_even m e * 2 ^ (- e) - m) <= 2 ^ (- e).
Proof.
  intros Hm He. unfold nearest_even.
  replace (0 <=? e) with false by (symmetry; apply Z.leb_gt; lia).
  set (U := 2 ^ (- e)).
  assert (HU : 0 < U) by (apply Z.pow_pos_nonneg; lia).
  pose proof (Z.div_mod m U ltac:(lia)) as Hdm.
  pose proof (Z.mod_pos_bound m U HU) as Hr.
  set (q := m / U) in *. set (r := m mod U) in *.
  destruct (Z.compare_spec (2 * r) U) as [E|E|E].
  - destruct (Z.even q).
    + replace (q * U - m) with (- r) by (rewrite Hdm; ring). lia.
    + replace ((q + 1) * U - m) with (U - r) by (rewrite Hdm; ring). lia.
  - replace (q * U - m) with (- r) by (rewrite Hdm; ring). lia.
  - replace ((q + 1) * U - m) with (U - r) by (rewrite Hdm; ring). lia.
Qed.

Lemma new_location_3 (r : Z) :
  0 <= r < 3 -> loc_ok (new_location 3 r) r 3.
Proof.
  intros Hr. assert (r = 0 \/ r = 1 \/ r = 2) as [->|[->| ->]] by lia;
    simpl; auto; split; (lia || reflexivity).
Qed.

Lemma SFdiv_core_3 (a : positive) :
  Zpos a < 2 ^ 53 ->
  exists t,
    2 <= t <= 54
    /\ 2 ^ 54 <= Zpos a * 2 ^ t < 2 ^ 55
    /\ SFdiv_core_binary prec emax (Zpos a) 0 3 0
       = (Zpos a * 2 ^ t / 3, - t, new_location 3 ((Zpos a * 2 ^ t) mod 3)).
Proof.
  intros Ha.
  pose proof (Z.log2_spec (Zpos a) ltac:(lia)) as Hlog.
  pose proof (Z.log2_nonneg (Zpos a)) as Hnn.
  set (l := Z.log2 (Zpos a)) in *. unfold Z.succ in Hlog.
  assert (Hl : l <= 52).
  { destruct (Z.le_gt_cases l 52) as [|Hgt]; [assumption|].
    assert (2 ^ 53 <= 2 ^ l) by (apply Z.pow_le_mono_r; lia). lia. }
  exists (54 - l). split; [lia|]. split.
  - replace (2 ^ 54) with (2 ^ l * 2 ^ (54 - l))
      by (rewrite <- Z.pow_add_r by lia; f_equal; lia).
    replace (2 ^ 55) with (2 ^ (l + 1) * 2 ^ (54 - l))
      by (rewrite <- Z.pow_add_r by lia; f_equal; lia).
    pose proof (Z.pow_pos_nonneg 2 (54 - l) ltac:(lia) ltac:(lia)).
    split.
    + apply Z.mul_le_mono_nonneg_r; lia.
    + apply Z.mul_lt_mono_pos_r; lia.
  - unfold SFdiv_core_binary. rewrite Zdigits2_log2. fold l.
    change (Zdigits2 3) with 2.
    assert (He : Z.min (fexp prec emax (l + 1 + 0 - (2 + 0))) (0 - 0) = - (54 - l))
      by (unfold fexp, emin, prec, emax; lia).
    rewrite He.
    replace (0 - 0 - - (54 - l)) with (54 - l) by lia.
    destruct (54 - l) as [|t|t] eqn:Et; try lia.
    rewrite Z.shiftl_mul_pow2 by lia. rewrite div_eucl_div_mod. reflexivity.
Qed.

(** The magnitude of [round(a / 3)]: the integer nearest to [a / 3]. *)
Lemma truediv_3_round_pos (sg : bool) (a : positive) :
  Zpos a < 3 * 2 ^ 51 ->
  exists N,
    round (SFdiv prec emax (S754_finite sg a 0) (S754_finite false 3 0))
    = Ok (cond_Zopp sg N)
    /\ (exists f, SFdiv prec emax (S754_finite sg a 0) (S754_finite false 3 0)
                  = S754_finite sg (fst f) (snd f))
    /\ 3 * N - 1 <= Zpos a <= 3 * N + 1.
Proof.
  intros Ha.
  destruct (SFdiv_core_3 a) as (t & Ht & HaT & Hcore).
  { change (2 ^ 51) with 2251799813685248 in Ha.
    change (2 ^ 53) with 9007199254740992. lia. }
  cbn [SFdiv]. rewrite Hcore. rewrite xorb_false_r.
  set (T := 2 ^ t) in *.
  set (q := Zpos a * T / 3). set (r := (Zpos a * T) mod 3).
  pose proof (Z.div_mod (Zpos a * T) 3 ltac:(lia)) as Hdm.
  pose proof (Z.mod_pos_bound (Zpos a * T) 3 ltac:(lia)) as Hr.
  fold q r in Hdm, Hr.
  change (2 ^ 54) with 18014398509481984 in HaT.
  change (2 ^ 55) with 36028797018963968 in HaT.
  assert (Hd : exists d, (d = 53 \/ d = 54) /\ 2 ^ (d - 1) <= q < 2 ^ d).
  { destruct (Z.lt_ge_cases q (2 ^ 53)) as [Hlt|Hge].
    - exists 53. change (53 - 1) with 52.
      change (2 ^ 52) with 4503599627370496.
      change (2 ^ 53) with 9007199254740992 in *. lia.
    - exists 54. change (54 - 1) with 53.
      change (2 ^ 54) with 18014398509481984.
      change (2 ^ 53) with 9007199254740992 in *. lia. }
  destruct Hd as (d & Hd & Hqd).
  destruct (binary_round_aux_near sg q (- t) d (new_location 3 r)
              (Zpos a * T) 3 r)
    as (m' & e' & q1 & Hf & He' & Hv & Hm' & Hnear);
    try assumption; try lia.
  { apply new_location_3. assumption. }
  rewrite Hf. cbn [round].
  exists (nearest_even (Zpos m') e'). split; [reflexivity|].
  split; [exists (m', e'); reflexivity|].
  (* the quotient stays below [2^51], so its last bit weighs at most
     a quarter *)
  assert (HTpos : 0 < T) by (apply Z.pow_pos_nonneg; lia).
  assert (Hq51 : q < 2 ^ (51 + t)).
  { rewrite Z.pow_add_r by lia. fold T.
    apply Z.div_lt_upper_bound; [lia|].
    change (2 ^ 51) with 2251799813685248 in *. nia. }
  assert (He0 : - t + (d - 53) <= -2).
  { assert (d - 1 < 51 + t); [|lia].
    apply (Z.pow_lt_mono_r_iff 2); lia. }
  assert (He2 : e' <= -2).
  { destruct (Z.le_gt_cases e' (-2)) as [|Hgt]; [assumption|]. exfalso.
    assert (He1 : e' - (- t + (d - 53)) = 1) by lia.
    rewrite He1 in Hv. change (2 ^ 1) with 2 in Hv.
    change (2 ^ 52) with 4503599627370496 in Hm'.
    change (2 ^ 51) with 2251799813685248 in Ha.
    destruct Hd as [Hd|Hd]; subst d.
    - assert (t = 2) by lia. subst t. unfold T in *.
      change (53 - 53) with 0 in *. change (2 ^ 0) with 1 in *.
      change (2 ^ 2) with 4 in *. lia.
    - assert (t = 3) by lia. subst t. unfold T in *.
      change (54 - 53) with 1 in *. change (2 ^ 1) with 2 in *.
      change (2 ^ 3) with 8 in *. lia. }
  assert (He'neg : e' < 0) by lia.
  pose proof (nearest_even_near (Zpos m') e' ltac:(lia) He'neg) as HN.
  set (N := nearest_even (Zpos m') e') in *.
  set (U := 2 ^ (- e')) in *.
  assert (HU : 4 <= U).
  { change 4 with (2 ^ 2). apply Z.pow_le_mono_r; lia. }
  (* [T = V * U] with [V = 2^(e' + t)], one of 1, 2, 4 *)
  set (n := d - 53) in *.
  assert (HT : T = 2 ^ (e' - (- t + n)) * 2 ^ n * U).
  { unfold T, U. rewrite <- !Z.pow_add_r by lia. f_equal. lia. }
  assert (Hn : (n = 0 /\ 2 ^ n = 1) \/ (n = 1 /\ 2 ^ n = 2)).
  { destruct Hd as [Hd|Hd].
    - left. split; [lia|]. replace n with 0 by lia. reflexivity.
    - right. split; [lia|]. replace n with 1 by lia. reflexivity. }
  assert (Hk : 2 ^ (e' - (- t + n)) = 1 \/ 2 ^ (e' - (- t + n)) = 2).
  { assert (e' - (- t + n) = 0 \/ e' - (- t + n) = 1) as [->| ->] by lia;
      [left | right]; reflexivity. }
  assert (HaU : Zpos a * T = Zpos a * U * (2 ^ (e' - (- t + n)) * 2 ^ n))
    by (rewrite HT; ring).
  assert (Hup : 3 * N - Zpos a <= 1).
  { destruct (Z.le_gt_cases (3 * N - Zpos a) 1) as [|Hgt]; [assumption|].
    assert (2 * U <= (3 * N - Zpos a) * U)
      by (apply Z.mul_le_mono_nonneg_r; lia).
    destruct Hn as [[_ Hn]|[_ Hn]]; destruct Hk as [Hk|Hk];
      rewrite Hn, Hk in *; lia. }
  assert (Hlo : -1 <= 3 * N - Zpos a).
  { destruct (Z.le_gt_cases (-1) (3 * N - Zpos a)) as [|Hgt]; [assumption|].
    assert (2 * U <= (Zpos a - 3 * N) * U)
      by (apply Z.mul_le_mono_nonneg_r; lia).
    destruct Hn as [[_ Hn]|[_ Hn]]; destruct Hk as [Hk|Hk];
      rewrite Hn, Hk in *; lia. }
  lia.
Qed.

(** [round(s / 3)] is the integer nearest to [s / 3] as long as the
    quotient stays below [2^51], and at the two sums next to it. *)
Lemma truediv_3_round (s : Z) :
  Z.abs s <= 3 * 2 ^ 51 + 1 ->
  (x <- int_truediv s 3 ;; round x) = Ok ((s + 1) / 3).
Proof.
  intros Hs. change (3 * 2 ^ 51 + 1) with 6755399441055745 in Hs.
  assert (Hc : Z.abs s < 3 * 2 ^ 51
               \/ s = 6755399441055744 \/ s = 6755399441055745
               \/ s = -6755399441055744 \/ s = -6755399441055745)
    by (change (3 * 2 ^ 51) with 6755399441055744; lia).
  destruct Hc as [Hlt|[->|[->|[->| ->]]]];
    [|vm_compute; reflexivity..].
  unfold int_truediv. change (3 =? 0) with false. cbv iota.
  change (exact_int 3) with (S754_finite false 3 0).
  destruct s as [|a|a].
  - reflexivity.
  - change (exact_int (Zpos a)) with (S754_finite false a 0).
    destruct (truediv_3_round_pos false a ltac:(lia)) as (N & HN & [f Hf] & Hb).
    rewrite Hf in *. cbn [bind Ok]. rewrite HN. cbn [cond_Zopp].
    unfold Ok. f_equal.
    apply (Z.div_unique _ _ N (Zpos a + 1 - 3 * N)); lia.
  - change (exact_int (Zneg a)) with (S754_finite true a 0).
    destruct (truediv_3_round_pos true a ltac:(lia)) as (N & HN & [f Hf] & Hb).
    rewrite Hf in *. cbn [bind Ok]. rewrite HN. cbn [cond_Zopp].
    unfold Ok. f_equal.
    apply (Z.div_unique _ _ (- N) (Zneg a + 1 - 3 * (- N))); lia.
Qed.

(** The model on a few values, as CPython prints them. *)
Example lit_0_6_nearest : 5 * 5404319552844595 = 3 * 2 ^ 53 - 1.
Proof. reflexivity. Qed.

Example int_mul_float_three :
  int_mul_float 5 lit_0_6 = Ok (S754_finite false 6755399441055744 (-51)).
Proof. reflexivity. Qed.

Example int_of_products :
  map (fun c => x <- int_mul_float c lit_0_6 ;; to_int x) [1; 5; 28; 35; -7; 0]
  = [Ok 0; Ok 3; Ok 16; Ok 21; Ok (-4); Ok 0].
Proof. reflexivity. Qed.

Example rounded_thirds :
  map (fun s => x <- int_truediv s 3 ;; round x) [84; 85; 86; 0; -1; -2; -4; -5]
  = [Ok 28; Ok 28; Ok 29; Ok 0; Ok 0; Ok (-1); Ok (-1); Ok (-2)].
Proof. reflexivity. Qed.

(** Past [2^53] a double no longer resolves thirds. *)
Example rounded_third_beyond_binary64 :
  (x <- int_truediv 9007199254740994 3 ;; round x) = Ok 3002399751580332
  /\ nearest_third 9007199254740994 = 3002399751580331.
Proof. split; reflexivity. Qed.

(** The bound of [truediv_3_round] is the best one: the next sum is
    the first whose rounded third is not the nearest integer. *)
Example rounded_third_first_miss :
  (x <- int_truediv (3 * 2 ^ 51 + 2) 3 ;; round x) = Ok (2 ^ 51)
  /\ nearest_third (3 * 2 ^ 51 + 2) = 2 ^ 51 + 1.
Proof. split; vm_compute; reflexivity. Qed.

End Python_mean_facts.

Section Large_quotients.

Lemma finish_cases (sx : bool) (q1 e1 : Z) :
  2 ^ 52 <= q1 <= 2 ^ 53 -> -1074 <= e1 ->
  finish sx q1 e1 = S754_infinity sx
  \/ exists m' e',
      finish sx q1 e1 = S754_finite sx m' e'
      /\ e1 <= e' /\ 2 ^ 52 <= Zpos m'.
Proof.
  intros Hq He. unfold finish.
  destruct (Z.eq_dec q1 (2 ^ 53)) as [->|Hne].
  - rewrite (shr_fexp_normal _ _ 54) by (simpl; lia).
    cbn [shr_record_of_loc]. rewrite shr_pos by (simpl; lia).
    cbn [shr_m]. change (2 ^ 53 / 2 ^ (54 - 53)) with (Zpos (Z.to_pos (2 ^ 52))).
    destruct (e1 + (54 - 53) <=? emax - prec); [right | left; reflexivity].
    exists (Z.to_pos (2 ^ 52)), (e1 + (54 - 53)).
    split; [reflexivity|]. split; [lia | simpl; lia].
  - rewrite (shr_fexp_normal _ _ 53) by (simpl in *; lia).
    cbn [shr_record_of_loc]. change (53 - 53) with 0. cbn [shr shr_m].
    destruct q1 as [|p|p]; try (simpl in Hq; lia).
    destruct (e1 <=? emax - prec); [right | left; reflexivity].
    exists p, e1. split; [reflexivity|]. split; lia.
Qed.

(** Without a bound on the exponent: the result is infinite or keeps a
    53-bit mantissa at an exponent no smaller than the shifted one. *)
Lemma binary_round_aux_large (sx : bool) (mx ex d : Z) (lx : location) :
  2 ^ (d - 1) <= mx < 2 ^ d -> 53 <= d -> -1074 <= ex + (d - 53) ->
  binary_round_aux prec emax sx mx ex lx = S754_infinity sx
  \/ exists m' e',
      binary_round_aux prec emax sx mx ex lx = S754_finite sx m' e'
      /\ ex + (d - 53) <= e' /\ 2 ^ 52 <= Zpos m'.
Proof.
  intros Hm Hd He.
  assert (Hmpos : 0 < mx)
    by (pose proof (Z.pow_pos_nonneg 2 (d - 1) ltac:(lia) ltac:(lia)); lia).
  rewrite binary_round_aux_finish, (shr_fexp_normal mx ex d) by (assumption || lia).
  assert (Hstage :
            exists q l,
              2 ^ 52 <= q < 2 ^ 53
              /\ shr_m (fst (shr (shr_record_of_loc mx lx) ex (d - 53))) = q
              /\ loc_of_shr_record
                   (fst (shr (shr_record_of_loc mx lx) ex (d - 53))) = l
              /\ snd (shr (shr_record_of_loc mx lx) ex (d - 53)) = ex + (d - 53)).
  { destruct (Z.eq_dec d 53) as [->|Hd'].
    - exists mx, lx. change (53 - 53) with 0. cbn [shr fst snd].
      rewrite loc_of_record_of_loc, shr_m_record_of_loc.
      change (53 - 1) with 52 in Hm. repeat split; lia.
    - set (n := d - 53) in *.
      rewrite shr_record_of_loc_bits, shr_pos by lia. cbn [fst snd shr_m].
      eexists. eexists. split; [|repeat split; reflexivity].
      assert (Hd1 : 2 ^ (d - 1) = 2 ^ 52 * 2 ^ n)
        by (rewrite <- Z.pow_add_r by lia; f_equal; unfold n; lia).
      assert (Hd2 : 2 ^ d = 2 ^ 53 * 2 ^ n)
        by (rewrite <- Z.pow_add_r by lia; f_equal; unfold n; lia).
      pose proof (Z.pow_pos_nonneg 2 n ltac:(lia) ltac:(lia)).
      split.
      + apply Z.div_le_lower_bound; lia.
      + apply Z.div_lt_upper_bound; lia. }
  destruct Hstage as (q & l & Hq & -> & -> & ->).
  assert (Hq1 : round_nearest_even q l = q \/ round_nearest_even q l = q + 1).
  { unfold round_nearest_even. destruct l as [|[]]; try destruct (Z.even q); auto. }
  apply finish_cases; lia.
Qed.

Lemma SFdiv_core_3_any (a : positive) :
  exists t,
    0 <= t <= 54
    /\ 2 ^ 54 <= Zpos a * 2 ^ t
    /\ SFdiv_core_binary prec emax (Zpos a) 0 3 0
       = (Zpos a * 2 ^ t / 3, - t, new_location 3 ((Zpos a * 2 ^ t) mod 3)).
Proof.
  pose proof (Z.log2_spec (Zpos a) ltac:(lia)) as Hlog.
  pose proof (Z.log2_nonneg (Zpos a)) as Hnn.
  set (l := Z.log2 (Zpos a)) in *. unfold Z.succ in Hlog.
  unfold SFdiv_core_binary. rewrite Zdigits2_log2. fold l.
  change (Zdigits2 3) with 2.
  destruct (Z.le_gt_cases l 53) as [Hl|Hl].
  - exists (54 - l). split; [lia|]. split.
    + replace (2 ^ 54) with (2 ^ l * 2 ^ (54 - l))
        by (rewrite <- Z.pow_add_r by lia; f_equal; lia).
      pose proof (Z.pow_pos_nonneg 2 (54 - l) ltac:(lia) ltac:(lia)).
      apply Z.mul_le_mono_nonneg_r; lia.
    + assert (He : Z.min (fexp prec emax (l + 1 + 0 - (2 + 0))) (0 - 0)
                   = - (54 - l))
        by (unfold fexp, emin, prec, emax; lia).
      rewrite He. replace (0 - 0 - - (54 - l)) with (54 - l) by lia.
      destruct (54 - l) as [|t|t] eqn:Et; try lia.
      rewrite Z.shiftl_mul_pow2 by lia. rewrite div_eucl_div_mod. reflexivity.
  - exists 0. split; [lia|]. split.
    + rewrite Z.pow_0_r, Z.mul_1_r.
      assert (2 ^ 54 <= 2 ^ l) by (apply Z.pow_le_mono_r; lia). lia.
    + assert (He : Z.min (fexp prec emax (l + 1 + 0 - (2 + 0))) (0 - 0) = 0)
        by (unfold fexp, emin, prec, emax; lia).
      rewrite He. change (0 - 0 - 0) with 0. cbv iota.
      rewrite Z.pow_0_r, Z.mul_1_r, div_eucl_div_mod. reflexivity.
Qed.

(** A sum beyond [2^50] has a rounded third beyond [2^48], when it has
    one at all. *)
Lemma truediv_3_round_large (s N : Z) :
  2 ^ 50 < Z.abs s ->
  (x <- int_truediv s 3 ;; round x) = Ok N -> 2 ^ 48 <= Z.abs N.
Proof.
  intros Hs. unfold int_truediv. change (3 =? 0) with false. cbv iota.
  change (exact_int 3) with (S754_finite false 3 0).
  assert (Hmag : exists sg a, exact_int s = S754_finite sg a 0
                              /\ 2 ^ 50 < Zpos a).
  { destruct s as [|a|a]; [simpl in Hs; lia| |].
    - exists false, a. split; [reflexivity | exact Hs].
    - exists true, a. split; [reflexivity | exact Hs]. }
  destruct Hmag as (sg & a & -> & Ha). clear Hs.
  cbn [SFdiv]. rewrite xorb_false_r.
  destruct (SFdiv_core_3_any a) as (t & Ht & HaT & ->).
  set (T := 2 ^ t) in *.
  assert (HT : 0 < T) by (apply Z.pow_pos_nonneg; lia).
  set (q := Zpos a * T / 3).
  pose proof (Z.div_mod (Zpos a * T) 3 ltac:(lia)) as Hdm.
  pose proof (Z.mod_pos_bound (Zpos a * T) 3 ltac:(lia)) as Hr.
  fold q in Hdm.
  assert (Hq52 : 2 ^ 52 <= q).
  { change (2 ^ 54) with 18014398509481984 in HaT.
    change (2 ^ 52) with 4503599627370496. lia. }
  assert (Hq48 : 2 ^ (48 + t) <= q).
  { assert (HaT' : 2 ^ 50 * T < Zpos a * T)
      by (apply Z.mul_lt_mono_pos_r; assumption).
    rewrite Z.pow_add_r by lia. fold T.
    change (2 ^ 50) with 1125899906842624 in HaT'.
    change (2 ^ 48) with 281474976710656. lia. }
  pose proof (Z.log2_spec q ltac:(change (2 ^ 52) with 4503599627370496 in Hq52; lia))
    as Hlog.
  set (d := Z.log2 q + 1).
  assert (Hqd : 2 ^ (d - 1) <= q < 2 ^ d).
  { unfold d. replace (Z.log2 q + 1 - 1) with (Z.log2 q) by lia. exact Hlog. }
  assert (Hd53 : 53 <= d).
  { destruct (Z.le_gt_cases 53 d) as [|Hlt]; [assumption|].
    assert (2 ^ d <= 2 ^ 52) by (apply Z.pow_le_mono_r; lia). lia. }
  assert (Hd49 : 49 + t <= d).
  { destruct (Z.le_gt_cases (49 + t) d) as [|Hlt]; [assumption|].
    assert (2 ^ d <= 2 ^ (48 + t)) by (apply Z.pow_le_mono_r; lia). lia. }
  destruct (binary_round_aux_large sg q (- t) d
              (new_location 3 ((Zpos a * T) mod 3)) Hqd Hd53 ltac:(lia))
    as [->|(m' & e' & -> & He' & Hm')].
  - discriminate.
  - cbn [bind Ok round]. intros [= <-].
    assert (Hmag : 2 ^ 48 <= nearest_even (Zpos m') e').
    { unfold nearest_even. destruct (Z.leb_spec 0 e') as [Hnn|Hneg].
      - rewrite Z.shiftl_mul_pow2 by assumption.
        pose proof (Z.pow_pos_nonneg 2 e' ltac:(lia) Hnn).
        change (2 ^ 52) with 4503599627370496 in Hm'.
        change (2 ^ 48) with 281474976710656. nia.
      - assert (HU : 2 ^ (- e') <= 2 ^ 4) by (apply Z.pow_le_mono_r; lia).
        pose proof (Z.pow_pos_nonneg 2 (- e') ltac:(lia) ltac:(lia)) as HUpos.
        set (U := 2 ^ (- e')) in *.
        assert (Hquot : 2 ^ 48 <= Zpos m' / U).
        { apply Z.div_le_lower_bound; [assumption|].
          change (2 ^ 4) with 16 in HU.
          change (2 ^ 52) with 4503599627370496 in Hm'.
          change (2 ^ 48) with 281474976710656. nia. }
        destruct (2 * (Zpos m' mod U) ?= U); try destruct (Z.even (Zpos m' / U));
          lia. }
    destruct sg; cbn [cond_Zopp]; lia.
Qed.

(** An average a [timedelta] accepts comes from a sum binary64 resolves. *)
Lemma mean_rounded_small (a b c avg : Z) :
  mean_rounded [a; b; c] = Ok avg -> Z.abs avg <= MAX_DELTA_DAYS ->
  Z.abs (a + b + c) <= 2 ^ 50.
Proof.
  unfold mean_rounded, sum. cbn [fold_left List.length].
  change (Z.of_nat 3) with 3.
  replace (0 + a + b + c) with (a + b + c) by ring.
  intros Hmean Havg.
  destruct (Z.le_gt_cases (Z.abs (a + b + c)) (2 ^ 50)) as [|Hbig];
    [assumption|].
  pose proof (truediv_3_round_large _ _ Hbig Hmean) as Hlarge.
  unfold MAX_DELTA_DAYS in Havg.
  change (2 ^ 48) with 281474976710656 in Hlarge. lia.
Qed.

End Large_quotients.

(** ** Dates *)

Section Date_facts.

Lemma timedelta_days_ok (n : Z) :
  Z.abs n <= MAX_DELTA_DAYS -> timedelta_days n = Ok (Timedelta n).
Proof.
  intros Hn. unfold timedelta_days.
  replace (Z.abs n <=? MAX_DELTA_DAYS) with true
    by (symmetry; apply Z.leb_le; assumption).
  reflexivity.
Qed.

Lemma add_in_range (d : datetime) (n : Z) :
  valid (plus_days d n) -> add d (Timedelta n) = Ok (plus_days d n).
Proof.
  unfold valid, plus_days, add. cbn [toordinal days]. intros [Hlo Hhi].
  replace (0 <? toordinal d + n) with true by (symmetry; apply Z.ltb_lt; lia).
  replace (toordinal d + n <=? MAXORDINAL) with true
    by (symmetry; apply Z.leb_le; lia).
  reflexivity.
Qed.

Lemma add_out_of_range (d : datetime) (n : Z) :
  ~ valid (plus_days d n) ->
  add d (Timedelta n) = Raise OverflowError "date value out of range".
Proof.
  unfold valid, plus_days, add. cbn [toordinal days]. intros Hout.
  destruct (Z.ltb_spec 0 (toordinal d + n)); [|reflexivity].
  destruct (Z.leb_spec (toordinal d + n) MAXORDINAL); [lia | reflexivity].
Qed.

Lemma add_inv (d next : datetime) (n : Z) :
  add d (Timedelta n) = Ok next -> next = plus_days d n /\ valid next.
Proof.
  unfold add, plus_days, valid. cbn [toordinal days].
  destruct (Z.ltb_spec 0 (toordinal d + n)); [|discriminate].
  destruct (Z.leb_spec (toordinal d + n) MAXORDINAL); [|discriminate].
  intros [= <-]. cbn [toordinal]. split; [reflexivity | lia].
Qed.

Lemma span_of_valid (d : datetime) (n : Z) :
  valid d -> valid (plus_days d n) -> Z.abs n < MAXORDINAL.
Proof. unfold valid, plus_days. cbn [toordinal]. lia. Qed.

Example strptime_examples :
  map strptime_Y_m_d ["2024-01-01"; "2024-1-1"; "2024-02-29"; "9999-12-31"]
  = [Ok (Datetime 738886); Ok (Datetime 738886); Ok (Datetime 738945);
     Ok (Datetime MAXORDINAL)]
  /\ strptime_Y_m_d "2023-02-29"
     = Raise ValueError "day is out of range for month"
  /\ strptime_Y_m_d "01/02/2024"
     = Raise ValueError
         "time data '01/02/2024' does not match format '%Y-%m-%d'".
Proof. repeat split; reflexivity. Qed.

Example strftime_examples :
  map strftime_A_B_d_Y [Datetime 738886; Datetime 738945; Datetime 730180]
  = ["Monday, January 01, 2024"; "Thursday, February 29, 2024";
     "Wednesday, March 01, 2000"]
  /\ strftime_B_d (Datetime 738945) = "February 29".
Proof. split; reflexivity. Qed.

End Date_facts.

(** ** Cycle math *)

Section Cycle_math_facts.

Lemma calculate_ovulation_day_in_range
      (lmp_date : datetime) (cycle_length : Z) (has_pcos : bool) :
  valid lmp_date ->
  (has_pcos = true -> 0 < cycle_length) ->
  valid (plus_days lmp_date (ovulation_offset cycle_length has_pcos)) ->
  calculate_ovulation_day lmp_date cycle_length has_pcos
  = Ok (plus_days lmp_date (ovulation_offset cycle_length has_pcos)).
Proof.
  intros Hlmp Hpos Hres.
  pose proof (span_of_valid _ _ Hlmp Hres) as Hspan.
  unfold calculate_ovulation_day, ovulation_offset in *.
  unfold MAXORDINAL in Hspan.
  destruct has_pcos.
  - specialize (Hpos eq_refl).
    rewrite int_mul_0_6.
    + cbn [bind Ok]. rewrite timedelta_days_ok by (unfold MAX_DELTA_DAYS; lia).
      cbn [bind Ok]. rewrite add_in_range by assumption. reflexivity.
    + pose proof (Z.div_mod (cycle_length * 6) 10 ltac:(lia)) as Hdm.
      pose proof (Z.mod_pos_bound (cycle_length * 6) 10 ltac:(lia)) as Hr.
      change (2 ^ 50) with 1125899906842624. lia.
  - cbn [bind Ok]. rewrite timedelta_days_ok by (unfold MAX_DELTA_DAYS; lia).
    cbn [bind Ok]. rewrite add_in_range by assumption. reflexivity.
Qed.

Lemma calculate_fertile_window_in_range (ovulation_day : datetime) :
  valid (plus_days ovulation_day (-5)) -> valid (plus_days ovulation_day 1) ->
  calculate_fertile_window ovulation_day
  = Ok (FertileWindow (plus_days ovulation_day (-5)) (plus_days ovulation_day 1)).
Proof.
  intros H5 H1. unfold calculate_fertile_window, sub.
  rewrite !timedelta_days_ok by (unfold MAX_DELTA_DAYS; simpl; lia).
  cbn [bind Ok days]. rewrite !add_in_range by assumption. reflexivity.
Qed.

Lemma valid_between (d : datetime) (n k : Z) :
  valid d -> valid (plus_days d n) -> 0 <= k <= n -> valid (plus_days d k).
Proof. unfold valid, plus_days. cbn [toordinal]. lia. Qed.

Lemma calculate_conception_probability_in_range (window : fertile_window) :
  valid (start window) -> valid (plus_days (start window) 6) ->
  calculate_conception_probability window
  = Ok [ probability_entry (plus_days (start window) 0) "Low (~4%)";
         probability_entry (plus_days (start window) 1) "Low (~10%)";
         probability_entry (plus_days (start window) 2) "Medium (~15%)";
         probability_entry (plus_days (start window) 3) "High (~27%)";
         probability_entry (plus_days (start window) 4) "High (~30%)";
         probability_entry (plus_days (start window) 5) "Peak (~33%)";
         probability_entry (plus_days (start window) 6) "Very Low" ].
Proof.
  intros H0 H6. unfold calculate_conception_probability.
  change (range 7) with [0; 1; 2; 3; 4; 5; 6].
  cbn [for_each].
  rewrite !timedelta_days_ok by (unfold MAX_DELTA_DAYS; simpl; lia).
  cbn [bind Ok].
  rewrite !add_in_range by (apply (valid_between _ 6); (assumption || lia)).
  reflexivity.
Qed.

Lemma analyze_cycle_regularity_triple (a b c : Z) (has_pcos : bool) :
  analyze_cycle_regularity [a; b; c] has_pcos
  = Ok (if has_pcos then "Irregular - PCOS may cause irregular cycles"
        else if Z.max (Z.max a b) c - Z.min (Z.min a b) c >? 8
             then "Irregular" else "Regular").
Proof.
  unfold analyze_cycle_regularity. destruct has_pcos; [reflexivity|].
  cbn [py_max py_min fold_left bind Ok].
  destruct (Z.max (Z.max a b) c - Z.min (Z.min a b) c >? 8); reflexivity.
Qed.

End Cycle_math_facts.


(** ** The calendar *)

Section Calendar_facts.

Lemma days_before_year_bounds (year : Z) :
  1 <= year <= 9999 -> 0 <= days_before_year year <= 3651694.
Proof.
  intros Hy. unfold days_before_year. cbv zeta.
  Z.to_euclidean_division_equations. lia.
Qed.

Lemma days_before_year_step (year : Z) :
  1 <= year <= 9998 -> days_before_year year <= 3651329.
Proof.
  intros Hy. unfold days_before_year. cbv zeta.
  Z.to_euclidean_division_equations. lia.
Qed.

Lemma day_of_year_bounds (leap : bool) (month day : Z) :
  1 <= month <= 12 ->
  1 <= day <= (if (month =? 2) && leap then 29
               else nth (Z.to_nat month) DAYS_IN_MONTH 0) ->
  1 <= nth (Z.to_nat month) DAYS_BEFORE_MONTH 0
       + (if (2 <? month) && leap then 1 else 0) + day
    <= (if leap then 366 else 365).
Proof.
  intros Hm Hday.
  assert (Hc : month = 1 \/ month = 2 \/ month = 3 \/ month = 4 \/ month = 5
               \/ month = 6 \/ month = 7 \/ month = 8 \/ month = 9
               \/ month = 10 \/ month = 11 \/ month = 12 \/ False) by lia.
  clear Hm.
  repeat (destruct Hc as [->|Hc];
          [ destruct leap;
            match type of Hday with
            | _ <= _ <= ?x =>
                let v := eval vm_compute in x in change x with v in Hday
            end;
            match goal with
            | |- _ <= ?x + ?y + day <= _ =>
                let v := eval vm_compute in x in
                let w := eval vm_compute in y in
                change (x + y) with (v + w)
            end; lia |]).
  contradiction.
Qed.

Lemma make_valid (year month day : Z) (d : datetime) :
  make year month day = Ok d -> valid d.
Proof.
  unfold make.
  destruct (Z.leb_spec 1 year); [|discriminate].
  destruct (Z.leb_spec year 9999); [|discriminate].
  destruct (Z.leb_spec 1 month); [|discriminate].
  destruct (Z.leb_spec month 12); [|discriminate].
  destruct (Z.leb_spec 1 day); [|discriminate].
  destruct (Z.leb_spec day (days_in_month year month)) as [Hd|]; [|discriminate].
  cbn [negb andb]. intros [= <-]. unfold valid, ymd2ord, MAXORDINAL.
  cbn [toordinal].
  pose proof (days_before_year_bounds year ltac:(lia)) as Hy.
  pose proof (day_of_year_bounds (is_leap year) month day ltac:(lia)
                ltac:(split; [assumption | exact Hd])) as Hdoy.
  fold (days_before_month year month) in Hdoy.
  destruct (Z.eq_dec year 9999) as [->|Hne].
  - change (is_leap 9999) with false in Hdoy. cbv iota in Hdoy. lia.
  - pose proof (days_before_year_step year ltac:(lia)) as Hy'.
    destruct (is_leap year); lia.
Qed.

Lemma strptime_valid (s : string) (d : datetime) :
  strptime_Y_m_d s = Ok d -> valid d.
Proof.
  unfold strptime_Y_m_d.
  destruct (match_Y_m_d (chars s)) as [[[[year month] day] rest]|]; [|discriminate].
  destruct rest; [|discriminate]. apply make_valid.
Qed.

End Calendar_facts.

(** ** The handlers *)

(** One step of a handler: the outcome of the computation at the head
    is known, the continuation takes over. *)
Ltac step H := rewrite H; cbv beta iota delta [Ok].
Ltac step_in H Hrun := rewrite H in Hrun; cbv beta iota delta [Ok] in Hrun.

(** The computation at the head either raises, which ends the run, or
    returns. *)
Ltac fork Hrun c x Hx :=
  destruct c as [?e|x] eqn:Hx; [discriminate Hrun|].

Section Handler_facts.

Variable read_csv read_excel : FileStorage -> result DataFrame.
Variable mean_2f : list cell -> result string.

(** The temperature block catches what it raises: it only prints. *)
Lemma bbt_average_returns (req : request) (name : option string)
      (out : list string) :
  exists out',
    bbt_average read_csv read_excel mean_2f req name out = (Ok tt, out').
Proof.
  unfold bbt_average.
  destruct (uploaded (dict_get (files req) "bbtFile")) as [bbt_file|];
    [|eexists; reflexivity].
  unfold hbind, try_except, lift, print.
  destruct (read_table read_csv read_excel bbt_file) as [e|df];
    [eexists; reflexivity|].
  destruct (contains (columns df) "user_id"); [|eexists; reflexivity].
  destruct (negb (empty (select_user df name))); [|eexists; reflexivity].
  destruct (find (contains (columns (select_user df name))) bbt_columns)
    as [col|]; [|eexists; reflexivity].
  destruct (mean_2f (column (select_user df name) col));
    eexists; reflexivity.
Qed.

(** The rounded mean of three integers is the integer nearest to
    their mean, up to the last sum binary64 gets right. *)
Lemma mean_rounded_triple_exact (a b c : Z) :
  Z.abs (a + b + c) <= 3 * 2 ^ 51 + 1 ->
  mean_rounded [a; b; c] = Ok (nearest_third (a + b + c)).
Proof.
  intros Hs. unfold mean_rounded, sum, nearest_third.
  cbn [fold_left List.length]. change (Z.of_nat 3) with 3.
  replace (0 + a + b + c) with (a + b + c) by ring.
  apply truediv_3_round. assumption.
Qed.

Lemma mean_rounded_triple (a b c : Z) :
  Z.abs (a + b + c) <= 2 ^ 50 ->
  mean_rounded [a; b; c] = Ok (nearest_third (a + b + c)).
Proof.
  intros Hs. apply mean_rounded_triple_exact.
  change (2 ^ 50) with 1125899906842624 in Hs.
  change (3 * 2 ^ 51 + 1) with 6755399441055745. lia.
Qed.

Lemma nearest_third_near (s : Z) :
  3 * nearest_third s - 1 <= s <= 3 * nearest_third s + 1.
Proof.
  unfold nearest_third.
  pose proof (Z.div_mod (s + 1) 3 ltac:(lia)).
  pose proof (Z.mod_pos_bound (s + 1) 3 ltac:(lia)). lia.
Qed.

(** The body [predict] returns once the form has been read and the
    dates stay inside the calendar. *)
Lemma predict_returns
      (req : request) (c1 c2 c3 p1 p2 p3 : Z)
      (lmp_text : string) (lmp_date : datetime) :
  let data := form req in
  let has_pcos := get_equals data "pcos" "true" in
  let avg_cycle_length := nearest_third (c1 + c2 + c3) in
  let avg_period_duration := nearest_third (p1 + p2 + p3) in
  let next_lmp_date := plus_days lmp_date avg_cycle_length in
  let ovulation_day :=
    plus_days next_lmp_date (ovulation_offset avg_cycle_length has_pcos) in
  let window :=
    FertileWindow (plus_days ovulation_day (-5)) (plus_days ovulation_day 1) in
  form_int data "cycleLength1" = Ok c1 ->
  form_int data "cycleLength2" = Ok c2 ->
  form_int data "cycleLength3" = Ok c3 ->
  form_int data "periodDuration1" = Ok p1 ->
  form_int data "periodDuration2" = Ok p2 ->
  form_int data "periodDuration3" = Ok p3 ->
  dict_item data "lmpDate3" = Ok lmp_text ->
  strptime_Y_m_d lmp_text = Ok lmp_date ->
  Z.abs (p1 + p2 + p3) <= 2 ^ 50 ->
  (has_pcos = true -> 0 < avg_cycle_length) ->
  valid next_lmp_date ->
  valid (start window) ->
  valid (end_ window) ->
  exists regularity entries,
    analyze_cycle_regularity [c1; c2; c3] has_pcos = Ok regularity
    /\ calculate_conception_probability window = Ok entries
    /\ fst (predict read_csv read_excel mean_2f req)
       = Ok (JObj
               [("fertileWindow",
                 JObj [("start", JStr (strftime_A_B_d_Y (start window)));
                       ("end", JStr (strftime_A_B_d_Y (end_ window)))]);
                ("ovulationDay", JStr (strftime_A_B_d_Y ovulation_day));
                ("cycleRegularity", JStr regularity);
                ("conceptionProbability", JList entries);
                ("insights",
                 JObj [("averageCycleLength", JInt avg_cycle_length);
                       ("averagePeriodDuration", JInt avg_period_duration)])]).
Proof.
  intros data has_pcos avg_cycle_length avg_period_duration next_lmp_date
         ovulation_day window Hc1 Hc2 Hc3 Hp1 Hp2 Hp3 Htext Hlmp Hps Hpos
         Hnext Hstart Hend.
  pose proof (strptime_valid _ _ Hlmp) as Hvalid.
  pose proof (span_of_valid _ _ Hvalid Hnext) as Hspan.
  pose proof (nearest_third_near (c1 + c2 + c3)) as Hnear.
  fold avg_cycle_length in Hspan, Hnear. unfold MAXORDINAL in Hspan.
  assert (Hcs : Z.abs (c1 + c2 + c3) <= 2 ^ 50)
    by (change (2 ^ 50) with 1125899906842624; lia).
  assert (Hov : valid ovulation_day).
  { unfold window in Hstart, Hend. cbn [start end_] in Hstart, Hend.
    revert Hstart Hend. unfold valid, plus_days. cbn [toordinal]. lia. }
  assert (Hlast : valid (plus_days (start window) 6)).
  { unfold window. cbn [start]. revert Hend. unfold window. cbn [end_].
    unfold valid, plus_days. cbn [toordinal].
    intros; replace (toordinal ovulation_day + -5 + 6)
      with (toordinal ovulation_day + 1) by ring; assumption. }
  exists (if has_pcos then "Irregular - PCOS may cause irregular cycles"
          else if Z.max (Z.max c1 c2) c3 - Z.min (Z.min c1 c2) c3 >? 8
               then "Irregular" else "Regular").
  eexists. split; [apply analyze_cycle_regularity_triple|].
  split; [apply calculate_conception_probability_in_range; assumption|].
  unfold predict, hbind, lift, ret. fold data. fold has_pcos.
  step Hc1. step Hc2. step Hc3. step Hp1. step Hp2. step Hp3.
  step Htext. step Hlmp.
  match goal with
  | |- context [(if has_pcos then ?a else ?b) ?x] =>
      set (block := (if has_pcos then a else b) x)
  end.
  assert (Hbbt : exists out, block = (inr tt, out)).
  { unfold block. destruct has_pcos;
      [apply bbt_average_returns | eexists; reflexivity]. }
  destruct Hbbt as [out ->]. cbv beta iota.
  rewrite !mean_rounded_triple by assumption.
  fold avg_cycle_length avg_period_duration. cbv beta iota delta [Ok].
  rewrite timedelta_days_ok by (unfold MAX_DELTA_DAYS; lia).
  cbv beta iota delta [Ok].
  rewrite add_in_range by assumption. fold next_lmp_date.
  cbv beta iota delta [Ok].
  rewrite calculate_ovulation_day_in_range by assumption.
  fold ovulation_day. cbv beta iota delta [Ok].
  rewrite calculate_fertile_window_in_range by assumption.
  fold window. cbv beta iota delta [Ok].
  step analyze_cycle_regularity_triple.
  rewrite calculate_conception_probability_in_range by assumption.
  reflexivity.
Qed.



End Handler_facts.

Section Retrieval_facts.

Variable read_csv read_excel : FileStorage -> result DataFrame.

Lemma load_column (user_row : Series) (col : string) (d : dict json) :
  (if is_not_None (series_get user_row col)
   then assign col (JStr (str_of_cell (series_get user_row col)))
   else assign col JNull) d
  = (Ok tt,
     dict_set d col (field_as_loaded (index user_row) (values user_row) col)).
Proof.
  unfold series_get, field_as_loaded.
  destruct (cell_at (index user_row) (values user_row) col) as [[]|];
    reflexivity.
Qed.

(** The loop over [columns_to_load] stores one entry per column. *)
Lemma load_columns (user_row : Series) (cols : list string) (d : dict json) :
  for_ cols (fun col =>
               let value := series_get user_row col in
               if is_not_None value
               then assign col (JStr (str_of_cell value))
               else assign col JNull) d
  = (Ok tt,
     fold_left (fun d col =>
                  dict_set d col
                    (field_as_loaded (index user_row) (values user_row) col))
       cols d).
Proof.
  revert d. induction cols as [|col cols IH]; intros d; [reflexivity|].
  cbn [for_ fold_left]. unfold hbind at 1. cbv beta zeta.
  rewrite load_column. cbv beta iota delta [Ok]. apply IH.
Qed.

Lemma contains_nonempty (labels : list string) (col : string) :
  contains labels col = true -> labels <> [].
Proof. destruct labels; [discriminate | intros _; discriminate]. Qed.

Section One_request.

Variable req : request.

Let name := dict_get (form req) "name".
Let upload := uploaded (dict_get (files req) "bbtFile_data").

Lemma receive_data_no_file :
  upload = None ->
  receive_data read_csv read_excel req = Ok (failure msg_no_file).
Proof.
  unfold upload, receive_data. intros ->. reflexivity.
Qed.

Lemma receive_data_unreadable (f : FileStorage) (e : exn) :
  upload = Some f -> read_table read_csv read_excel f = inl e ->
  receive_data read_csv read_excel req = Ok (failure (msg_unreadable e)).
Proof.
  unfold upload, receive_data. intros -> Hread.
  unfold hbind, try_except, lift. rewrite Hread. reflexivity.
Qed.

Lemma receive_data_no_user_id (f : FileStorage) (df : DataFrame) :
  upload = Some f -> read_table read_csv read_excel f = Ok df ->
  contains (columns df) "user_id" = false ->
  receive_data read_csv read_excel req = Ok (failure msg_no_user_id).
Proof.
  unfold upload, receive_data. intros -> Hread Hcol.
  unfold hbind, try_except, lift. rewrite Hread.
  cbv beta iota delta [Ok]. rewrite Hcol. reflexivity.
Qed.

Lemma receive_data_no_rows (f : FileStorage) (df : DataFrame) :
  upload = Some f -> read_table read_csv read_excel f = Ok df ->
  contains (columns df) "user_id" = true ->
  empty (select_user df name) = true ->
  receive_data read_csv read_excel req = Ok (failure (msg_no_rows name)).
Proof.
  unfold upload, name, receive_data. intros -> Hread Hcol Hempty.
  unfold hbind, try_except, lift. rewrite Hread.
  cbv beta iota delta [Ok]. rewrite Hcol, Hempty. reflexivity.
Qed.

Lemma receive_data_found (f : FileStorage) (df : DataFrame)
      (row : list cell) (others : list (list cell)) :
  upload = Some f -> read_table read_csv read_excel f = Ok df ->
  contains (columns df) "user_id" = true ->
  rows (select_user df name) = row :: others ->
  receive_data read_csv read_excel req
  = Ok (JObj (("success", JBool true)
              :: ("message",
                  JStr ("Data loaded for user '" ++ fmt_name name ++ "'."))
              :: map (fun col => (col, field_as_loaded (columns df) row col))
                   columns_to_load)).
Proof.
  unfold upload, name, receive_data. intros -> Hread Hcol Hrows.
  unfold hbind, try_except, lift. rewrite Hread.
  cbv beta iota delta [Ok]. rewrite Hcol.
  assert (Hempty : empty (select_user df (dict_get (form req) "name")) = false).
  { unfold empty. rewrite Hrows. cbn [select_user columns].
    destruct (columns df); [discriminate | reflexivity]. }
  rewrite Hempty. cbn [negb]. unfold iloc0. rewrite Hrows.
  cbv beta iota delta [Ok]. rewrite load_columns.
  cbv beta iota delta [Ok]. reflexivity.
Qed.

End One_request.

(** The four failure messages differ from one another. *)
Lemma failure_messages_distinct (e : exn) (name : option string) :
  msg_no_file <> msg_unreadable e
  /\ msg_no_file <> msg_no_user_id
  /\ msg_no_file <> msg_no_rows name
  /\ msg_unreadable e <> msg_no_user_id
  /\ msg_unreadable e <> msg_no_rows name
  /\ msg_no_user_id <> msg_no_rows name.
Proof.
  unfold msg_no_file, msg_unreadable, msg_no_user_id, msg_no_rows.
  repeat split; simpl; discriminate.
Qed.

End Retrieval_facts.

Section Predict_inversion.

Variable read_csv read_excel : FileStorage -> result DataFrame.
Variable mean_2f : list cell -> result string.

Lemma timedelta_days_inv (n : Z) (delta : timedelta) :
  timedelta_days n = Ok delta -> delta = Timedelta n /\ Z.abs n <= MAX_DELTA_DAYS.
Proof.
  unfold timedelta_days. destruct (Z.leb_spec (Z.abs n) MAX_DELTA_DAYS).
  - intros [= <-]. split; [reflexivity | assumption].
  - discriminate.
Qed.

(** What [predict] computed when it returns a body. *)
Lemma predict_inv
      (req : request) (c1 c2 c3 p1 p2 p3 : Z)
      (lmp_text : string) (lmp_date : datetime)
      (body : json) (out : list string) :
  let data := form req in
  let has_pcos := get_equals data "pcos" "true" in
  form_int data "cycleLength1" = Ok c1 ->
  form_int data "cycleLength2" = Ok c2 ->
  form_int data "cycleLength3" = Ok c3 ->
  form_int data "periodDuration1" = Ok p1 ->
  form_int data "periodDuration2" = Ok p2 ->
  form_int data "periodDuration3" = Ok p3 ->
  dict_item data "lmpDate3" = Ok lmp_text ->
  strptime_Y_m_d lmp_text = Ok lmp_date ->
  predict read_csv read_excel mean_2f req = (Ok body, out) ->
  exists avg_cycle_length avg_period_duration next_lmp_date ovulation_day
         window cycle_regularity conception_probability,
    mean_rounded [c1; c2; c3] = Ok avg_cycle_length
    /\ Z.abs avg_cycle_length <= MAX_DELTA_DAYS
    /\ mean_rounded [p1; p2; p3] = Ok avg_period_duration
    /\ add lmp_date (Timedelta avg_cycle_length) = Ok next_lmp_date
    /\ calculate_ovulation_day next_lmp_date avg_cycle_length has_pcos
       = Ok ovulation_day
    /\ calculate_fertile_window ovulation_day = Ok window
    /\ analyze_cycle_regularity [c1; c2; c3] has_pcos = Ok cycle_regularity
    /\ calculate_conception_probability window = Ok conception_probability
    /\ body
       = JObj [("fertileWindow",
                JObj [("start", JStr (strftime_A_B_d_Y (start window)));
                      ("end", JStr (strftime_A_B_d_Y (end_ window)))]);
               ("ovulationDay", JStr (strftime_A_B_d_Y ovulation_day));
               ("cycleRegularity", JStr cycle_regularity);
               ("conceptionProbability", JList conception_probability);
               ("insights",
                JObj [("averageCycleLength", JInt avg_cycle_length);
                      ("averagePeriodDuration", JInt avg_period_duration)])].
Proof.
  intros data has_pcos Hc1 Hc2 Hc3 Hp1 Hp2 Hp3 Htext Hlmp Hret.
  unfold predict, hbind, lift, ret in Hret. fold data in Hret.
  fold has_pcos in Hret.
  step_in Hc1 Hret. step_in Hc2 Hret. step_in Hc3 Hret.
  step_in Hp1 Hret. step_in Hp2 Hret. step_in Hp3 Hret.
  step_in Htext Hret. step_in Hlmp Hret.
  match type of Hret with
  | context [(if has_pcos then ?a else ?b) ?x] =>
      set (block := (if has_pcos then a else b) x) in Hret
  end.
  assert (Hbbt : exists out1, block = (inr tt, out1)).
  { unfold block. destruct has_pcos;
      [apply bbt_average_returns | eexists; reflexivity]. }
  destruct Hbbt as [out1 Hblock]. rewrite Hblock in Hret.
  cbv beta iota in Hret.
  fork Hret (mean_rounded [c1; c2; c3]) avg_cycle_length Hmc.
  fork Hret (mean_rounded [p1; p2; p3]) avg_period_duration Hmp.
  fork Hret (timedelta_days avg_cycle_length) delta Hdelta.
  destruct (timedelta_days_inv _ _ Hdelta) as [-> Hsmall].
  fork Hret (add lmp_date (Timedelta avg_cycle_length)) next_lmp_date Hnext.
  fork Hret (calculate_ovulation_day next_lmp_date avg_cycle_length has_pcos)
       ovulation_day Hov.
  fork Hret (calculate_fertile_window ovulation_day) window Hwin.
  fork Hret (analyze_cycle_regularity [c1; c2; c3] has_pcos)
       cycle_regularity Hreg.
  fork Hret (calculate_conception_probability window)
       conception_probability Hprob.
  injection Hret as <- _.
  exists avg_cycle_length, avg_period_duration, next_lmp_date, ovulation_day,
    window, cycle_regularity, conception_probability.
  repeat split; (assumption || reflexivity).
Qed.

End Predict_inversion.

(** * The claims *)

(** C1, as the code has it.  For a reference date and a positive cycle
    length, [calculate_ovulation_day] returns the date
    [cycle_length - 14] days after the reference date when [has_pcos] is
    false, and the date [floor(cycle_length * 0.6)] days after it when
    [has_pcos] is true, provided the date named is a date of the
    calendar (0001-01-01 to 9999-12-31). *)
Theorem calculate_ovulation_day_spec (lmp_date : datetime) (cycle_length : Z) :
  valid lmp_date -> 0 < cycle_length ->
  (valid (plus_days lmp_date (cycle_length - 14)) ->
   calculate_ovulation_day lmp_date cycle_length false
   = Ok (plus_days lmp_date (cycle_length - 14)))
  /\ (valid (plus_days lmp_date (cycle_length * 6 / 10)) ->
      calculate_ovulation_day lmp_date cycle_length true
      = Ok (plus_days lmp_date (cycle_length * 6 / 10))).
Proof.
  intros Hlmp Hpos. split; intros Hres.
  - apply (calculate_ovulation_day_in_range lmp_date cycle_length false);
      (assumption || discriminate).
  - apply (calculate_ovulation_day_in_range lmp_date cycle_length true);
      (assumption || (intros _; assumption)).
Qed.

Lemma calculate_ovulation_day_spec_witness :
  calculate_ovulation_day (Datetime 738886) 28 false = Ok (Datetime 738900)
  /\ calculate_ovulation_day (Datetime 738886) 35 true = Ok (Datetime 738907).
Proof.
  split.
  - apply (calculate_ovulation_day_spec (Datetime 738886) 28);
      unfold valid, plus_days, MAXORDINAL; simpl; lia.
  - apply (calculate_ovulation_day_spec (Datetime 738886) 35);
      unfold valid, plus_days, MAXORDINAL; simpl; lia.
Defined.

(** C1 as stated fails: fourteen days after the last date of the
    calendar there is no date to return, and the addition raises. *)
Lemma calculate_ovulation_day_range_counterexample :
  valid (Datetime MAXORDINAL)
  /\ calculate_ovulation_day (Datetime MAXORDINAL) 28 false
     = Raise OverflowError "date value out of range"
  /\ calculate_ovulation_day (Datetime MAXORDINAL) 28 false
     <> Ok (plus_days (Datetime MAXORDINAL) (28 - 14)).
Proof.
  split; [unfold valid, MAXORDINAL; simpl; lia|].
  split; [reflexivity | discriminate].
Qed.

(** C2, as the code has it.  For an ovulation day [d] such that the
    dates 5 days before and 1 day after it are dates of the calendar
    (0001-01-01 to 9999-12-31), [calculate_fertile_window] returns the
    window that starts 5 days before [d] and ends 1 day after it, so
    that the end is the start plus 6 days and the window spans 7 days
    inclusive. *)
Theorem calculate_fertile_window_spec (ovulation_day : datetime) :
  valid (plus_days ovulation_day (-5)) -> valid (plus_days ovulation_day 1) ->
  exists window,
    calculate_fertile_window ovulation_day = Ok window
    /\ start window = plus_days ovulation_day (-5)
    /\ end_ window = plus_days ovulation_day 1
    /\ end_ window = plus_days (start window) 6
    /\ toordinal (end_ window) - toordinal (start window) + 1 = 7.
Proof.
  intros H5 H1. eexists. split.
  - apply calculate_fertile_window_in_range; assumption.
  - cbn [start end_]. unfold plus_days. cbn [toordinal].
    repeat split; try (f_equal; lia); lia.
Qed.

Lemma calculate_fertile_window_spec_witness :
  exists window,
    calculate_fertile_window (Datetime 738928) = Ok window
    /\ start window = Datetime 738923
    /\ end_ window = Datetime 738929
    /\ end_ window = plus_days (start window) 6
    /\ toordinal (end_ window) - toordinal (start window) + 1 = 7.
Proof.
  apply (calculate_fertile_window_spec (Datetime 738928));
    unfold valid, plus_days, MAXORDINAL; simpl; lia.
Defined.

(** C2 as stated fails: five days before 0001-01-03 there is no date,
    and the subtraction raises. *)
Lemma calculate_fertile_window_range_counterexample :
  valid (Datetime 3)
  /\ strftime_A_B_d_Y (Datetime 3) = "Wednesday, January 03, 1"
  /\ calculate_fertile_window (Datetime 3)
     = Raise OverflowError "date value out of range"
  /\ calculate_fertile_window (Datetime 3)
     <> Ok (FertileWindow (plus_days (Datetime 3) (-5))
              (plus_days (Datetime 3) 1)).
Proof.
  split; [unfold valid, MAXORDINAL; simpl; lia|].
  split; [reflexivity|]. split; [reflexivity | discriminate].
Qed.

(** C3, as the code has it.  With [has_pcos] set the classification is
    the text ["Irregular - PCOS may cause irregular cycles"], whatever
    the three lengths; otherwise it is ["Irregular"] when the largest
    length exceeds the smallest by more than 8 and ["Regular"] when it
    does not, a spread of exactly 8 being ["Regular"]. *)
Theorem analyze_cycle_regularity_spec (a b c : Z) (has_pcos : bool) :
  analyze_cycle_regularity [a; b; c] has_pcos
  = Ok (if has_pcos then "Irregular - PCOS may cause irregular cycles"
        else if 8 <? Z.max (Z.max a b) c - Z.min (Z.min a b) c
             then "Irregular" else "Regular")
  /\ analyze_cycle_regularity [20; 28; 24] false = Ok "Regular"
  /\ analyze_cycle_regularity [20; 29; 24] false = Ok "Irregular".
Proof.
  split; [|split; reflexivity].
  rewrite analyze_cycle_regularity_triple. rewrite Z.gtb_ltb. reflexivity.
Qed.

(** C3 as stated fails: with the condition flag set the code does not
    return ["Irregular (condition-flagged)"]. *)
Lemma analyze_cycle_regularity_flagged_counterexample :
  analyze_cycle_regularity [28; 30; 26] true
  <> Ok "Irregular (condition-flagged)".
Proof. vm_compute. discriminate. Qed.

(** C4. For a fertile window (two dates of the calendar, the end 6 days
    after the start), [calculate_conception_probability] returns 7
    entries, the [i]-th dated [i] days after the start of the window
    (written as month and day) and labelled from the fixed table, in
    chronological order. *)
Theorem calculate_conception_probability_spec (window : fertile_window) :
  valid (start window) -> valid (end_ window) ->
  end_ window = plus_days (start window) 6 ->
  exists entries,
    calculate_conception_probability window = Ok entries
    /\ List.length entries = 7%nat
    /\ entries
       = map (fun '(i, label) =>
                JObj [("date", JStr (strftime_B_d (plus_days (start window) i)));
                      ("probability", JStr label)])
           [(0, "Low (~4%)"); (1, "Low (~10%)"); (2, "Medium (~15%)");
            (3, "High (~27%)"); (4, "High (~30%)"); (5, "Peak (~33%)");
            (6, "Very Low")].
Proof.
  intros Hstart Hend Hspan. rewrite Hspan in Hend. eexists. split.
  - apply calculate_conception_probability_in_range; assumption.
  - split; reflexivity.
Qed.

Lemma calculate_conception_probability_spec_witness :
  exists entries,
    calculate_conception_probability
      (FertileWindow (Datetime 738923) (Datetime 738929)) = Ok entries
    /\ List.length entries = 7%nat
    /\ entries
       = map (fun '(i, label) =>
                JObj [("date", JStr (strftime_B_d (Datetime (738923 + i))));
                      ("probability", JStr label)])
           [(0, "Low (~4%)"); (1, "Low (~10%)"); (2, "Medium (~15%)");
            (3, "High (~27%)"); (4, "High (~30%)"); (5, "Peak (~33%)");
            (6, "Very Low")].
Proof.
  apply (calculate_conception_probability_spec
           (FertileWindow (Datetime 738923) (Datetime 738929)));
    try reflexivity; unfold valid, plus_days, MAXORDINAL; simpl; lia.
Defined.

(** C5, as the code has it.  When [predict] returns a body, its insight
    [averageCycleLength] is the integer nearest to the mean of the three
    cycle lengths, and the ovulation computation is fed the date
    [lmpDate3] plus that average, not [lmpDate3] itself; its insight
    [averagePeriodDuration] is the integer nearest to the mean of the
    three period durations provided their sum is at most
    [3 * 2^51 + 1] in magnitude, the last sum whose third binary64
    rounds to the right integer. *)
Theorem predict_means_and_projection
        (read_csv read_excel : FileStorage -> result DataFrame)
        (mean_2f : list cell -> result string)
        (req : request) (c1 c2 c3 p1 p2 p3 : Z)
        (lmp_text : string) (lmp_date : datetime)
        (body : json) (out : list string) :
  let data := form req in
  let has_pcos := get_equals data "pcos" "true" in
  let avg_cycle_length := nearest_third (c1 + c2 + c3) in
  let next_lmp_date := plus_days lmp_date avg_cycle_length in
  form_int data "cycleLength1" = Ok c1 ->
  form_int data "cycleLength2" = Ok c2 ->
  form_int data "cycleLength3" = Ok c3 ->
  form_int data "periodDuration1" = Ok p1 ->
  form_int data "periodDuration2" = Ok p2 ->
  form_int data "periodDuration3" = Ok p3 ->
  dict_item data "lmpDate3" = Ok lmp_text ->
  strptime_Y_m_d lmp_text = Ok lmp_date ->
  predict read_csv read_excel mean_2f req = (Ok body, out) ->
  exists insights avg_period_duration ovulation_day,
    member body "insights" = Some insights
    /\ member insights "averageCycleLength" = Some (JInt avg_cycle_length)
    /\ 3 * avg_cycle_length - 1 <= c1 + c2 + c3 <= 3 * avg_cycle_length + 1
    /\ member insights "averagePeriodDuration"
       = Some (JInt avg_period_duration)
    /\ (Z.abs (p1 + p2 + p3) <= 3 * 2 ^ 51 + 1 ->
        avg_period_duration = nearest_third (p1 + p2 + p3)
        /\ 3 * avg_period_duration - 1 <= p1 + p2 + p3
           <= 3 * avg_period_duration + 1)
    /\ add lmp_date (Timedelta avg_cycle_length) = Ok next_lmp_date
    /\ calculate_ovulation_day next_lmp_date avg_cycle_length has_pcos
       = Ok ovulation_day
    /\ member body "ovulationDay" = Some (JStr (strftime_A_B_d_Y ovulation_day)).
Proof.
  intros data has_pcos avg_cycle_length next_lmp_date
         Hc1 Hc2 Hc3 Hp1 Hp2 Hp3 Htext Hlmp Hret.
  destruct (predict_inv read_csv read_excel mean_2f req c1 c2 c3 p1 p2 p3
              lmp_text lmp_date body out Hc1 Hc2 Hc3 Hp1 Hp2 Hp3 Htext Hlmp
              Hret)
    as (avgc & avgp & next & ovulation_day & window & regularity & entries
        & Hmc & Hsmall & Hmp & Hnext & Hov & _ & _ & _ & ->).
  pose proof (mean_rounded_small _ _ _ _ Hmc Hsmall) as Hcs.
  rewrite mean_rounded_triple in Hmc by assumption.
  injection Hmc as <-.
  fold avg_cycle_length in Hnext, Hov |- *.
  destruct (add_inv _ _ _ Hnext) as [-> _]. fold next_lmp_date in Hnext, Hov.
  eexists. exists avgp, ovulation_day.
  split; [reflexivity|]. split; [reflexivity|].
  split; [apply nearest_third_near|]. split; [reflexivity|].
  split.
  - intros Hps. rewrite mean_rounded_triple_exact in Hmp by assumption.
    injection Hmp as <-. split; [reflexivity | apply nearest_third_near].
  - split; [exact Hnext|]. split; [exact Hov | reflexivity].
Qed.

Lemma predict_means_and_projection_witness :
  predict (sample_reader sample_table) failing_reader sample_mean
    sample_request_pcos
  = (Ok sample_body_pcos,
     ["Received file: history.CSV"; "Average BBT for user 'alice': 36.75"])
  /\ exists insights avg_period_duration ovulation_day,
      member sample_body_pcos "insights" = Some insights
      /\ member insights "averageCycleLength" = Some (JInt 36)
      /\ 3 * 36 - 1 <= 35 + 40 + 33 <= 3 * 36 + 1
      /\ member insights "averagePeriodDuration"
         = Some (JInt avg_period_duration)
      /\ (Z.abs (5 + 6 + 5) <= 3 * 2 ^ 51 + 1 ->
          avg_period_duration = 5
          /\ 3 * avg_period_duration - 1 <= 5 + 6 + 5
             <= 3 * avg_period_duration + 1)
      /\ add (Datetime 738886) (Timedelta 36) = Ok (Datetime 738922)
      /\ calculate_ovulation_day (Datetime 738922) 36 true = Ok ovulation_day
      /\ member sample_body_pcos "ovulationDay"
         = Some (JStr (strftime_A_B_d_Y ovulation_day)).
Proof.
  split; [vm_compute; reflexivity|].
  apply (predict_means_and_projection
           (sample_reader sample_table) failing_reader sample_mean
           sample_request_pcos 35 40 33 5 6 5 "2024-01-01" (Datetime 738886)
           sample_body_pcos
           ["Received file: history.CSV";
            "Average BBT for user 'alice': 36.75"]);
    reflexivity.
Defined.

(** C5 as stated fails: for the durations [2^53 + 2], 0 and 0 the body
    reports 3002399751580332, while the integer nearest to their mean
    is 3002399751580331. *)
Lemma predict_period_mean_counterexample :
  exists body insights,
    fst (predict (sample_reader sample_table) failing_reader sample_mean
           {| form := sample_form_long_period; files := [] |}) = Ok body
    /\ member body "insights" = Some insights
    /\ member insights "averagePeriodDuration"
       = Some (JInt 3002399751580332)
    /\ nearest_third (9007199254740994 + 0 + 0) = 3002399751580331
    /\ ~ (3 * 3002399751580332 - 1 <= 9007199254740994 + 0 + 0
          <= 3 * 3002399751580332 + 1).
Proof.
  eexists. eexists. split; [vm_compute; reflexivity|].
  split; [reflexivity|]. split; [reflexivity|]. split; [reflexivity|]. lia.
Qed.

(** C6. For the cycles 28, 30, 26, the durations 5, 6, 5, the last
    period on 2024-01-01 and no condition flag, [predict] reports an
    average cycle length of 28, ovulation on Monday 12 February 2024, a
    fertile window from 7 to 13 February 2024 and the regularity
    ["Regular"]; the projected start of the next cycle is 2024-01-29. *)
Theorem predict_scenario
        (read_csv read_excel : FileStorage -> result DataFrame)
        (mean_2f : list cell -> result string) :
  predict read_csv read_excel mean_2f {| form := sample_form; files := [] |}
  = (Ok (JObj
           [("fertileWindow",
             JObj [("start", JStr "Wednesday, February 07, 2024");
                   ("end", JStr "Tuesday, February 13, 2024")]);
            ("ovulationDay", JStr "Monday, February 12, 2024");
            ("cycleRegularity", JStr "Regular");
            ("conceptionProbability",
             JList
               [JObj [("date", JStr "February 07");
                      ("probability", JStr "Low (~4%)")];
                JObj [("date", JStr "February 08");
                      ("probability", JStr "Low (~10%)")];
                JObj [("date", JStr "February 09");
                      ("probability", JStr "Medium (~15%)")];
                JObj [("date", JStr "February 10");
                      ("probability", JStr "High (~27%)")];
                JObj [("date", JStr "February 11");
                      ("probability", JStr "High (~30%)")];
                JObj [("date", JStr "February 12");
                      ("probability", JStr "Peak (~33%)")];
                JObj [("date", JStr "February 13");
                      ("probability", JStr "Very Low")]]);
            ("insights",
             JObj [("averageCycleLength", JInt 28);
                   ("averagePeriodDuration", JInt 5)])]), [])
  /\ mean_rounded [28; 30; 26] = Ok 28
  /\ (lmp_date <- strptime_Y_m_d "2024-01-01" ;;
      delta <- timedelta_days 28 ;;
      add lmp_date delta) = make 2024 1 29
  /\ (next_lmp_date <- make 2024 1 29 ;;
      calculate_ovulation_day next_lmp_date 28 false) = make 2024 2 12
  /\ (ovulation_day <- make 2024 2 12 ;;
      calculate_fertile_window ovulation_day)
     = (fertile_start <- make 2024 2 7 ;;
        fertile_end <- make 2024 2 13 ;;
        Ok (FertileWindow fertile_start fertile_end))
  /\ analyze_cycle_regularity [28; 30; 26] false = Ok "Regular".
Proof.
  repeat split; vm_compute; reflexivity.
Qed.

(** C7. [receive_data] never raises: it always returns a JSON object
    with a boolean [success] and a text [message].  When no file is
    uploaded, when the file cannot be read, when the table has no
    [user_id] column and when no row matches the name, [success] is
    false and the message is the one of that case; the four messages
    differ from one another. *)
Theorem receive_data_failures
        (read_csv read_excel : FileStorage -> result DataFrame)
        (req : request) :
  let name := dict_get (form req) "name" in
  let upload := uploaded (dict_get (files req) "bbtFile_data") in
  (exists items flag message,
      receive_data read_csv read_excel req = Ok (JObj items)
      /\ dict_get items "success" = Some (JBool flag)
      /\ dict_get items "message" = Some (JStr message))
  /\ (upload = None ->
      receive_data read_csv read_excel req = Ok (failure msg_no_file))
  /\ (forall f e,
         upload = Some f -> read_table read_csv read_excel f = inl e ->
         receive_data read_csv read_excel req = Ok (failure (msg_unreadable e)))
  /\ (forall f df,
         upload = Some f -> read_table read_csv read_excel f = Ok df ->
         contains (columns df) "user_id" = false ->
         receive_data read_csv read_excel req = Ok (failure msg_no_user_id))
  /\ (forall f df,
         upload = Some f -> read_table read_csv read_excel f = Ok df ->
         contains (columns df) "user_id" = true ->
         empty (select_user df name) = true ->
         receive_data read_csv read_excel req = Ok (failure (msg_no_rows name)))
  /\ (forall e who,
         msg_no_file <> msg_unreadable e
         /\ msg_no_file <> msg_no_user_id
         /\ msg_no_file <> msg_no_rows who
         /\ msg_unreadable e <> msg_no_user_id
         /\ msg_unreadable e <> msg_no_rows who
         /\ msg_no_user_id <> msg_no_rows who).
Proof.
  intros name upload.
  split; [|split; [|split; [|split; [|split]]]].
  - destruct upload as [f|] eqn:Hup.
    + destruct (read_table read_csv read_excel f) as [e|df] eqn:Hread.
      * rewrite (receive_data_unreadable _ _ req f e Hup Hread).
        do 3 eexists. repeat split; reflexivity.
      * destruct (contains (columns df) "user_id") eqn:Hcol.
        -- destruct (rows (select_user df name)) as [|row others] eqn:Hrows.
           ++ rewrite (receive_data_no_rows _ _ req f df Hup Hread Hcol).
              ** do 3 eexists. repeat split; reflexivity.
              ** unfold empty. fold name. rewrite Hrows.
                 destruct (columns (select_user df name)); reflexivity.
           ++ rewrite (receive_data_found _ _ req f df row others Hup Hread Hcol Hrows).
              do 3 eexists. repeat split; reflexivity.
        -- rewrite (receive_data_no_user_id _ _ req f df Hup Hread Hcol).
           do 3 eexists. repeat split; reflexivity.
    + rewrite (receive_data_no_file _ _ req Hup).
      do 3 eexists. repeat split; reflexivity.
  - apply receive_data_no_file.
  - intros f e. apply receive_data_unreadable.
  - intros f df. apply receive_data_no_user_id.
  - intros f df. apply receive_data_no_rows.
  - intros e who. apply failure_messages_distinct.
Qed.

Lemma receive_data_failures_witness :
  receive_data (sample_reader sample_table) failing_reader
    {| form := [("name", "alice")]; files := [] |}
  = Ok (failure "No file uploaded.")
  /\ receive_data failing_reader failing_reader (sample_lookup "alice")
     = Ok (failure "Error reading file: No columns to parse from file")
  /\ receive_data (sample_reader sample_table_no_user_id) failing_reader
       (sample_lookup "alice")
     = Ok (failure "No 'user_id' column found in the file.")
  /\ receive_data (sample_reader sample_table) failing_reader
       (sample_lookup "carol")
     = Ok (failure "No rows found for user_id 'carol'.").
Proof.
  split; [|split; [|split]].
  - apply (receive_data_failures (sample_reader sample_table) failing_reader
             {| form := [("name", "alice")]; files := [] |}).
    reflexivity.
  - apply (proj1 (proj2 (proj2
             (receive_data_failures failing_reader failing_reader
                (sample_lookup "alice")))) sample_upload
             (Exn LibraryError "No columns to parse from file"));
      reflexivity.
  - apply (proj1 (proj2 (proj2 (proj2
             (receive_data_failures
                (sample_reader sample_table_no_user_id) failing_reader
                (sample_lookup "alice"))))) sample_upload
             sample_table_no_user_id);
      reflexivity.
  - apply (proj1 (proj2 (proj2 (proj2 (proj2
             (receive_data_failures
                (sample_reader sample_table) failing_reader
                (sample_lookup "carol")))))) sample_upload sample_table);
      reflexivity.
Defined.

(** What the retrieval loop of [receive_data] computes.  When the file
    is read, the table has a [user_id] column and at least one row
    matches the name, only the first matching row is read, [success] is
    true, and each of the ten fixed columns goes through the test
    [value is not None] of line 156: a cell that is not [None] is
    carried as [str(value)], an absent column or a [None] cell as
    null. *)
Lemma receive_data_fields
        (read_csv read_excel : FileStorage -> result DataFrame)
        (req : request) (f : FileStorage) (df : DataFrame)
        (row : list cell) (others : list (list cell)) :
  let name := dict_get (form req) "name" in
  uploaded (dict_get (files req) "bbtFile_data") = Some f ->
  read_table read_csv read_excel f = Ok df ->
  contains (columns df) "user_id" = true ->
  rows (select_user df name) = row :: others ->
  receive_data read_csv read_excel req
  = Ok (JObj (("success", JBool true)
              :: ("message",
                  JStr ("Data loaded for user '" ++ fmt_name name ++ "'."))
              :: map (fun col =>
                        (col,
                         match cell_at (columns df) row col with
                         | Some CNone | None => JNull
                         | Some value => JStr (str_of_cell value)
                         end))
                   ["LMP_Cycle_1"; "LMP_Cycle_2"; "LMP_Cycle_3";
                    "Cycle_Length_1"; "Cycle_Length_2"; "Cycle_Length_3";
                    "Period_Duration_1"; "Period_Duration_2";
                    "Period_Duration_3"; "is_pcos"])).
Proof.
  intros name Hup Hread Hcol Hrows.
  apply (receive_data_found read_csv read_excel req f df row others);
    assumption.
Qed.

Lemma receive_data_fields_sample :
  receive_data (sample_reader sample_table) failing_reader (sample_lookup "alice")
  = Ok (JObj [("success", JBool true);
              ("message", JStr "Data loaded for user 'alice'.");
              ("LMP_Cycle_1", JStr "nan"); ("LMP_Cycle_2", JNull);
              ("LMP_Cycle_3", JNull); ("Cycle_Length_1", JStr "30");
              ("Cycle_Length_2", JNull); ("Cycle_Length_3", JNull);
              ("Period_Duration_1", JNull); ("Period_Duration_2", JNull);
              ("Period_Duration_3", JNull); ("is_pcos", JNull)]).
Proof.
  apply (receive_data_fields (sample_reader sample_table) failing_reader
           (sample_lookup "alice") sample_upload sample_table
           [CStr "alice"; COther "36.6"; CNaN; CInt 30]
           [[CStr "alice"; COther "36.9"; CStr "2024-02-01"; CInt 31]]);
    reflexivity.
Defined.

(** C8.  The code departs from the specification on an empty cell.  In
    the sample table the column [LMP_Cycle_1] exists and the cell of
    the first row of ["alice"] is empty, which pandas loads as NaN.
    The specification asks for the absent marker there, and lines 155
    to 159 aim at it with the test [value is not None]; NaN passes that
    test, so the response, with [success] true, carries the text
    ["nan"] for the field instead of null. *)
Theorem receive_data_empty_cell_is_nan_text :
  cell_at (columns sample_table) [CStr "alice"; COther "36.6"; CNaN; CInt 30]
    "LMP_Cycle_1" = Some CNaN
  /\ field_as_specified (columns sample_table)
       [CStr "alice"; COther "36.6"; CNaN; CInt 30] "LMP_Cycle_1" = JNull
  /\ exists body,
      receive_data (sample_reader sample_table) failing_reader
        (sample_lookup "alice") = Ok body
      /\ member body "success" = Some (JBool true)
      /\ member body "LMP_Cycle_1" = Some (JStr "nan")
      /\ member body "LMP_Cycle_1"
         <> Some (field_as_specified (columns sample_table)
                    [CStr "alice"; COther "36.6"; CNaN; CInt 30] "LMP_Cycle_1").
Proof.
  split; [reflexivity|]. split; [reflexivity|].
  eexists. split; [vm_compute; reflexivity|].
  split; [reflexivity|]. split; [reflexivity|].
  vm_compute. discriminate.
Qed.

(** C9. The JSON body [predict] returns is determined by the form
    fields alone: two requests with the same form produce the same
    body (or fail alike) whatever files they upload.  The uploaded file
    is read only inside the temperature block, whose outcome the rest
    of the handler never looks at. *)
Theorem predict_ignores_upload
        (read_csv read_excel : FileStorage -> result DataFrame)
        (mean_2f : list cell -> result string)
        (data : dict string) (files1 files2 : dict FileStorage) :
  fst (predict read_csv read_excel mean_2f {| form := data; files := files1 |})
  = fst (predict read_csv read_excel mean_2f {| form := data; files := files2 |}).
Proof.
  unfold predict, hbind, lift, ret. cbn [form files].
  repeat match goal with
         | |- context [match form_int ?d ?k with _ => _ end] =>
             destruct (form_int d k); [reflexivity|]; cbv beta iota
         end.
  destruct (dict_item data "lmpDate3"); [reflexivity|]; cbv beta iota.
  destruct (strptime_Y_m_d s); [reflexivity|]; cbv beta iota.
  destruct (get_equals data "pcos" "true").
  - destruct (bbt_average_returns read_csv read_excel mean_2f
                {| form := data; files := files1 |}
                (dict_get data "name") []) as [out1 ->].
    destruct (bbt_average_returns read_csv read_excel mean_2f
                {| form := data; files := files2 |}
                (dict_get data "name") []) as [out2 ->].
    cbv beta iota delta [Ok].
    repeat match goal with
           | |- context [match ?c with inl _ => _ | inr _ => _ end] =>
               destruct c; [reflexivity|]; cbv beta iota
           end.
    reflexivity.
  - reflexivity.
Qed.

(** C10. The response of [receive_data] carries the ten field keys
    exactly when a matching row was found, and then [success] is true;
    on every other path [success] is false and the response has the two
    keys [success] and [message] only. *)
Theorem receive_data_keys
        (read_csv read_excel : FileStorage -> result DataFrame)
        (req : request) :
  let name := dict_get (form req) "name" in
  let upload := uploaded (dict_get (files req) "bbtFile_data") in
  exists items,
    receive_data read_csv read_excel req = Ok (JObj items)
    /\ ((dict_get items "success" = Some (JBool true)
         /\ keys items = "success" :: "message" :: columns_to_load
         /\ exists f df row others,
             upload = Some f
             /\ read_table read_csv read_excel f = Ok df
             /\ contains (columns df) "user_id" = true
             /\ rows (select_user df name) = row :: others)
        \/ (dict_get items "success" = Some (JBool false)
            /\ keys items = ["success"; "message"]
            /\ (upload = None
                \/ (exists f e, upload = Some f
                                /\ read_table read_csv read_excel f = inl e)
                \/ (exists f df, upload = Some f
                                 /\ read_table read_csv read_excel f = Ok df
                                 /\ contains (columns df) "user_id" = false)
                \/ (exists f df, upload = Some f
                                 /\ read_table read_csv read_excel f = Ok df
                                 /\ contains (columns df) "user_id" = true
                                 /\ rows (select_user df name) = [])))).
Proof.
  intros name upload.
  destruct upload as [f|] eqn:Hup.
  - destruct (read_table read_csv read_excel f) as [e|df] eqn:Hread.
    + rewrite (receive_data_unreadable _ _ req f e Hup Hread).
      eexists. split; [reflexivity|]. right.
      split; [reflexivity|]. split; [reflexivity|].
      right. left. exists f, e. split; [reflexivity | assumption].
    + destruct (contains (columns df) "user_id") eqn:Hcol.
      * destruct (rows (select_user df name)) as [|row others] eqn:Hrows.
        -- rewrite (receive_data_no_rows _ _ req f df Hup Hread Hcol).
           ++ eexists. split; [reflexivity|]. right.
              split; [reflexivity|]. split; [reflexivity|].
              right. right. right. exists f, df. repeat split; assumption.
           ++ unfold empty. fold name. rewrite Hrows.
              destruct (columns (select_user df name)); reflexivity.
        -- rewrite (receive_data_found _ _ req f df row others Hup Hread Hcol Hrows).
           eexists. split; [reflexivity|]. left.
           split; [reflexivity|]. split; [reflexivity|].
           exists f, df, row, others. repeat split; assumption.
      * rewrite (receive_data_no_user_id _ _ req f df Hup Hread Hcol).
        eexists. split; [reflexivity|]. right.
        split; [reflexivity|]. split; [reflexivity|].
        right. right. left. exists f, df. repeat split; assumption.
  - rewrite (receive_data_no_file _ _ req Hup).
    eexists. split; [reflexivity|]. right.
    split; [reflexivity|]. split; [reflexivity|]. left. reflexivity.
Qed.

(** * Further properties of the code *)

(** ** Cycle math beyond the expected inputs *)

Section Cycle_math_edges.

Lemma timedelta_days_raises (n : Z) (e : exn) :
  timedelta_days n = inl e -> exn_class e = OverflowError.
Proof.
  unfold timedelta_days. destruct (Z.abs n <=? MAX_DELTA_DAYS);
    [discriminate | intros [= <-]; reflexivity].
Qed.

Lemma add_raises (d : datetime) (delta : timedelta) (e : exn) :
  add d delta = inl e ->
  e = Exn OverflowError "date value out of range".
Proof.
  unfold add. destruct (_ && _); [discriminate | intros [= <-]; reflexivity].
Qed.

(** What [calculate_ovulation_day] did when it returns without the
    condition flag. *)
Lemma calculate_ovulation_day_plain_inv (lmp_date d : datetime) (c : Z) :
  calculate_ovulation_day lmp_date c false = Ok d ->
  d = plus_days lmp_date (c - 14) /\ valid d /\ Z.abs (c - 14) <= MAX_DELTA_DAYS.
Proof.
  unfold calculate_ovulation_day. cbn [bind Ok].
  destruct (timedelta_days (c - 14)) as [e|delta] eqn:Hdelta; [discriminate|].
  destruct (timedelta_days_inv _ _ Hdelta) as [-> Hsmall]. cbn [bind].
  destruct (add lmp_date (Timedelta (c - 14))) as [e|d'] eqn:Hadd;
    [discriminate|].
  intros [= <-]. destruct (add_inv _ _ _ Hadd) as [-> Hvalid].
  split; [reflexivity|]. split; assumption.
Qed.

(** ... and with the condition flag, for a positive cycle length that
    binary64 holds exactly. *)
Lemma calculate_ovulation_day_pcos_inv (lmp_date d : datetime) (c : Z) :
  0 < c < 2 ^ 50 ->
  calculate_ovulation_day lmp_date c true = Ok d ->
  d = plus_days lmp_date (c * 6 / 10) /\ valid d.
Proof.
  intros Hc. unfold calculate_ovulation_day.
  rewrite int_mul_0_6 by assumption. cbn [bind Ok].
  destruct (timedelta_days (c * 6 / 10)) as [e|delta] eqn:Hdelta;
    [discriminate|].
  destruct (timedelta_days_inv _ _ Hdelta) as [-> Hsmall]. cbn [bind].
  destruct (add lmp_date (Timedelta (c * 6 / 10))) as [e|d'] eqn:Hadd;
    [discriminate|].
  intros [= <-]. destruct (add_inv _ _ _ Hadd) as [-> Hvalid].
  split; [reflexivity | assumption].
Qed.

Lemma calculate_fertile_window_inv (ovulation_day : datetime)
      (window : fertile_window) :
  calculate_fertile_window ovulation_day = Ok window ->
  window = FertileWindow (plus_days ovulation_day (-5))
             (plus_days ovulation_day 1)
  /\ valid (plus_days ovulation_day (-5)) /\ valid (plus_days ovulation_day 1).
Proof.
  unfold calculate_fertile_window, sub.
  rewrite !timedelta_days_ok by (unfold MAX_DELTA_DAYS; simpl; lia).
  cbn [bind Ok days]. change (Z.opp 5) with (-5).
  destruct (add ovulation_day (Timedelta (-5))) as [e|s] eqn:Hs;
    [discriminate|]. cbn [bind].
  destruct (add ovulation_day (Timedelta 1)) as [e|t] eqn:Ht; [discriminate|].
  cbn [bind]. intros [= <-].
  destruct (add_inv _ _ _ Hs) as [-> Hvs].
  destruct (add_inv _ _ _ Ht) as [-> Hvt].
  split; [reflexivity|]. split; assumption.
Qed.

Lemma plus_days_plus_days (d : datetime) (n k : Z) :
  plus_days (plus_days d n) k = plus_days d (n + k).
Proof. unfold plus_days. cbn [toordinal]. f_equal. ring. Qed.

Lemma plus_days_0 (d : datetime) : plus_days d 0 = d.
Proof. destruct d as [o]. unfold plus_days. cbn [toordinal]. f_equal. ring. Qed.

(** The largest and the smallest element of a list, as the folds of
    [max()] and [min()] find them. *)
Lemma fold_max_spec (rest : list Z) (x : Z) :
  In (fold_left Z.max rest x) (x :: rest)
  /\ forall y, In y (x :: rest) -> y <= fold_left Z.max rest x.
Proof.
  revert x. induction rest as [|z rest IH]; intros x; cbn [fold_left].
  - split; [left; reflexivity|]. intros y [<-|[]]. lia.
  - destruct (IH (Z.max x z)) as [Hin Hle]. split.
    + destruct Hin as [Heq|Hin].
      * rewrite <- Heq. destruct (Z.max_spec x z) as [[_ ->]|[_ ->]];
          [right; left | left]; reflexivity.
      * right; right; assumption.
    + intros y [<-|[<-|Hy]].
      * specialize (Hle (Z.max x z) (or_introl eq_refl)). lia.
      * specialize (Hle (Z.max x z) (or_introl eq_refl)). lia.
      * apply Hle. right; assumption.
Qed.

Lemma fold_min_spec (rest : list Z) (x : Z) :
  In (fold_left Z.min rest x) (x :: rest)
  /\ forall y, In y (x :: rest) -> fold_left Z.min rest x <= y.
Proof.
  revert x. induction rest as [|z rest IH]; intros x; cbn [fold_left].
  - split; [left; reflexivity|]. intros y [<-|[]]. lia.
  - destruct (IH (Z.min x z)) as [Hin Hle]. split.
    + destruct Hin as [Heq|Hin].
      * rewrite <- Heq. destruct (Z.min_spec x z) as [[_ ->]|[_ ->]];
          [left | right; left]; reflexivity.
      * right; right; assumption.
    + intros y [<-|[<-|Hy]].
      * specialize (Hle (Z.min x z) (or_introl eq_refl)). lia.
      * specialize (Hle (Z.min x z) (or_introl eq_refl)). lia.
      * apply Hle. right; assumption.
Qed.

(** Without the condition flag a non-empty list is classified by its
    extremes. *)
Lemma analyze_cycle_regularity_extremes (l : list Z) :
  l <> [] ->
  exists hi lo,
    In hi l /\ In lo l /\ (forall y, In y l -> lo <= y <= hi)
    /\ analyze_cycle_regularity l false
       = Ok (if hi - lo >? 8 then "Irregular" else "Regular").
Proof.
  destruct l as [|x rest]; [congruence|]. intros _.
  destruct (fold_max_spec rest x) as [Hhi Hmax].
  destruct (fold_min_spec rest x) as [Hlo Hmin].
  exists (fold_left Z.max rest x), (fold_left Z.min rest x).
  split; [assumption|]. split; [assumption|].
  split; [intros y Hy; split; [apply Hmin | apply Hmax]; assumption|].
  unfold analyze_cycle_regularity. cbn [py_max py_min bind Ok].
  destruct (_ >? 8); reflexivity.
Qed.

End Cycle_math_edges.

(** X1. Without the condition flag [calculate_ovulation_day] checks no
    bound on the cycle length: the date it returns lies before the
    reference date exactly when the cycle is shorter than 14 days, and
    is the reference date itself exactly when the cycle is 14 days
    long. *)
Theorem calculate_ovulation_day_short_cycle
        (lmp_date d : datetime) (cycle_length : Z) :
  calculate_ovulation_day lmp_date cycle_length false = Ok d ->
  (toordinal d < toordinal lmp_date <-> cycle_length < 14)
  /\ (d = lmp_date <-> cycle_length = 14).
Proof.
  intros Hret.
  destruct (calculate_ovulation_day_plain_inv _ _ _ Hret) as (-> & _ & _).
  destruct lmp_date as [o]. unfold plus_days. cbn [toordinal].
  split; [lia|]. split.
  - intros [= H]. lia.
  - intros ->. f_equal. lia.
Qed.

Lemma calculate_ovulation_day_short_cycle_witness :
  (toordinal (Datetime 738882) < toordinal (Datetime 738886) <-> 10 < 14)
  /\ (Datetime 738882 = Datetime 738886 <-> 10 = 14).
Proof.
  apply (calculate_ovulation_day_short_cycle (Datetime 738886) (Datetime 738882) 10).
  reflexivity.
Defined.

(** X2. For a positive cycle length, the date computed with the
    condition flag lies [14 - (c - floor(0.6 c))] days after the one
    computed without it: later for cycles of up to 32 days, the same
    day for 33 to 35 days, earlier from 36 days on. *)
Theorem calculate_ovulation_day_pcos_shift
        (lmp_date d0 d1 : datetime) (cycle_length : Z) :
  0 < cycle_length ->
  calculate_ovulation_day lmp_date cycle_length false = Ok d0 ->
  calculate_ovulation_day lmp_date cycle_length true = Ok d1 ->
  toordinal d1 - toordinal d0 = 14 - (cycle_length - cycle_length * 6 / 10)
  /\ (toordinal d0 < toordinal d1 <-> cycle_length <= 32)
  /\ (d1 = d0 <-> 33 <= cycle_length <= 35)
  /\ (toordinal d1 < toordinal d0 <-> 36 <= cycle_length).
Proof.
  intros Hpos H0 H1.
  destruct (calculate_ovulation_day_plain_inv _ _ _ H0) as (-> & _ & Hsmall).
  assert (Hc : 0 < cycle_length < 2 ^ 50).
  { unfold MAX_DELTA_DAYS in Hsmall.
    change (2 ^ 50) with 1125899906842624. lia. }
  destruct (calculate_ovulation_day_pcos_inv _ _ _ Hc H1) as (-> & _).
  destruct lmp_date as [o]. unfold plus_days. cbn [toordinal].
  pose proof (Z.div_mod (cycle_length * 6) 10 ltac:(lia)) as Hdm.
  pose proof (Z.mod_pos_bound (cycle_length * 6) 10 ltac:(lia)) as Hr.
  split; [lia|]. split; [lia|]. split; [|lia].
  split.
  - intros [= H]. lia.
  - intros H. f_equal. lia.
Qed.

Lemma calculate_ovulation_day_pcos_shift_witness :
  toordinal (Datetime 738902) - toordinal (Datetime 738900)
  = 14 - (28 - 28 * 6 / 10)
  /\ (toordinal (Datetime 738900) < toordinal (Datetime 738902) <-> 28 <= 32)
  /\ (Datetime 738902 = Datetime 738900 <-> 33 <= 28 <= 35)
  /\ (toordinal (Datetime 738902) < toordinal (Datetime 738900) <-> 36 <= 28).
Proof.
  apply (calculate_ovulation_day_pcos_shift (Datetime 738886)
           (Datetime 738900) (Datetime 738902) 28);
    [lia | reflexivity | reflexivity].
Defined.

(** X3. A longer cycle never gives an earlier ovulation day, with or
    without the condition flag (cycle lengths that binary64 holds
    exactly). *)
Theorem calculate_ovulation_day_monotone
        (lmp_date d d' : datetime) (c c' : Z) (has_pcos : bool) :
  0 < c <= c' -> c' < 2 ^ 50 ->
  calculate_ovulation_day lmp_date c has_pcos = Ok d ->
  calculate_ovulation_day lmp_date c' has_pcos = Ok d' ->
  toordinal d <= toordinal d'
  /\ (has_pcos = false -> toordinal d' - toordinal d = c' - c).
Proof.
  intros Hc Hc' H H'. destruct has_pcos.
  - destruct (calculate_ovulation_day_pcos_inv lmp_date d c ltac:(lia) H)
      as (-> & _).
    destruct (calculate_ovulation_day_pcos_inv lmp_date d' c' ltac:(lia) H')
      as (-> & _).
    unfold plus_days. cbn [toordinal].
    split; [|discriminate].
    pose proof (Z.div_le_mono (c * 6) (c' * 6) 10 ltac:(lia) ltac:(lia)). lia.
  - destruct (calculate_ovulation_day_plain_inv _ _ _ H) as (-> & _ & _).
    destruct (calculate_ovulation_day_plain_inv _ _ _ H') as (-> & _ & _).
    unfold plus_days. cbn [toordinal]. split; [lia | intros _; lia].
Qed.

Lemma calculate_ovulation_day_monotone_witness :
  toordinal (Datetime 738902) <= toordinal (Datetime 738907)
  /\ (true = false ->
      toordinal (Datetime 738907) - toordinal (Datetime 738902) = 35 - 28).
Proof.
  apply (calculate_ovulation_day_monotone (Datetime 738886)
           (Datetime 738902) (Datetime 738907) 28 35 true);
    [lia | reflexivity | reflexivity | reflexivity].
Defined.

(** X4. [calculate_fertile_window] returns a window for every date of
    the calendar from 0001-01-06 to 9999-12-30; on the first five days
    and on the last day of the calendar it raises [OverflowError]. *)
Theorem calculate_fertile_window_edges (ovulation_day : datetime) :
  valid ovulation_day ->
  calculate_fertile_window ovulation_day
  = if (6 <=? toordinal ovulation_day)
       && (toordinal ovulation_day <? MAXORDINAL)
    then Ok (FertileWindow (plus_days ovulation_day (-5))
               (plus_days ovulation_day 1))
    else Raise OverflowError "date value out of range".
Proof.
  intros [Hlo Hhi].
  destruct (Z.leb_spec 6 (toordinal ovulation_day)) as [H6|H6];
    [destruct (Z.ltb_spec (toordinal ovulation_day) MAXORDINAL) as [Hm|Hm]|];
    cbn [andb].
  - apply calculate_fertile_window_in_range;
      unfold valid, plus_days; cbn [toordinal]; lia.
  - unfold calculate_fertile_window, sub.
    rewrite !timedelta_days_ok by (unfold MAX_DELTA_DAYS; simpl; lia).
    cbn [bind Ok days]. change (Z.opp 5) with (-5).
    rewrite (add_in_range ovulation_day (-5))
      by (unfold valid, plus_days; cbn [toordinal]; lia).
    cbn [bind Ok].
    rewrite (add_out_of_range ovulation_day 1)
      by (unfold valid, plus_days; cbn [toordinal]; lia).
    reflexivity.
  - unfold calculate_fertile_window, sub.
    rewrite !timedelta_days_ok by (unfold MAX_DELTA_DAYS; simpl; lia).
    cbn [bind Ok days]. change (Z.opp 5) with (-5).
    rewrite (add_out_of_range ovulation_day (-5))
      by (unfold valid, plus_days; cbn [toordinal]; lia).
    reflexivity.
Qed.

Lemma calculate_fertile_window_edges_witness :
  calculate_fertile_window (Datetime MAXORDINAL)
  = Raise OverflowError "date value out of range".
Proof.
  apply (calculate_fertile_window_edges (Datetime MAXORDINAL)).
  unfold valid, MAXORDINAL. simpl. lia.
Defined.

(** X5. Without the condition flag, [analyze_cycle_regularity]
    classifies a non-empty list of any length: ["Irregular"] exactly
    when two of its lengths differ by more than 8, ["Regular"] exactly
    when no two do. *)
Theorem analyze_cycle_regularity_any_length (cycle_lengths : list Z) :
  cycle_lengths <> [] ->
  (analyze_cycle_regularity cycle_lengths false = Ok "Irregular"
   <-> exists a b, In a cycle_lengths /\ In b cycle_lengths /\ a - b > 8)
  /\ (analyze_cycle_regularity cycle_lengths false = Ok "Regular"
      <-> forall a b, In a cycle_lengths -> In b cycle_lengths -> a - b <= 8).
Proof.
  intros Hne.
  destruct (analyze_cycle_regularity_extremes cycle_lengths Hne)
    as (hi & lo & Hhi & Hlo & Hall & ->).
  destruct (Z.gtb_spec (hi - lo) 8) as [Hgt|Hle]; split; split.
  - intros _. exists hi, lo. repeat split; (assumption || lia).
  - reflexivity.
  - discriminate.
  - intros H. specialize (H hi lo Hhi Hlo). lia.
  - discriminate.
  - intros (a & b & Ha & Hb & Hab).
    pose proof (Hall a Ha). pose proof (Hall b Hb). lia.
  - intros _ a b Ha Hb.
    pose proof (Hall a Ha). pose proof (Hall b Hb). lia.
  - reflexivity.
Qed.

Lemma analyze_cycle_regularity_any_length_witness :
  (analyze_cycle_regularity [28; 40; 30; 31] false = Ok "Irregular"
   <-> exists a b, In a [28; 40; 30; 31] /\ In b [28; 40; 30; 31] /\ a - b > 8)
  /\ (analyze_cycle_regularity [28; 40; 30; 31] false = Ok "Regular"
      <-> forall a b, In a [28; 40; 30; 31] -> In b [28; 40; 30; 31] ->
                      a - b <= 8).
Proof.
  apply (analyze_cycle_regularity_any_length [28; 40; 30; 31]). discriminate.
Defined.

(** X6. With the condition flag the lengths are never looked at: even
    the empty list gets the flagged text.  Without it the function
    raises, a [ValueError] from [max()], exactly on the empty list. *)
Theorem analyze_cycle_regularity_empty (cycle_lengths : list Z) :
  analyze_cycle_regularity cycle_lengths true
  = Ok "Irregular - PCOS may cause irregular cycles"
  /\ ((exists e, analyze_cycle_regularity cycle_lengths false = inl e)
      <-> cycle_lengths = [])
  /\ analyze_cycle_regularity [] false
     = Raise ValueError "max() arg is an empty sequence".
Proof.
  split; [reflexivity|]. split; [|reflexivity]. split.
  - intros [e He]. destruct cycle_lengths as [|x rest]; [reflexivity|].
    destruct (analyze_cycle_regularity_extremes (x :: rest) ltac:(discriminate))
      as (hi & lo & _ & _ & _ & Hret).
    rewrite Hret in He. discriminate.
  - intros ->. eexists. reflexivity.
Qed.

(** X7. The classification does not depend on the order of the cycle
    lengths. *)
Theorem analyze_cycle_regularity_permutation
        (l l' : list Z) (has_pcos : bool) :
  Permutation l l' ->
  analyze_cycle_regularity l has_pcos = analyze_cycle_regularity l' has_pcos.
Proof.
  intros Hperm. destruct has_pcos; [reflexivity|].
  destruct l as [|x rest].
  - apply Permutation_nil in Hperm. subst. reflexivity.
  - assert (Hne' : l' <> [])
      by (intros ->; apply Permutation_sym, Permutation_nil in Hperm;
          discriminate).
    destruct (analyze_cycle_regularity_extremes (x :: rest)
                ltac:(discriminate))
      as (hi & lo & Hhi & Hlo & Hall & ->).
    destruct (analyze_cycle_regularity_extremes l' Hne')
      as (hi' & lo' & Hhi' & Hlo' & Hall' & ->).
    assert (hi = hi').
    { pose proof (Hall' hi (Permutation_in _ Hperm Hhi)).
      pose proof (Hall hi' (Permutation_in _ (Permutation_sym Hperm) Hhi')).
      lia. }
    assert (lo = lo').
    { pose proof (Hall' lo (Permutation_in _ Hperm Hlo)).
      pose proof (Hall lo' (Permutation_in _ (Permutation_sym Hperm) Hlo')).
      lia. }
    subst. reflexivity.
Qed.

Lemma analyze_cycle_regularity_permutation_witness :
  analyze_cycle_regularity [28; 40; 30] false
  = analyze_cycle_regularity [40; 28; 30] false.
Proof.
  apply (analyze_cycle_regularity_permutation [28; 40; 30] [40; 28; 30] false).
  apply perm_swap.
Defined.

(** X8. On the window [calculate_fertile_window] made for an ovulation
    day, [calculate_conception_probability] always returns; its entry
    labelled ["Peak (~33%)"] is dated the ovulation day, its first
    entry the start and its last entry the end of the window. *)
Theorem conception_probability_of_fertile_window
        (ovulation_day : datetime) (window : fertile_window) :
  calculate_fertile_window ovulation_day = Ok window ->
  exists entries,
    calculate_conception_probability window = Ok entries
    /\ nth_error entries 0 = Some (probability_entry (start window) "Low (~4%)")
    /\ nth_error entries 5
       = Some (probability_entry ovulation_day "Peak (~33%)")
    /\ nth_error entries 6 = Some (probability_entry (end_ window) "Very Low").
Proof.
  intros Hwin.
  destruct (calculate_fertile_window_inv _ _ Hwin) as (-> & Hs & He).
  eexists. split.
  - apply calculate_conception_probability_in_range; cbn [start];
      [assumption|].
    rewrite plus_days_plus_days. exact He.
  - cbn [start end_ nth_error]. rewrite !plus_days_plus_days.
    cbn [Z.add Z.opp Z.pos_sub Pos.pred_double]. rewrite !plus_days_0.
    repeat split; reflexivity.
Qed.

Lemma conception_probability_of_fertile_window_witness :
  exists entries,
    calculate_conception_probability
      (FertileWindow (Datetime 738923) (Datetime 738929)) = Ok entries
    /\ nth_error entries 0
       = Some (probability_entry (Datetime 738923) "Low (~4%)")
    /\ nth_error entries 5
       = Some (probability_entry (Datetime 738928) "Peak (~33%)")
    /\ nth_error entries 6
       = Some (probability_entry (Datetime 738929) "Very Low").
Proof.
  apply (conception_probability_of_fertile_window (Datetime 738928)
           (FertileWindow (Datetime 738923) (Datetime 738929))).
  reflexivity.
Defined.

(** X9. [calculate_conception_probability] returns all seven entries or
    none: when the sixth day after the start of the window is past the
    end of the calendar it raises [OverflowError], whatever the end of
    the window says. *)
Theorem calculate_conception_probability_all_or_none
        (window : fertile_window) :
  valid (start window) ->
  ~ valid (plus_days (start window) 6) ->
  calculate_conception_probability window
  = Raise OverflowError "date value out of range".
Proof.
  destruct window as [[o] e]. unfold valid, plus_days, MAXORDINAL.
  cbn [start toordinal]. intros Hv Hout.
  assert (Hc : o = 3652054 \/ o = 3652055 \/ o = 3652056 \/ o = 3652057
               \/ o = 3652058 \/ o = 3652059) by lia.
  destruct Hc as [->|[->|[->|[->|[->| ->]]]]]; reflexivity.
Qed.

Lemma calculate_conception_probability_all_or_none_witness :
  calculate_conception_probability
    (FertileWindow (Datetime 3652055) (Datetime 3652059))
  = Raise OverflowError "date value out of range".
Proof.
  apply (calculate_conception_probability_all_or_none
           (FertileWindow (Datetime 3652055) (Datetime 3652059)));
    unfold valid, plus_days, MAXORDINAL; simpl; lia.
Defined.

(** ** [predict] stage by stage *)

Section Predict_stages.

Variable read_csv read_excel : FileStorage -> result DataFrame.
Variable mean_2f : list cell -> result string.

(** With a file uploaded the temperature block prints two lines, the
    second one saying how the lookup went. *)
Lemma bbt_average_two_lines (req : request) (name : option string)
      (out : list string) (f : FileStorage) :
  uploaded (dict_get (files req) "bbtFile") = Some f ->
  exists line,
    bbt_average read_csv read_excel mean_2f req name out
    = (Ok tt, (out ++ [("Received file: " ++ filename f)%string; line])%list).
Proof.
  intros Hup. unfold bbt_average. rewrite Hup.
  unfold hbind, try_except, lift, print.
  destruct (read_table read_csv read_excel f) as [e|df];
    [eexists; rewrite <- app_assoc; reflexivity|].
  destruct (contains (columns df) "user_id");
    [|eexists; rewrite <- app_assoc; reflexivity].
  destruct (negb (empty (select_user df name)));
    [|eexists; rewrite <- app_assoc; reflexivity].
  destruct (find (contains (columns (select_user df name))) bbt_columns)
    as [col|]; [|eexists; rewrite <- app_assoc; reflexivity].
  destruct (mean_2f (column (select_user df name) col));
    eexists; rewrite <- app_assoc; reflexivity.
Qed.

Lemma bbt_average_no_file (req : request) (name : option string)
      (out : list string) :
  uploaded (dict_get (files req) "bbtFile") = None ->
  bbt_average read_csv read_excel mean_2f req name out = (Ok tt, out).
Proof. intros Hup. unfold bbt_average. rewrite Hup. reflexivity. Qed.

(** [predict] is the reading of the form, then the temperature block
    when the flag is set, then the computation of the body. *)
Lemma predict_stages (req : request) :
  predict read_csv read_excel mean_2f req
  = match read_form (form req) with
    | inl e => (inl e, [])
    | inr (cycle_lengths, period_durations, lmp_date) =>
        let has_pcos := get_equals (form req) "pcos" "true" in
        (respond has_pcos cycle_lengths period_durations lmp_date,
         if has_pcos
         then snd (bbt_average read_csv read_excel mean_2f req
                     (dict_get (form req) "name") [])
         else [])
    end.
Proof.
  unfold predict, read_form, hbind, lift, ret.
  repeat match goal with
         | |- context [match form_int ?d ?k with _ => _ end] =>
             destruct (form_int d k); [reflexivity|]; cbn [bind]
         end.
  destruct (dict_item (form req) "lmpDate3") as [|text]; [reflexivity|].
  cbn [bind].
  destruct (strptime_Y_m_d text) as [|lmp_date]; [reflexivity|].
  cbn [bind Ok]. cbv zeta.
  match goal with
  | |- context [(if ?b then ?a else ?c) ?x] =>
      set (block := (if b then a else c) x)
  end.
  assert (Hblock :
    block = (Ok tt,
             if get_equals (form req) "pcos" "true"
             then snd (bbt_average read_csv read_excel mean_2f req
                         (dict_get (form req) "name") [])
             else [])).
  { unfold block. destruct (get_equals (form req) "pcos" "true");
      [|reflexivity].
    destruct (bbt_average_returns read_csv read_excel mean_2f req
                (dict_get (form req) "name") []) as [out' ->].
    reflexivity. }
  rewrite Hblock. cbv beta iota delta [Ok]. unfold respond.
  repeat match goal with
         | |- context [bind ?c _] =>
             destruct c; [reflexivity|]; cbn [bind]; cbv beta iota
         end.
  reflexivity.
Qed.

Lemma predict_body (req : request) :
  fst (predict read_csv read_excel mean_2f req) = predict_staged (form req).
Proof.
  rewrite predict_stages. unfold predict_staged.
  destruct (read_form (form req)) as [e|[[cs ps] lmp]]; reflexivity.
Qed.

End Predict_stages.

Section Stage_facts.

Lemma int_of_str_raises (s : string) (e : exn) :
  int_of_str s = inl e -> exn_class e = ValueError.
Proof.
  unfold int_of_str.
  match goal with
  | |- context [let '(_, _) := ?X in _] => destruct X as [negative text]
  end.
  destruct text as [|c rest]; [intros [= <-]; reflexivity|].
  destruct (Ascii.eqb c "_"); [intros [= <-]; reflexivity|].
  destruct (scan_digits _ _ _ _) as [[[count n] rest']|];
    [|intros [= <-]; reflexivity].
  destruct (MAX_STR_DIGITS <? count); [intros [= <-]; reflexivity|].
  destruct (count =? 0); [intros [= <-]; reflexivity|].
  destruct (drop_spaces rest'); [discriminate | intros [= <-]; reflexivity].
Qed.

Lemma form_int_raises (data : dict string) (key : string) (e : exn) :
  form_int data key = inl e ->
  (dict_get data key = None /\ e = BadRequestKeyError key)
  \/ (exists text, dict_get data key = Some text
                   /\ int_of_str text = inl e /\ exn_class e = ValueError).
Proof.
  unfold form_int, dict_item.
  destruct (dict_get data key) as [text|]; cbn [bind Ok Raise].
  - intros H. right. exists text. split; [reflexivity|].
    split; [exact H | apply (int_of_str_raises _ _ H)].
  - intros [= <-]. left. split; reflexivity.
Qed.

Lemma make_raises (year month day : Z) (e : exn) :
  make year month day = inl e -> exn_class e = ValueError.
Proof.
  unfold make.
  destruct (negb _); [intros [= <-]; reflexivity|].
  destruct (negb _); [intros [= <-]; reflexivity|].
  destruct (negb _); [intros [= <-]; reflexivity | discriminate].
Qed.

Lemma strptime_raises (text : string) (e : exn) :
  strptime_Y_m_d text = inl e -> exn_class e = ValueError.
Proof.
  unfold strptime_Y_m_d.
  destruct (match_Y_m_d (chars text)) as [[[[year month] day] rest]|];
    [|intros [= <-]; reflexivity].
  destruct rest; [apply make_raises | intros [= <-]; reflexivity].
Qed.

(** What the reading of the form raises, and on which field. *)
Lemma read_form_raises (data : dict string) (e : exn) :
  read_form data = inl e ->
  exn_class e = ValueError
  \/ exists key, In key required_fields /\ dict_get data key = None
                 /\ e = BadRequestKeyError key.
Proof.
  unfold read_form.
  repeat match goal with
         | |- context [bind (form_int ?d ?k) _] =>
             let H := fresh "H" in
             destruct (form_int d k) eqn:H;
             [ cbn [bind]; intros [= <-];
               destruct (form_int_raises _ _ _ H)
                 as [[Hnone ->]|[text [_ [_ Hv]]]];
               [ right; eexists; split; [|split; [exact Hnone | reflexivity]];
                 unfold required_fields; cbn [In]; tauto
               | left; exact Hv ]
             | cbn [bind]; clear H ]
         end.
  unfold dict_item.
  destruct (dict_get data "lmpDate3") as [text|] eqn:Hget; cbn [bind Ok Raise].
  - destruct (strptime_Y_m_d text) eqn:Hp; cbn [bind]; [|discriminate].
    intros [= <-]. left. apply (strptime_raises _ _ Hp).
  - intros [= <-]. right. exists "lmpDate3".
    split; [unfold required_fields; cbn [In]; tauto|].
    split; [assumption | reflexivity].
Qed.

Lemma read_form_inv (data : dict string) (readings : list Z * list Z * datetime) :
  read_form data = Ok readings ->
  exists c1 c2 c3 p1 p2 p3 text lmp_date,
    readings = ([c1; c2; c3], [p1; p2; p3], lmp_date)
    /\ form_int data "cycleLength1" = Ok c1
    /\ form_int data "cycleLength2" = Ok c2
    /\ form_int data "cycleLength3" = Ok c3
    /\ form_int data "periodDuration1" = Ok p1
    /\ form_int data "periodDuration2" = Ok p2
    /\ form_int data "periodDuration3" = Ok p3
    /\ dict_item data "lmpDate3" = Ok text
    /\ strptime_Y_m_d text = Ok lmp_date.
Proof.
  unfold read_form.
  destruct (form_int data "cycleLength1") as [|c1]; [discriminate|].
  destruct (form_int data "cycleLength2") as [|c2]; [discriminate|].
  destruct (form_int data "cycleLength3") as [|c3]; [discriminate|].
  destruct (form_int data "periodDuration1") as [|p1]; [discriminate|].
  destruct (form_int data "periodDuration2") as [|p2]; [discriminate|].
  destruct (form_int data "periodDuration3") as [|p3]; [discriminate|].
  destruct (dict_item data "lmpDate3") as [|text]; [discriminate|].
  cbn [bind].
  destruct (strptime_Y_m_d text) as [|lmp_date] eqn:Hp; [discriminate|].
  cbn [bind]. intros [= <-].
  exists c1, c2, c3, p1, p2, p3, text, lmp_date.
  repeat split; (reflexivity || assumption).
Qed.

Lemma read_form_ok (data : dict string) (c1 c2 c3 p1 p2 p3 : Z)
      (text : string) (lmp_date : datetime) :
  form_int data "cycleLength1" = Ok c1 ->
  form_int data "cycleLength2" = Ok c2 ->
  form_int data "cycleLength3" = Ok c3 ->
  form_int data "periodDuration1" = Ok p1 ->
  form_int data "periodDuration2" = Ok p2 ->
  form_int data "periodDuration3" = Ok p3 ->
  dict_item data "lmpDate3" = Ok text ->
  strptime_Y_m_d text = Ok lmp_date ->
  read_form data = Ok ([c1; c2; c3], [p1; p2; p3], lmp_date).
Proof.
  intros H1 H2 H3 H4 H5 H6 H7 H8. unfold read_form.
  rewrite H1, H2, H3, H4, H5, H6, H7. cbn [bind Ok]. rewrite H8. reflexivity.
Qed.

Lemma mean_rounded_raises (a b c : Z) (e : exn) :
  mean_rounded [a; b; c] = inl e ->
  exn_class e = OverflowError \/ exn_class e = ValueError.
Proof.
  unfold mean_rounded, Float64.int_truediv, Float64.round.
  cbn [List.length]. change (Z.of_nat 3 =? 0) with false. cbv iota.
  destruct (SFdiv _ _ _ _); cbn [bind Ok Raise];
    try discriminate; intros [= <-]; auto.
Qed.

Lemma calculate_ovulation_day_raises
      (lmp_date : datetime) (c : Z) (has_pcos : bool) (e : exn) :
  calculate_ovulation_day lmp_date c has_pcos = inl e ->
  exn_class e = OverflowError \/ exn_class e = ValueError.
Proof.
  unfold calculate_ovulation_day.
  assert (Hrest : forall n,
             (delta <- timedelta_days n ;;
              ovulation_date <- add lmp_date delta ;; Ok ovulation_date)
             = inl e -> exn_class e = OverflowError).
  { intros n. destruct (timedelta_days n) as [e'|delta] eqn:Hd; cbn [bind].
    - intros [= <-]. apply (timedelta_days_raises _ _ Hd).
    - destruct (add lmp_date delta) as [e'|d] eqn:Ha; cbn [bind];
        [|discriminate].
      intros [= <-]. rewrite (add_raises _ _ _ Ha). reflexivity. }
  destruct has_pcos.
  - unfold Float64.int_mul_float, Float64.of_int, Float64.to_int.
    destruct (binary_normalize _ _ _ _ _); cbn [bind Ok Raise].
    + destruct (Float64.mul _ _); cbn [bind Ok Raise];
        try (intros [= <-]; auto; fail); intros H; left; eapply Hrest, H.
    + intros [= <-]. auto.
    + destruct (Float64.mul _ _); cbn [bind Ok Raise];
        try (intros [= <-]; auto; fail); intros H; left; eapply Hrest, H.
    + destruct (Float64.mul _ _); cbn [bind Ok Raise];
        try (intros [= <-]; auto; fail); intros H; left; eapply Hrest, H.
  - cbn [bind Ok]. intros H. left. eapply Hrest, H.
Qed.

Lemma calculate_fertile_window_raises (ovulation_day : datetime) (e : exn) :
  calculate_fertile_window ovulation_day = inl e ->
  e = Exn OverflowError "date value out of range".
Proof.
  unfold calculate_fertile_window, sub.
  rewrite !timedelta_days_ok by (unfold MAX_DELTA_DAYS; simpl; lia).
  cbn [bind Ok days]. change (Z.opp 5) with (-5).
  destruct (add ovulation_day (Timedelta (-5))) as [e'|s] eqn:Hs; cbn [bind].
  - intros [= <-]. apply (add_raises _ _ _ Hs).
  - destruct (add ovulation_day (Timedelta 1)) as [e'|t] eqn:Ht; cbn [bind];
      [|discriminate].
    intros [= <-]. apply (add_raises _ _ _ Ht).
Qed.

Lemma calculate_conception_probability_raises
      (window : fertile_window) (e : exn) :
  calculate_conception_probability window = inl e ->
  e = Exn OverflowError "date value out of range".
Proof.
  unfold calculate_conception_probability.
  change (range 7) with [0; 1; 2; 3; 4; 5; 6]. cbn [for_each].
  rewrite !timedelta_days_ok by (unfold MAX_DELTA_DAYS; simpl; lia).
  cbn [bind Ok].
  repeat match goal with
         | |- context [bind (add ?d ?t) _] =>
             let H := fresh "H" in
             destruct (add d t) eqn:H;
             [ cbn [bind]; intros [= <-]; apply (add_raises _ _ _ H)
             | cbn [bind list_item]; clear H ]
         end.
  discriminate.
Qed.

(** The computation of the body raises nothing but [OverflowError] and
    [ValueError]. *)
Lemma respond_raises (has_pcos : bool) (c1 c2 c3 p1 p2 p3 : Z)
      (lmp_date : datetime) (e : exn) :
  respond has_pcos [c1; c2; c3] [p1; p2; p3] lmp_date = inl e ->
  exn_class e = OverflowError \/ exn_class e = ValueError.
Proof.
  unfold respond.
  destruct (mean_rounded [c1; c2; c3]) as [e'|avg] eqn:H1; cbn [bind];
    [intros [= <-]; apply (mean_rounded_raises _ _ _ _ H1)|].
  destruct (mean_rounded [p1; p2; p3]) as [e'|avgp] eqn:H2; cbn [bind];
    [intros [= <-]; apply (mean_rounded_raises _ _ _ _ H2)|].
  destruct (timedelta_days avg) as [e'|delta] eqn:H3; cbn [bind];
    [intros [= <-]; left; apply (timedelta_days_raises _ _ H3)|].
  destruct (add lmp_date delta) as [e'|next] eqn:H4; cbn [bind];
    [intros [= <-]; left; rewrite (add_raises _ _ _ H4); reflexivity|].
  destruct (calculate_ovulation_day next avg has_pcos) as [e'|ov] eqn:H5;
    cbn [bind];
    [intros [= <-]; apply (calculate_ovulation_day_raises _ _ _ _ H5)|].
  destruct (calculate_fertile_window ov) as [e'|w] eqn:H6; cbn [bind];
    [intros [= <-]; left;
     rewrite (calculate_fertile_window_raises _ _ H6); reflexivity|].
  rewrite analyze_cycle_regularity_triple. cbn [bind Ok].
  destruct (calculate_conception_probability w) as [e'|entries] eqn:H8;
    cbn [bind]; [|discriminate].
  intros [= <-]. left.
  rewrite (calculate_conception_probability_raises _ _ H8). reflexivity.
Qed.

(** What the computation of the body did when it returns. *)
Lemma respond_inv (has_pcos : bool) (c1 c2 c3 p1 p2 p3 : Z)
      (lmp_date : datetime) (body : json) :
  respond has_pcos [c1; c2; c3] [p1; p2; p3] lmp_date = Ok body ->
  exists avg_cycle_length avg_period_duration ovulation_day,
    mean_rounded [c1; c2; c3] = Ok avg_cycle_length
    /\ avg_cycle_length = nearest_third (c1 + c2 + c3)
    /\ Z.abs (c1 + c2 + c3) <= 2 ^ 50
    /\ mean_rounded [p1; p2; p3] = Ok avg_period_duration
    /\ valid (plus_days lmp_date avg_cycle_length)
    /\ calculate_ovulation_day (plus_days lmp_date avg_cycle_length)
         avg_cycle_length has_pcos = Ok ovulation_day
    /\ valid (plus_days ovulation_day (-5))
    /\ valid (plus_days ovulation_day 1)
    /\ body
       = response_around ovulation_day
           (if has_pcos then "Irregular - PCOS may cause irregular cycles"
            else if Z.max (Z.max c1 c2) c3 - Z.min (Z.min c1 c2) c3 >? 8
                 then "Irregular" else "Regular")
           avg_cycle_length avg_period_duration.
Proof.
  unfold respond.
  destruct (mean_rounded [c1; c2; c3]) as [|avg] eqn:H1; [discriminate|].
  cbn [bind].
  destruct (mean_rounded [p1; p2; p3]) as [|avgp] eqn:H2; [discriminate|].
  cbn [bind].
  destruct (timedelta_days avg) as [|delta] eqn:H3; [discriminate|].
  cbn [bind]. destruct (timedelta_days_inv _ _ H3) as [-> Hsmall].
  destruct (add lmp_date (Timedelta avg)) as [|next] eqn:H4; [discriminate|].
  cbn [bind]. destruct (add_inv _ _ _ H4) as [-> Hnext].
  destruct (calculate_ovulation_day (plus_days lmp_date avg) avg has_pcos)
    as [|ov] eqn:H5; [discriminate|].
  cbn [bind].
  destruct (calculate_fertile_window ov) as [|w] eqn:H6; [discriminate|].
  cbn [bind]. destruct (calculate_fertile_window_inv _ _ H6) as (-> & Hs & He).
  rewrite analyze_cycle_regularity_triple. cbn [bind Ok].
  rewrite calculate_conception_probability_in_range
    by (cbn [start];
        first [assumption | rewrite plus_days_plus_days; exact He]).
  cbn [bind]. intros [= <-].
  pose proof (mean_rounded_small _ _ _ _ H1 Hsmall) as Hcs.
  exists avg, avgp, ov.
  split; [reflexivity|].
  split; [rewrite mean_rounded_triple in H1 by assumption;
          unfold Ok in H1; injection H1 as <-; reflexivity|].
  split; [assumption|]. split; [reflexivity|]. split; [assumption|].
  split; [assumption|]. split; [assumption|]. split; [assumption|].
  unfold response_around. cbn [start end_].
  rewrite !plus_days_plus_days.
  cbn [Z.add Z.opp Z.pos_sub Pos.pred_double]. rewrite !plus_days_0.
  reflexivity.
Qed.

Lemma find_first {A} (p : A -> bool) (before : list A) (x : A)
      (after : list A) :
  p x = true -> (forall y, In y before -> p y = false) ->
  find p (before ++ x :: after) = Some x.
Proof.
  intros Hx. induction before as [|y before IH]; intros Hbefore; cbn.
  - rewrite Hx. reflexivity.
  - rewrite (Hbefore y (or_introl eq_refl)). apply IH.
    intros z Hz. apply Hbefore. right; assumption.
Qed.

Lemma find_none {A} (p : A -> bool) (xs : list A) :
  (forall y, In y xs -> p y = false) -> find p xs = None.
Proof.
  induction xs as [|y xs IH]; intros H; cbn; [reflexivity|].
  rewrite (H y (or_introl eq_refl)). apply IH.
  intros z Hz. apply H. right; assumption.
Qed.

Lemma nearest_third_between (a b c : Z) :
  Z.min (Z.min a b) c <= nearest_third (a + b + c) <= Z.max (Z.max a b) c.
Proof.
  unfold nearest_third.
  pose proof (Z.div_mod (a + b + c + 1) 3 ltac:(lia)).
  pose proof (Z.mod_pos_bound (a + b + c + 1) 3 ltac:(lia)). lia.
Qed.

End Stage_facts.

Section Predict_forward.

Lemma calculate_ovulation_day_truncated
      (lmp_date : datetime) (cycle_length : Z) (has_pcos : bool) :
  valid lmp_date ->
  Z.abs cycle_length < 2 ^ 50 ->
  valid (plus_days lmp_date (truncated_offset cycle_length has_pcos)) ->
  calculate_ovulation_day lmp_date cycle_length has_pcos
  = Ok (plus_days lmp_date (truncated_offset cycle_length has_pcos)).
Proof.
  intros Hlmp Hc Hres.
  pose proof (span_of_valid _ _ Hlmp Hres) as Hspan.
  unfold calculate_ovulation_day, truncated_offset in *.
  unfold MAXORDINAL in Hspan.
  destruct has_pcos.
  - rewrite int_mul_0_6_trunc by assumption.
    cbn [bind Ok]. rewrite timedelta_days_ok by (unfold MAX_DELTA_DAYS; lia).
    cbn [bind Ok]. rewrite add_in_range by assumption. reflexivity.
  - cbn [bind Ok]. rewrite timedelta_days_ok by (unfold MAX_DELTA_DAYS; lia).
    cbn [bind Ok]. rewrite add_in_range by assumption. reflexivity.
Qed.

(** The body computed from readings whose dates stay inside the
    calendar. *)
Lemma respond_in_range (has_pcos : bool) (c1 c2 c3 p1 p2 p3 : Z)
      (lmp_date : datetime) :
  let avg_cycle_length := nearest_third (c1 + c2 + c3) in
  let avg_period_duration := nearest_third (p1 + p2 + p3) in
  let ovulation_day :=
    plus_days lmp_date
      (avg_cycle_length + truncated_offset avg_cycle_length has_pcos) in
  valid lmp_date ->
  Z.abs (p1 + p2 + p3) <= 3 * 2 ^ 51 + 1 ->
  valid (plus_days lmp_date avg_cycle_length) ->
  valid (plus_days ovulation_day (-5)) ->
  valid (plus_days ovulation_day 1) ->
  respond has_pcos [c1; c2; c3] [p1; p2; p3] lmp_date
  = Ok (response_around ovulation_day
          (if has_pcos then "Irregular - PCOS may cause irregular cycles"
           else if Z.max (Z.max c1 c2) c3 - Z.min (Z.min c1 c2) c3 >? 8
                then "Irregular" else "Regular")
          avg_cycle_length avg_period_duration).
Proof.
  intros avg avgp ov Hlmp Hps Hnext Hstart Hend.
  pose proof (span_of_valid _ _ Hlmp Hnext) as Hspan.
  pose proof (nearest_third_near (c1 + c2 + c3)) as Hnear.
  fold avg in Hspan, Hnear. unfold MAXORDINAL in Hspan.
  assert (Hcs : Z.abs (c1 + c2 + c3) <= 2 ^ 50)
    by (change (2 ^ 50) with 1125899906842624; lia).
  assert (Havg : Z.abs avg < 2 ^ 50)
    by (change (2 ^ 50) with 1125899906842624; lia).
  assert (Hov : valid ov)
    by (revert Hstart Hend; unfold valid, plus_days; cbn [toordinal]; lia).
  assert (Hov' : valid (plus_days (plus_days lmp_date avg)
                          (truncated_offset avg has_pcos)))
    by (rewrite plus_days_plus_days; exact Hov).
  unfold respond.
  rewrite (mean_rounded_triple c1 c2 c3) by assumption.
  rewrite (mean_rounded_triple_exact p1 p2 p3) by assumption.
  fold avg avgp. cbn [bind Ok].
  rewrite timedelta_days_ok by (unfold MAX_DELTA_DAYS; lia). cbn [bind Ok].
  rewrite add_in_range by assumption. cbn [bind Ok].
  rewrite calculate_ovulation_day_truncated by assumption. cbn [bind Ok].
  rewrite plus_days_plus_days. fold ov.
  rewrite calculate_fertile_window_in_range by assumption. cbn [bind Ok].
  rewrite analyze_cycle_regularity_triple. cbn [bind Ok].
  rewrite calculate_conception_probability_in_range
    by (cbn [start];
        first [assumption | rewrite plus_days_plus_days; exact Hend]).
  cbn [bind Ok]. unfold response_around. cbn [start end_].
  rewrite !plus_days_plus_days.
  cbn [Z.add Z.opp Z.pos_sub Pos.pred_double]. rewrite !plus_days_0.
  reflexivity.
Qed.

Lemma get_equals_false (data : dict string) (key value : string) :
  dict_get data key <> Some value -> get_equals data key value = false.
Proof.
  unfold get_equals. destruct (dict_get data key) as [v|]; [|reflexivity].
  intros H. destruct (String.eqb_spec v value); [subst; congruence|reflexivity].
Qed.

Lemma form_int_same (d1 d2 : dict string) (key : string) :
  dict_get d1 key = dict_get d2 key -> form_int d1 key = form_int d2 key.
Proof. unfold form_int, dict_item. intros ->. reflexivity. Qed.


End Predict_forward.

(** X10. Every body [predict] returns is built around one ovulation
    day: the fertile window runs from 5 days before it to 1 day after
    it, the seven probability entries are dated those same seven days
    in order with the ["Peak (~33%)"] entry on the ovulation day, the
    regularity is one of the three texts of [analyze_cycle_regularity],
    and both ends of the window are dates of the calendar. *)
Theorem predict_body_shape
        (read_csv read_excel : FileStorage -> result DataFrame)
        (mean_2f : list cell -> result string)
        (req : request) (body : json) (out : list string) :
  predict read_csv read_excel mean_2f req = (Ok body, out) ->
  exists ovulation_day regularity avg_cycle_length avg_period_duration,
    body = response_around ovulation_day regularity
             avg_cycle_length avg_period_duration
    /\ In regularity regularity_texts
    /\ valid (plus_days ovulation_day (-5))
    /\ valid (plus_days ovulation_day 1).
Proof.
  rewrite predict_stages.
  destruct (read_form (form req)) as [e|[[cs ps] lmp]] eqn:Hread;
    [discriminate|].
  cbv zeta. intros [= Hbody _].
  destruct (read_form_inv _ _ Hread)
    as (c1 & c2 & c3 & p1 & p2 & p3 & text & lmp' & [= -> -> ->] & _).
  destruct (respond_inv _ _ _ _ _ _ _ _ _ Hbody)
    as (avg & avgp & ov & _ & _ & _ & _ & _ & _ & Hs & He & ->).
  exists ov. eexists. exists avg, avgp.
  split; [reflexivity|]. split; [|split; assumption].
  unfold regularity_texts.
  destruct (get_equals (form req) "pcos" "true"); [left; reflexivity|].
  destruct (_ >? 8); [right; left | right; right; left]; reflexivity.
Qed.

Lemma predict_body_shape_witness :
  exists ovulation_day regularity avg_cycle_length avg_period_duration,
    sample_body_pcos = response_around ovulation_day regularity
                         avg_cycle_length avg_period_duration
    /\ In regularity regularity_texts
    /\ valid (plus_days ovulation_day (-5))
    /\ valid (plus_days ovulation_day 1).
Proof.
  apply (predict_body_shape (sample_reader sample_table) failing_reader
           sample_mean sample_request_pcos sample_body_pcos
           ["Received file: history.CSV";
            "Average BBT for user 'alice': 36.75"]).
  vm_compute. reflexivity.
Defined.

(** X11. [predict] lets only three classes of exception escape:
    [KeyError], [ValueError] and [OverflowError].  A [KeyError] is
    werkzeug's [BadRequestKeyError] for a required form field that is
    missing, with that field as its [args[0]].  Nothing raised while
    the uploaded file is read or averaged escapes: the same exception
    escapes whatever the readers and the averaging return or raise and
    whatever is uploaded, nothing included. *)
Theorem predict_escaping_exceptions
        (read_csv read_excel : FileStorage -> result DataFrame)
        (mean_2f : list cell -> result string)
        (req : request) (e : exn) (out : list string) :
  predict read_csv read_excel mean_2f req = (inl e, out) ->
  ((exists key,
       e = BadRequestKeyError key /\ In key required_fields
       /\ dict_get (form req) key = None)
   \/ exn_class e = ValueError \/ exn_class e = OverflowError)
  /\ (forall (read_csv' read_excel' : FileStorage -> result DataFrame)
             (mean_2f' : list cell -> result string)
             (files' : dict FileStorage),
        fst (predict read_csv' read_excel' mean_2f'
               {| form := form req; files := files' |}) = inl e).
Proof.
  intros Hraise. split.
  - revert Hraise. rewrite predict_stages.
    destruct (read_form (form req)) as [e'|[[cs ps] lmp]] eqn:Hread.
    + intros [= <- _].
      destruct (read_form_raises _ _ Hread) as [Hv|(key & Hin & Hnone & ->)].
      * right; left; assumption.
      * left. exists key. repeat split; assumption.
    + cbv zeta. intros [= Hbody _].
      destruct (read_form_inv _ _ Hread)
        as (c1 & c2 & c3 & p1 & p2 & p3 & text & lmp' & [= -> -> ->] & _).
      destruct (respond_raises _ _ _ _ _ _ _ _ _ Hbody) as [H|H]; rewrite H.
      * right; right; reflexivity.
      * right; left; reflexivity.
  - intros read_csv' read_excel' mean_2f' files'.
    rewrite predict_body. cbn [form].
    rewrite <- (predict_body read_csv read_excel mean_2f req).
    rewrite Hraise. reflexivity.
Qed.

Lemma predict_escaping_exceptions_witness :
  ((exists key,
       BadRequestKeyError "lmpDate3" = BadRequestKeyError key
       /\ In key required_fields
       /\ dict_get (form {| form := sample_form_no_date;
                            files := [("bbtFile", sample_upload)] |}) key
          = None)
   \/ exn_class (BadRequestKeyError "lmpDate3") = ValueError
   \/ exn_class (BadRequestKeyError "lmpDate3") = OverflowError)
  /\ (forall (read_csv' read_excel' : FileStorage -> result DataFrame)
             (mean_2f' : list cell -> result string)
             (files' : dict FileStorage),
        fst (predict read_csv' read_excel' mean_2f'
               {| form := form {| form := sample_form_no_date;
                                  files := [("bbtFile", sample_upload)] |};
                  files := files' |})
        = inl (BadRequestKeyError "lmpDate3")).
Proof.
  apply (predict_escaping_exceptions (sample_reader sample_table)
           failing_reader sample_mean
           {| form := sample_form_no_date;
              files := [("bbtFile", sample_upload)] |}
           (BadRequestKeyError "lmpDate3") []).
  reflexivity.
Defined.



(** X13. [predict] prints nothing unless the form field [pcos] is
    exactly ["true"] and a file with a non-empty name is uploaded as
    [bbtFile]; when it prints, it prints exactly two lines, the first
    naming the file. *)
Theorem predict_prints
        (read_csv read_excel : FileStorage -> result DataFrame)
        (mean_2f : list cell -> result string) (req : request) :
  let out := snd (predict read_csv read_excel mean_2f req) in
  (dict_get (form req) "pcos" <> Some "true" -> out = [])
  /\ (uploaded (dict_get (files req) "bbtFile") = None -> out = [])
  /\ (out = []
      \/ exists f line,
          dict_get (form req) "pcos" = Some "true"
          /\ uploaded (dict_get (files req) "bbtFile") = Some f
          /\ out = ["Received file: " ++ filename f; line]).
Proof.
  cbv zeta. rewrite predict_stages.
  destruct (read_form (form req)) as [e|[[cs ps] lmp]];
    [cbn [snd]; repeat split; auto|].
  cbv zeta. cbn [snd]. split; [|split].
  - intros Hp. rewrite (get_equals_false _ _ _ Hp). reflexivity.
  - intros Hup. rewrite bbt_average_no_file by assumption.
    destruct (get_equals _ _ _); reflexivity.
  - unfold get_equals.
    destruct (dict_get (form req) "pcos") as [v|]; [|left; reflexivity].
    destruct (String.eqb_spec v "true") as [->|]; [|left; reflexivity].
    destruct (uploaded (dict_get (files req) "bbtFile")) as [f|] eqn:Hup.
    + destruct (bbt_average_two_lines read_csv read_excel mean_2f req
                  (dict_get (form req) "name") [] f Hup) as [line ->].
      right. exists f, line. repeat split; reflexivity.
    + rewrite bbt_average_no_file by assumption. left. reflexivity.
Qed.

(** X14. Among the rows of the user, the temperature block averages the
    first of the columns [bbt], [BBT], [temperature], [Temperature]
    that the table has, whatever other accepted columns it also has,
    and prints the average or, when averaging raises, the error; when
    the table has none of the four it prints that no BBT column was
    found. *)
Theorem bbt_average_column_preference
        (read_csv read_excel : FileStorage -> result DataFrame)
        (mean_2f : list cell -> result string)
        (req : request) (name : option string) (out : list string)
        (f : FileStorage) (df : DataFrame) :
  uploaded (dict_get (files req) "bbtFile") = Some f ->
  read_table read_csv read_excel f = Ok df ->
  contains (columns df) "user_id" = true ->
  empty (select_user df name) = false ->
  (forall before col after,
      bbt_columns = (before ++ col :: after)%list ->
      contains (columns df) col = true ->
      (forall c, In c before -> contains (columns df) c = false) ->
      bbt_average read_csv read_excel mean_2f req name out
      = (Ok tt,
         (out ++ [("Received file: " ++ filename f)%string;
                  match mean_2f (column (select_user df name) col) with
                  | inr avg_bbt =>
                      ("Average BBT for user '" ++ fmt_name name ++ "': "
                       ++ avg_bbt)%string
                  | inl e => ("Error reading file: " ++ exn_text e)%string
                  end])%list))
  /\ ((forall c, In c bbt_columns -> contains (columns df) c = false) ->
      bbt_average read_csv read_excel mean_2f req name out
      = (Ok tt,
         (out ++ [("Received file: " ++ filename f)%string;
                  "No BBT column found in the file."])%list)).
Proof.
  intros Hup Hread Hcol Hrows. split.
  - intros before col after Hsplit Hhas Hnone.
    unfold bbt_average. rewrite Hup.
    unfold hbind, try_except, lift, print. rewrite Hread.
    cbv beta iota delta [Ok]. rewrite Hcol, Hrows. cbn [negb].
    rewrite Hsplit. cbn [select_user columns].
    rewrite (find_first _ before col after Hhas Hnone).
    destruct (mean_2f _); rewrite <- app_assoc; reflexivity.
  - intros Hnone.
    unfold bbt_average. rewrite Hup.
    unfold hbind, try_except, lift, print. rewrite Hread.
    cbv beta iota delta [Ok]. rewrite Hcol, Hrows. cbn [negb].
    cbn [select_user columns].
    rewrite (find_none _ bbt_columns Hnone).
    rewrite <- app_assoc. reflexivity.
Qed.

Lemma bbt_average_column_preference_witness :
  bbt_average (sample_reader sample_table_two_columns) failing_reader
    sample_mean_of sample_request_pcos (Some "alice") []
  = (Ok tt,
     ["Received file: history.CSV"; "Average BBT for user 'alice': 36.8"]).
Proof.
  apply (proj1 (bbt_average_column_preference
                  (sample_reader sample_table_two_columns) failing_reader
                  sample_mean_of sample_request_pcos (Some "alice") []
                  sample_upload sample_table_two_columns
                  eq_refl eq_refl eq_refl eq_refl)
           ["bbt"] "BBT" ["temperature"; "Temperature"]).
  - reflexivity.
  - reflexivity.
  - intros c [<-|[]]. reflexivity.
Defined.

(** X15. When [predict] returns a body for positive cycle lengths, the
    ovulation day it reports is the date of [lmpDate3] plus the average
    cycle length plus the offset of the next cycle: without the
    condition flag [lmpDate3 + 2 * average - 14] days, with it
    [lmpDate3 + average + floor(0.6 * average)] days. *)
Theorem predict_projected_ovulation
        (read_csv read_excel : FileStorage -> result DataFrame)
        (mean_2f : list cell -> result string)
        (req : request) (c1 c2 c3 : Z) (lmp_text : string)
        (lmp_date : datetime) (body : json) (out : list string) :
  let data := form req in
  let has_pcos := get_equals data "pcos" "true" in
  let average := nearest_third (c1 + c2 + c3) in
  form_int data "cycleLength1" = Ok c1 ->
  form_int data "cycleLength2" = Ok c2 ->
  form_int data "cycleLength3" = Ok c3 ->
  dict_item data "lmpDate3" = Ok lmp_text ->
  strptime_Y_m_d lmp_text = Ok lmp_date ->
  0 < c1 -> 0 < c2 -> 0 < c3 ->
  predict read_csv read_excel mean_2f req = (Ok body, out) ->
  member body "ovulationDay"
  = Some (JStr (strftime_A_B_d_Y
                  (plus_days lmp_date
                     (if has_pcos then average + average * 6 / 10
                      else 2 * average - 14)))).
Proof.
  intros data has_pcos average Hc1 Hc2 Hc3 Htext Hlmp Hp1 Hp2 Hp3.
  rewrite predict_stages. fold data.
  destruct (read_form data) as [e|[[cs ps] lmp]] eqn:Hread; [discriminate|].
  cbv zeta. intros [= Hbody _].
  destruct (read_form_inv _ _ Hread)
    as (d1 & d2 & d3 & p1 & p2 & p3 & text & lmp' & [= -> -> ->]
        & H1 & H2 & H3 & _ & _ & _ & H7 & H8).
  unfold Ok in *.
  assert (d1 = c1) by congruence. assert (d2 = c2) by congruence.
  assert (d3 = c3) by congruence. assert (text = lmp_text) by congruence.
  subst. assert (lmp' = lmp_date) by congruence. subst.
  destruct (respond_inv _ _ _ _ _ _ _ _ _ Hbody)
    as (avg & avgp & ov & _ & -> & Hcs & _ & Hnext & Hov & _ & _ & ->).
  fold average in Hov, Hnext |- *. fold has_pcos in Hov |- *.
  pose proof (nearest_third_near (c1 + c2 + c3)) as Hnear.
  fold average in Hnear.
  assert (Havg : 0 < average < 2 ^ 50).
  { change (2 ^ 50) with 1125899906842624 in *. lia. }
  unfold response_around. cbn [member dict_get String.eqb Ascii.eqb Bool.eqb].
  do 3 f_equal.
  destruct has_pcos.
  - destruct (calculate_ovulation_day_pcos_inv _ _ _ Havg Hov) as [-> _].
    apply plus_days_plus_days.
  - destruct (calculate_ovulation_day_plain_inv _ _ _ Hov) as (-> & _ & _).
    rewrite plus_days_plus_days. f_equal. ring.
Qed.

Lemma predict_projected_ovulation_witness :
  member sample_body_pcos "ovulationDay"
  = Some (JStr (strftime_A_B_d_Y
                  (plus_days (Datetime 738886)
                     (if get_equals (form sample_request_pcos) "pcos" "true"
                      then nearest_third (35 + 40 + 33)
                           + nearest_third (35 + 40 + 33) * 6 / 10
                      else 2 * nearest_third (35 + 40 + 33) - 14)))).
Proof.
  apply (predict_projected_ovulation (sample_reader sample_table)
           failing_reader sample_mean sample_request_pcos 35 40 33
           "2024-01-01" (Datetime 738886) sample_body_pcos
           ["Received file: history.CSV";
            "Average BBT for user 'alice': 36.75"]);
    reflexivity.
Defined.

(** X16. [predict] returns a body for every request whose six numeric
    fields [int()] accepts and whose [lmpDate3] [strptime] accepts,
    whatever the sign of the numbers, when the period durations sum to
    at most [3 * 2^51 + 1] in magnitude and the projected dates (the
    next cycle, the start and the end of the fertile window) are dates
    of the calendar, whatever is uploaded and whatever the readers of
    the upload do.  The body is built around the date of [lmpDate3]
    plus the average cycle length plus the offset of ovulation, which
    with the condition flag is [0.6 * average] truncated toward zero. *)
Theorem predict_succeeds
        (read_csv read_excel : FileStorage -> result DataFrame)
        (mean_2f : list cell -> result string)
        (req : request) (c1 c2 c3 p1 p2 p3 : Z)
        (lmp_text : string) (lmp_date : datetime) :
  let data := form req in
  let has_pcos := get_equals data "pcos" "true" in
  let avg_cycle_length := nearest_third (c1 + c2 + c3) in
  let avg_period_duration := nearest_third (p1 + p2 + p3) in
  let ovulation_day :=
    plus_days lmp_date
      (avg_cycle_length + truncated_offset avg_cycle_length has_pcos) in
  form_int data "cycleLength1" = Ok c1 ->
  form_int data "cycleLength2" = Ok c2 ->
  form_int data "cycleLength3" = Ok c3 ->
  form_int data "periodDuration1" = Ok p1 ->
  form_int data "periodDuration2" = Ok p2 ->
  form_int data "periodDuration3" = Ok p3 ->
  dict_item data "lmpDate3" = Ok lmp_text ->
  strptime_Y_m_d lmp_text = Ok lmp_date ->
  Z.abs (p1 + p2 + p3) <= 3 * 2 ^ 51 + 1 ->
  valid (plus_days lmp_date avg_cycle_length) ->
  valid (plus_days ovulation_day (-5)) ->
  valid (plus_days ovulation_day 1) ->
  fst (predict read_csv read_excel mean_2f req)
  = Ok (response_around ovulation_day
          (if has_pcos then "Irregular - PCOS may cause irregular cycles"
           else if Z.max (Z.max c1 c2) c3 - Z.min (Z.min c1 c2) c3 >? 8
                then "Irregular" else "Regular")
          avg_cycle_length avg_period_duration).
Proof.
  intros data has_pcos avg avgp ov Hc1 Hc2 Hc3 Hp1 Hp2 Hp3 Htext Hlmp
         Hps Hnext Hstart Hend.
  rewrite predict_body. unfold predict_staged. fold data.
  rewrite (read_form_ok data c1 c2 c3 p1 p2 p3 lmp_text lmp_date)
    by assumption.
  cbn [bind Ok]. fold has_pcos.
  apply respond_in_range; try assumption.
  apply (strptime_valid _ _ Hlmp).
Qed.

Lemma predict_succeeds_witness :
  fst (predict failing_reader failing_reader sample_mean
         {| form := sample_form_negative; files := [] |})
  = Ok (response_around (Datetime 738875)
          "Irregular - PCOS may cause irregular cycles" (-7) 5).
Proof.
  apply (predict_succeeds failing_reader failing_reader sample_mean
           {| form := sample_form_negative; files := [] |}
           (-7) (-7) (-7) 5 6 5 "2024-01-01" (Datetime 738886));
    first [reflexivity
          | unfold valid, plus_days, MAXORDINAL; simpl; lia].
Defined.

(** X17. The average cycle length [predict] reports lies between the
    shortest and the longest of the three cycle lengths of the form;
    so does the average period duration among the three durations when
    their sum is at most [2^50] in magnitude.  Three equal lengths are
    reported unchanged. *)
Theorem predict_average_between
        (read_csv read_excel : FileStorage -> result DataFrame)
        (mean_2f : list cell -> result string)
        (req : request) (body : json) (out : list string) :
  predict read_csv read_excel mean_2f req = (Ok body, out) ->
  exists c1 c2 c3 p1 p2 p3 insights average average_period,
    form_int (form req) "cycleLength1" = Ok c1
    /\ form_int (form req) "cycleLength2" = Ok c2
    /\ form_int (form req) "cycleLength3" = Ok c3
    /\ form_int (form req) "periodDuration1" = Ok p1
    /\ form_int (form req) "periodDuration2" = Ok p2
    /\ form_int (form req) "periodDuration3" = Ok p3
    /\ member body "insights" = Some insights
    /\ member insights "averageCycleLength" = Some (JInt average)
    /\ member insights "averagePeriodDuration" = Some (JInt average_period)
    /\ Z.min (Z.min c1 c2) c3 <= average <= Z.max (Z.max c1 c2) c3
    /\ (c1 = c2 -> c2 = c3 -> average = c1)
    /\ (Z.abs (p1 + p2 + p3) <= 2 ^ 50 ->
        Z.min (Z.min p1 p2) p3 <= average_period <= Z.max (Z.max p1 p2) p3).
Proof.
  rewrite predict_stages.
  destruct (read_form (form req)) as [e|[[cs ps] lmp]] eqn:Hread;
    [discriminate|].
  cbv zeta. intros [= Hbody _].
  destruct (read_form_inv _ _ Hread)
    as (c1 & c2 & c3 & p1 & p2 & p3 & text & lmp' & [= -> -> ->]
        & H1 & H2 & H3 & H4 & H5 & H6 & _).
  destruct (respond_inv _ _ _ _ _ _ _ _ _ Hbody)
    as (avg & avgp & ov & _ & -> & _ & Hmp & _ & _ & _ & _ & ->).
  exists c1, c2, c3, p1, p2, p3. eexists.
  exists (nearest_third (c1 + c2 + c3)), avgp.
  repeat (split; [first [assumption | reflexivity]|]).
  pose proof (nearest_third_between c1 c2 c3) as Hb.
  split; [exact Hb|]. split; [intros -> ->; lia|].
  intros Hps. rewrite mean_rounded_triple in Hmp by assumption.
  unfold Ok in Hmp. injection Hmp as <-. apply nearest_third_between.
Qed.

Lemma predict_average_between_witness :
  exists c1 c2 c3 p1 p2 p3 insights average average_period,
    form_int (form sample_request_pcos) "cycleLength1" = Ok c1
    /\ form_int (form sample_request_pcos) "cycleLength2" = Ok c2
    /\ form_int (form sample_request_pcos) "cycleLength3" = Ok c3
    /\ form_int (form sample_request_pcos) "periodDuration1" = Ok p1
    /\ form_int (form sample_request_pcos) "periodDuration2" = Ok p2
    /\ form_int (form sample_request_pcos) "periodDuration3" = Ok p3
    /\ member sample_body_pcos "insights" = Some insights
    /\ member insights "averageCycleLength" = Some (JInt average)
    /\ member insights "averagePeriodDuration" = Some (JInt average_period)
    /\ Z.min (Z.min c1 c2) c3 <= average <= Z.max (Z.max c1 c2) c3
    /\ (c1 = c2 -> c2 = c3 -> average = c1)
    /\ (Z.abs (p1 + p2 + p3) <= 2 ^ 50 ->
        Z.min (Z.min p1 p2) p3 <= average_period <= Z.max (Z.max p1 p2) p3).
Proof.
  apply (predict_average_between (sample_reader sample_table) failing_reader
           sample_mean sample_request_pcos sample_body_pcos
           ["Received file: history.CSV";
            "Average BBT for user 'alice': 36.75"]).
  vm_compute. reflexivity.
Defined.

(** X18. The body [predict] returns, or the exception it raises, is
    determined by the first values of eight form fields: the three
    cycle lengths, the three period durations, [lmpDate3] and [pcos].
    Two requests that agree on them get the same answer, whatever their
    [name], their other fields, the order of the fields, the files
    they upload and the way those files read. *)
Theorem predict_depends_on_eight_fields
        (read_csv read_excel read_csv' read_excel'
           : FileStorage -> result DataFrame)
        (mean_2f mean_2f' : list cell -> result string)
        (req req' : request) :
  (forall key, In key body_fields ->
               dict_get (form req) key = dict_get (form req') key) ->
  fst (predict read_csv read_excel mean_2f req)
  = fst (predict read_csv' read_excel' mean_2f' req').
Proof.
  intros Hsame. rewrite !predict_body.
  unfold predict_staged, read_form, get_equals, dict_item.
  assert (Hin : forall key, In key body_fields ->
                            form_int (form req) key = form_int (form req') key)
    by (intros key Hk; apply form_int_same, Hsame, Hk).
  rewrite (Hin "cycleLength1"), (Hin "cycleLength2"), (Hin "cycleLength3"),
    (Hin "periodDuration1"), (Hin "periodDuration2"), (Hin "periodDuration3"),
    (Hsame "lmpDate3"), (Hsame "pcos")
    by (unfold body_fields, required_fields; cbn [In app]; tauto).
  reflexivity.
Qed.

Lemma predict_depends_on_eight_fields_witness :
  fst (predict (sample_reader sample_table) failing_reader sample_mean
         {| form := sample_form; files := [] |})
  = fst (predict failing_reader (sample_reader sample_table_two_columns)
           sample_mean_of
           {| form := sample_form_reordered;
              files := [("bbtFile", sample_upload)] |}).
Proof.
  apply (predict_depends_on_eight_fields
           (sample_reader sample_table) failing_reader
           failing_reader (sample_reader sample_table_two_columns)
           sample_mean sample_mean_of
           {| form := sample_form; files := [] |}
           {| form := sample_form_reordered;
              files := [("bbtFile", sample_upload)] |}).
  intros key Hkey. unfold body_fields, required_fields in Hkey.
  cbn [In app] in Hkey.
  repeat (destruct Hkey as [<-|Hkey]; [reflexivity|]).
  contradiction.
Defined.

(** X19. The period durations reach nothing but the insight
    [averagePeriodDuration]: two requests that agree on the cycle
    lengths, on [lmpDate3] and on [pcos] and both get a body get the
    same fertile window, ovulation day, regularity, probability list
    and average cycle length. *)
Theorem predict_ignores_period_durations
        (read_csv read_excel read_csv' read_excel'
           : FileStorage -> result DataFrame)
        (mean_2f mean_2f' : list cell -> result string)
        (req req' : request) (body body' : json) (out out' : list string) :
  (forall key,
      In key ["cycleLength1"; "cycleLength2"; "cycleLength3"; "lmpDate3";
              "pcos"] ->
      dict_get (form req) key = dict_get (form req') key) ->
  predict read_csv read_excel mean_2f req = (Ok body, out) ->
  predict read_csv' read_excel' mean_2f' req' = (Ok body', out') ->
  (forall key,
      In key ["fertileWindow"; "ovulationDay"; "cycleRegularity";
              "conceptionProbability"] ->
      member body key = member body' key)
  /\ exists insights insights',
      member body "insights" = Some insights
      /\ member body' "insights" = Some insights'
      /\ member insights "averageCycleLength"
         = member insights' "averageCycleLength".
Proof.
  intros Hsame. rewrite !predict_stages.
  destruct (read_form (form req)) as [e|[[cs ps] lmp]] eqn:Hread;
    [discriminate|].
  destruct (read_form (form req')) as [e|[[cs' ps'] lmp']] eqn:Hread';
    [discriminate|].
  cbv zeta. intros [= Hbody _] [= Hbody' _].
  destruct (read_form_inv _ _ Hread)
    as (c1 & c2 & c3 & p1 & p2 & p3 & text & l & [= -> -> ->]
        & H1 & H2 & H3 & _ & _ & _ & H7 & H8).
  destruct (read_form_inv _ _ Hread')
    as (c1' & c2' & c3' & p1' & p2' & p3' & text' & l' & [= -> -> ->]
        & H1' & H2' & H3' & _ & _ & _ & H7' & H8').
  assert (Hkeys : forall key,
             In key ["cycleLength1"; "cycleLength2"; "cycleLength3"] ->
             form_int (form req) key = form_int (form req') key)
    by (intros key Hk; apply form_int_same, Hsame; cbn [In] in *; tauto).
  rewrite (Hkeys "cycleLength1") in H1 by (cbn [In]; tauto).
  rewrite (Hkeys "cycleLength2") in H2 by (cbn [In]; tauto).
  rewrite (Hkeys "cycleLength3") in H3 by (cbn [In]; tauto).
  unfold dict_item in H7, H7'.
  rewrite (Hsame "lmpDate3") in H7 by (cbn [In]; tauto).
  unfold get_equals in Hbody.
  rewrite (Hsame "pcos") in Hbody by (cbn [In]; tauto).
  fold (get_equals (form req') "pcos" "true") in Hbody.
  unfold Ok in *.
  assert (c1 = c1') by congruence. assert (c2 = c2') by congruence.
  assert (c3 = c3') by congruence. assert (text = text') by congruence.
  subst. assert (l = l') by congruence. subst.
  destruct (respond_inv _ _ _ _ _ _ _ _ _ Hbody)
    as (avg & avgp & ov & _ & -> & _ & _ & _ & Hov & _ & _ & ->).
  destruct (respond_inv _ _ _ _ _ _ _ _ _ Hbody')
    as (avg' & avgp' & ov' & _ & -> & _ & _ & _ & Hov' & _ & _ & ->).
  unfold Ok in Hov, Hov'. assert (ov = ov') by congruence. subst. split.
  - intros key Hkey. cbn [In] in Hkey.
    repeat (destruct Hkey as [<-|Hkey]; [reflexivity|]). contradiction.
  - do 2 eexists. repeat split; reflexivity.
Qed.

Lemma predict_ignores_period_durations_witness :
  (forall key,
      In key ["fertileWindow"; "ovulationDay"; "cycleRegularity";
              "conceptionProbability"] ->
      member (response_around (Datetime 738928) "Regular" 28 5) key
      = member (response_around (Datetime 738928) "Regular" 28
                  3002399751580332) key)
  /\ exists insights insights',
      member (response_around (Datetime 738928) "Regular" 28 5) "insights"
      = Some insights
      /\ member (response_around (Datetime 738928) "Regular" 28
                   3002399751580332) "insights" = Some insights'
      /\ member insights "averageCycleLength"
         = member insights' "averageCycleLength".
Proof.
  apply (predict_ignores_period_durations
           failing_reader failing_reader failing_reader failing_reader
           sample_mean sample_mean
           {| form := sample_form; files := [] |}
           {| form := sample_form_long_period; files := [] |}
           (response_around (Datetime 738928) "Regular" 28 5)
           (response_around (Datetime 738928) "Regular" 28 3002399751580332)
           [] []).
  - intros key Hkey. cbn [In] in Hkey.
    repeat (destruct Hkey as [<-|Hkey]; [reflexivity|]). contradiction.
  - vm_compute. reflexivity.
  - vm_compute. reflexivity.
Defined.
(** ** Numbers as text *)

Section Decimal_text.

Lemma of_uint_acc_value (d : Decimal.uint) (acc : positive) :
  Zpos (Pos.of_uint_acc d acc) = uint_value d (Zpos acc).
Proof.
  revert acc. induction d; intros acc; cbn [Pos.of_uint_acc uint_value];
    [reflexivity|..]; rewrite IHd; f_equal; lia.
Qed.

Lemma of_uint_value (d : Decimal.uint) :
  Z.of_N (Pos.of_uint d) = uint_value d 0.
Proof.
  induction d; cbn [Pos.of_uint uint_value Z.of_N];
    [reflexivity | exact IHd | ..]; apply of_uint_acc_value.
Qed.

Lemma uint_value_to_uint (p : positive) :
  uint_value (Pos.to_uint p) 0 = Zpos p.
Proof.
  rewrite <- of_uint_value, DecimalPos.Unsigned.of_to. reflexivity.
Qed.

(** A numeral of [k] digits after an accumulator is worth at least the
    accumulator shifted by [k] places. *)
Lemma uint_value_lower (d : Decimal.uint) (acc : Z) :
  0 <= acc -> acc * 10 ^ Z.of_nat (Decimal.nb_digits d) <= uint_value d acc.
Proof.
  revert acc.
  induction d; intros acc Hacc; cbn [Decimal.nb_digits uint_value];
    [change (Z.of_nat 0) with 0; lia|..];
    rewrite Nat2Z.inj_succ, Z.pow_succ_r by lia;
    match goal with
    | |- _ <= uint_value _ ?a =>
        specialize (IHd a ltac:(lia));
        pose proof (Z.pow_pos_nonneg 10 (Z.of_nat (Decimal.nb_digits d))
                      ltac:(lia) ltac:(lia));
        nia
    end.
Qed.

(** The decimal numeral of a positive number starts with a digit other
    than zero. *)
Lemma to_uint_head (p : positive) :
  match Pos.to_uint p with
  | Decimal.Nil | Decimal.D0 _ => False
  | _ => True
  end.
Proof.
  pose proof (DecimalPos.Unsigned.to_uint_nonnil p) as Hnil.
  pose proof (DecimalPos.Unsigned.to_uint_nonzero p) as Hzero.
  assert (Hnorm : Decimal.unorm (Pos.to_uint p) = Pos.to_uint p).
  { rewrite <- DecimalPos.Unsigned.to_of, DecimalPos.Unsigned.of_to.
    reflexivity. }
  destruct (Pos.to_uint p) as [|d| | | | | | | | |]; try exact I;
    [congruence|].
  unfold Decimal.unorm in Hnorm. cbn [Decimal.nzhead] in Hnorm.
  pose proof (DecimalFacts.nb_digits_nzhead d) as Hlen.
  destruct (Decimal.nzhead d) eqn:Hd;
    first [ injection Hnorm as <-; congruence
          | rewrite Hnorm in Hlen; cbn [Decimal.nb_digits] in Hlen; lia ].
Qed.

(** A positive number below [10^b] is written with at most [b]
    digits. *)
Lemma to_uint_digits (p : positive) (b : Z) :
  Zpos p < 10 ^ b ->
  Z.of_nat (Decimal.nb_digits (Pos.to_uint p)) <= b.
Proof.
  intros Hp.
  pose proof (uint_value_to_uint p) as Hv.
  pose proof (to_uint_head p) as Hhead.
  assert (Hb : 0 <= b).
  { destruct (Z.le_gt_cases 0 b) as [|Hneg]; [assumption|].
    rewrite Z.pow_neg_r in Hp by assumption. lia. }
  destruct (Pos.to_uint p) as [|d|d|d|d|d|d|d|d|d|d]; try contradiction;
    cbn [uint_value Decimal.nb_digits] in Hv |- *;
    rewrite Nat2Z.inj_succ;
    match type of Hv with
    | uint_value _ ?a = _ => pose proof (uint_value_lower d a ltac:(lia)) as Hl
    end;
    pose proof (Z.pow_pos_nonneg 10 (Z.of_nat (Decimal.nb_digits d))
                  ltac:(lia) ltac:(lia)) as Hpos;
    assert (Hlt : 10 ^ Z.of_nat (Decimal.nb_digits d) < 10 ^ b) by nia;
    apply Z.pow_lt_mono_r_iff in Hlt; lia.
Qed.

Lemma drop_spaces_none (cs : list ascii) :
  Forall (fun c => is_space c = false) cs -> drop_spaces cs = cs.
Proof.
  intros H. destruct H as [|c cs Hc _]; [reflexivity|].
  cbn [drop_spaces]. rewrite Hc. reflexivity.
Qed.

Lemma uint_text_no_space (d : Decimal.uint) :
  Forall (fun c => is_space c = false) (chars (NilEmpty.string_of_uint d)).
Proof.
  induction d; cbn [NilEmpty.string_of_uint chars list_ascii_of_string];
    [constructor|..]; (constructor; [reflexivity | exact IHd]).
Qed.

Lemma uint_text_ascii (d : Decimal.uint) :
  Forall (fun c => (code c <? 128) = true)
    (chars (NilEmpty.string_of_uint d)).
Proof.
  induction d; cbn [NilEmpty.string_of_uint chars list_ascii_of_string];
    [constructor|..]; (constructor; [reflexivity | exact IHd]).
Qed.

(** The scan of a numeral reads all of it. *)
Lemma scan_digits_uint (d : Decimal.uint) (count acc : Z) :
  scan_digits (chars (NilEmpty.string_of_uint d)) false count acc
  = Some (count + Z.of_nat (Decimal.nb_digits d), uint_value d acc, []).
Proof.
  revert count acc.
  induction d; intros count acc;
    cbn [NilEmpty.string_of_uint chars list_ascii_of_string uint_value
         Decimal.nb_digits];
    [cbn [scan_digits]; rewrite Z.add_0_r; reflexivity|..];
    (etransitivity; [|etransitivity; [apply (IHd (count + 1))|]];
     [unfold chars; reflexivity | rewrite Nat2Z.inj_succ; do 3 f_equal; lia]).
Qed.

(** [int()] on a run of decimal digits within the digit limit, with or
    without a minus sign. *)
Lemma int_of_str_uint (d : Decimal.uint) :
  d <> Decimal.Nil ->
  Z.of_nat (Decimal.nb_digits d) <= MAX_STR_DIGITS ->
  int_of_str (NilEmpty.string_of_uint d) = Ok (uint_value d 0)
  /\ int_of_str (String "-" (NilEmpty.string_of_uint d))
     = Ok (- uint_value d 0).
Proof.
  intros Hd Hlen.
  pose proof (scan_digits_uint d 0 0) as Hscan.
  pose proof (uint_text_no_space d) as Hsp.
  assert (Hall : forallb (fun c => code c <? 128)
                   (chars (NilEmpty.string_of_uint d)) = true)
    by (apply forallb_forall;
        exact (proj1 (Forall_forall _ _) (uint_text_ascii d))).
  assert (Hcount : 0 < 0 + Z.of_nat (Decimal.nb_digits d))
    by (destruct d; [congruence|..]; cbn [Decimal.nb_digits]; lia).
  assert (Hhead : exists c rest,
             chars (NilEmpty.string_of_uint d) = c :: rest
             /\ Ascii.eqb c "-" = false /\ Ascii.eqb c "+" = false
             /\ Ascii.eqb c "_" = false)
    by (destruct d; [congruence|..]; do 2 eexists;
        (split; [unfold chars; reflexivity|]); repeat split; reflexivity).
  destruct Hhead as (c & rest & Hchars & Hminus & Hplus & Hunder).
  set (count := 0 + Z.of_nat (Decimal.nb_digits d)) in *.
  assert (Hlimit : (MAX_STR_DIGITS <? count) = false)
    by (apply Z.ltb_ge; unfold count; lia).
  assert (Hsome : (count =? 0) = false) by (apply Z.eqb_neq; lia).
  split.
  - unfold int_of_str, to_ascii_text. rewrite Hall.
    rewrite (drop_spaces_none _ Hsp). rewrite Hchars in *.
    rewrite Hminus, Hplus. cbv beta iota zeta.
    rewrite Hunder, Hscan, Hlimit, Hsome. reflexivity.
  - unfold int_of_str, to_ascii_text.
    change (chars (String "-" (NilEmpty.string_of_uint d)))
      with ("-"%char :: chars (NilEmpty.string_of_uint d)).
    cbn [forallb]. rewrite Hall.
    change (code "-" <? 128) with true. cbn [andb]. cbv iota.
    cbn [drop_spaces]. change (is_space "-") with false. cbv iota.
    change (Ascii.eqb "-" "-") with true. cbv iota.
    rewrite Hchars in *. cbv beta iota zeta.
    rewrite Hunder, Hscan, Hlimit, Hsome. reflexivity.
Qed.

(** [int(str(n))] is [n] for every [n] of at most 4300 digits. *)
Lemma int_of_str_of_int (n : Z) :
  Z.abs n < 10 ^ MAX_STR_DIGITS -> int_of_str (str_of_int n) = Ok n.
Proof.
  intros Hn.
  destruct n as [|p|p]; [reflexivity|..];
    unfold str_of_int, Z.to_int, NilZero.string_of_int, NilZero.string_of_uint;
    pose proof (uint_value_to_uint p) as Hv;
    pose proof (DecimalPos.Unsigned.to_uint_nonnil p) as Hd;
    pose proof (to_uint_digits p MAX_STR_DIGITS Hn) as Hlen;
    destruct (int_of_str_uint _ Hd Hlen) as [Hpos Hneg];
    destruct (Pos.to_uint p) eqn:Hp; try congruence;
    rewrite <- Hp in *.
  all: first [rewrite Hpos, Hv; reflexivity | rewrite Hneg, Hv; reflexivity].
Qed.

(** Every 64-bit integer is within the digit limit. *)
Lemma int64_within_limit (n : Z) :
  - 2 ^ 63 <= n < 2 ^ 63 -> Z.abs n < 10 ^ MAX_STR_DIGITS.
Proof.
  intros Hn.
  assert (H19 : 10 ^ 19 <= 10 ^ MAX_STR_DIGITS)
    by (apply Z.pow_le_mono_r; unfold MAX_STR_DIGITS; lia).
  change (2 ^ 63) with 9223372036854775808 in Hn.
  change (10 ^ 19) with 10000000000000000000 in H19.
  set (limit := 10 ^ MAX_STR_DIGITS) in *. clearbody limit. lia.
Qed.

End Decimal_text.

(** ** File names *)

Section Text_facts.

Lemma length_append (a b : string) :
  String.length (a ++ b) = (String.length a + String.length b)%nat.
Proof. induction a as [|c a IH]; cbn; [reflexivity | rewrite IH; reflexivity]. Qed.

Lemma chars_append (a b : string) :
  chars (a ++ b) = (chars a ++ chars b)%list.
Proof.
  unfold chars. induction a as [|c a IH]; cbn; [reflexivity|].
  rewrite IH. reflexivity.
Qed.

Lemma string_of_list_ascii_append (xs ys : list ascii) :
  string_of_list_ascii (xs ++ ys)
  = string_of_list_ascii xs ++ string_of_list_ascii ys.
Proof. induction xs as [|c xs IH]; cbn; [reflexivity | rewrite IH; reflexivity]. Qed.

Lemma lower_append (a b : string) : lower (a ++ b) = lower a ++ lower b.
Proof.
  unfold lower. rewrite chars_append, map_app.
  apply string_of_list_ascii_append.
Qed.

Lemma length_lower (s : string) : String.length (lower s) = String.length s.
Proof.
  unfold lower, chars. induction s as [|c s IH]; cbn; [reflexivity|].
  rewrite IH. reflexivity.
Qed.

Lemma substring_all (s : string) : substring 0 (String.length s) s = s.
Proof. induction s as [|c s IH]; cbn; [reflexivity | rewrite IH; reflexivity]. Qed.

Lemma substring_suffix (a b : string) :
  substring (String.length a) (String.length b) (a ++ b) = b.
Proof. induction a as [|c a IH]; cbn; [apply substring_all | exact IH]. Qed.

(** A text ends with a suffix when its last characters, as many as the
    suffix has, are the suffix. *)
Lemma endswith_append (a b suffix : string) :
  String.length b = String.length suffix ->
  endswith (a ++ b) suffix = String.eqb b suffix.
Proof.
  intros Hlen. unfold endswith. cbv zeta. rewrite length_append, <- Hlen.
  replace (String.length b <=? String.length a + String.length b)%nat
    with true by (symmetry; apply Nat.leb_le; lia).
  replace (String.length a + String.length b - String.length b)%nat
    with (String.length a) by lia.
  rewrite substring_suffix. reflexivity.
Qed.

Lemma endswith_short (s suffix : string) :
  (String.length s < String.length suffix)%nat -> endswith s suffix = false.
Proof.
  intros Hlen. unfold endswith. cbv zeta.
  replace (String.length suffix <=? String.length s)%nat
    with false by (symmetry; apply Nat.leb_gt; exact Hlen).
  reflexivity.
Qed.

Lemma filter_none {A} (p : A -> bool) (xs : list A) :
  (forall x, p x = false) -> filter p xs = [].
Proof.
  intros H. induction xs as [|x xs IH]; cbn; [reflexivity|].
  rewrite H. exact IH.
Qed.

End Text_facts.

(** X20. Both handlers choose the reader of an upload by the last four
    characters of its file name, compared without regard to letter
    case: [.csv], [.CSV], [.Csv] and the like go to [read_csv], every
    other name to [read_excel], a name shorter than four characters
    included. *)
Theorem read_table_by_suffix
        (read_csv read_excel : FileStorage -> result DataFrame)
        (base ext content : string) :
  let upload := {| filename := base ++ ext; stream := content |} in
  (String.length ext = 4%nat ->
   read_table read_csv read_excel upload
   = if String.eqb (lower ext) ".csv" then read_csv upload
     else read_excel upload)
  /\ ((String.length (base ++ ext) < 4)%nat ->
      read_table read_csv read_excel upload = read_excel upload).
Proof.
  cbv zeta. unfold read_table. cbn [filename]. split.
  - intros Hlen. rewrite lower_append, endswith_append; [reflexivity|].
    rewrite length_lower. exact Hlen.
  - intros Hlen. rewrite endswith_short; [reflexivity|].
    rewrite length_lower. exact Hlen.
Qed.

(** X21. A request without the form field [name] matches no row: when
    the uploaded table has a [user_id] column, [receive_data] answers
    that no rows were found for the user ['None'], whatever the table
    holds. *)
Theorem receive_data_without_name
        (read_csv read_excel : FileStorage -> result DataFrame)
        (req : request) (f : FileStorage) (df : DataFrame) :
  dict_get (form req) "name" = None ->
  uploaded (dict_get (files req) "bbtFile_data") = Some f ->
  read_table read_csv read_excel f = Ok df ->
  contains (columns df) "user_id" = true ->
  receive_data read_csv read_excel req
  = Ok (failure "No rows found for user_id 'None'.").
Proof.
  intros Hname Hup Hread Hcol.
  rewrite (receive_data_no_rows read_csv read_excel req f df Hup Hread Hcol).
  - rewrite Hname. reflexivity.
  - rewrite Hname. unfold empty, select_user. cbn [rows columns].
    rewrite filter_none; [destruct (columns df); reflexivity|].
    intros row. destruct (cell_at (columns df) row "user_id") as [[]|];
      reflexivity.
Qed.

Lemma receive_data_without_name_witness :
  receive_data (sample_reader sample_table) failing_reader
    sample_request_no_name
  = Ok (failure "No rows found for user_id 'None'.").
Proof.
  apply (receive_data_without_name (sample_reader sample_table)
           failing_reader sample_request_no_name sample_upload sample_table);
    reflexivity.
Defined.

(** X22. What [receive_data] returns for a cell holding an integer
    reads back in [predict]: the text [str] gives for a 64-bit integer
    [n], the integers a table column holds, is a form value that
    [int()] turns into [n] again. *)
Theorem retrieved_integer_reads_back
        (data : dict string) (key : string) (n : Z) :
  - 2 ^ 63 <= n < 2 ^ 63 ->
  dict_get data key = Some (str_of_cell (CInt n)) ->
  form_int data key = Ok n.
Proof.
  intros Hn Hget. unfold form_int, dict_item. rewrite Hget. cbn [bind Ok].
  apply int_of_str_of_int, int64_within_limit, Hn.
Qed.

Lemma retrieved_integer_reads_back_witness :
  form_int [("cycleLength1", "-2048")] "cycleLength1" = Ok (-2048).
Proof.
  apply (retrieved_integer_reads_back [("cycleLength1", "-2048")]
           "cycleLength1" (-2048)); [lia | reflexivity].
Defined.

(** ** Dates and their ordinals *)

Section Ordinal_facts.

Lemma in_from_1 (n : nat) (x : Z) : 1 <= x <= Z.of_nat n -> In x (from_1 n).
Proof.
  intros Hx. unfold from_1. apply in_map_iff. exists (Z.to_nat x).
  split; [lia|]. apply in_seq. lia.
Qed.

(** Month and day are found again from the day of the year, in common
    and in leap years. *)
Lemma month_day_of_offset (leap : bool) (month day : Z) :
  1 <= month <= 12 -> 1 <= day <= month_length leap month ->
  month_day (month_offset leap month + day - 1) leap = (month, day).
Proof.
  intros Hm Hd.
  assert (Hall :
    forallb (fun leap =>
      forallb (fun month =>
        forallb (fun day =>
          let '(m, d) :=
            month_day (month_offset leap month + day - 1) leap in
          (m =? month) && (d =? day))
          (from_1 (Z.to_nat (month_length leap month))))
        (from_1 12))
      [true; false] = true) by (vm_compute; reflexivity).
  rewrite forallb_forall in Hall.
  specialize (Hall leap ltac:(destruct leap; cbn; tauto)).
  rewrite forallb_forall in Hall.
  specialize (Hall month (in_from_1 12 month Hm)).
  rewrite forallb_forall in Hall.
  specialize (Hall day (in_from_1 (Z.to_nat (month_length leap month)) day
                          ltac:(lia))).
  destruct (month_day (month_offset leap month + day - 1) leap) as [m d].
  apply andb_prop in Hall as [Hm' Hd'].
  apply Z.eqb_eq in Hm', Hd'. congruence.
Qed.

Lemma is_leap_spec (year : Z) :
  is_leap year = true
  <-> year mod 4 = 0 /\ (year mod 100 <> 0 \/ year mod 400 = 0).
Proof.
  unfold is_leap.
  rewrite andb_true_iff, orb_true_iff, negb_true_iff, !Z.eqb_eq, Z.eqb_neq.
  reflexivity.
Qed.

(** The years of a 400-year cycle are found again from the days
    elapsed, as [ord2ymd] divides them. *)
Lemma year_of_days (Y doy : Z) (leap : bool) :
  0 <= Y < 400 ->
  (leap = true
   <-> (Y + 1) mod 4 = 0 /\ ((Y + 1) mod 100 <> 0 \/ (Y + 1) mod 400 = 0)) ->
  0 <= doy < 365 + (if leap then 1 else 0) ->
  let n0 := Y * 365 + Y / 4 - Y / 100 + Y / 400 + doy in
  let n100 := n0 / 36524 in
  let r := n0 mod 36524 in
  let n4 := r / 1461 in
  let r4 := r mod 1461 in
  let n1 := r4 / 365 in
  let r1 := r4 mod 365 in
  0 <= n0 < 146097
  /\ (n1 = 4 \/ n100 = 4 -> doy = 365 /\ n100 * 100 + n4 * 4 + n1 = Y + 1)
  /\ (n1 <> 4 -> n100 <> 4 ->
      n100 * 100 + n4 * 4 + n1 = Y /\ r1 = doy
      /\ ((n1 = 3 /\ (n4 <> 24 \/ n100 = 3)) <-> leap = true)).
Proof.
  intros HY Hleap Hdoy. cbv zeta.
  Z.to_euclidean_division_equations.
  destruct leap; lia.
Qed.

Lemma last_day_of_year (leap : bool) (month day : Z) :
  1 <= month <= 12 -> 1 <= day <= month_length leap month ->
  month_offset leap month + day - 1 = 365 -> month = 12 /\ day = 31.
Proof.
  intros Hm Hd.
  assert (Hc : month = 1 \/ month = 2 \/ month = 3 \/ month = 4 \/ month = 5
               \/ month = 6 \/ month = 7 \/ month = 8 \/ month = 9
               \/ month = 10 \/ month = 11 \/ month = 12 \/ False) by lia.
  clear Hm.
  repeat (destruct Hc as [->|Hc];
          [ destruct leap;
            match type of Hd with
            | _ <= _ <= ?x =>
                let v := eval vm_compute in x in change x with v in Hd
            end;
            match goal with
            | |- ?x + day - 1 = _ -> _ =>
                let v := eval vm_compute in x in change x with v
            end; lia |]).
  contradiction.
Qed.

(** [ord2ymd] with its last step named. *)
Lemma ord2ymd_month_day (ordinal : Z) :
  ord2ymd ordinal
  = let n := ordinal - 1 in
    let n400 := n / 146097 in
    let n := n mod 146097 in
    let n100 := n / 36524 in
    let n := n mod 36524 in
    let n4 := n / 1461 in
    let n := n mod 1461 in
    let n1 := n / 365 in
    let n := n mod 365 in
    let year := n400 * 400 + 1 + n100 * 100 + n4 * 4 + n1 in
    if (n1 =? 4) || (n100 =? 4) then (year - 1, 12, 31)
    else
      let '(month, day) :=
        month_day n ((n1 =? 3) && (negb (n4 =? 24) || (n100 =? 3))) in
      (year, month, day).
Proof.
  unfold ord2ymd, month_day. cbv zeta.
  destruct ((_ =? 4) || (_ =? 4)); [reflexivity|].
  destruct (_ <? _); reflexivity.
Qed.

Lemma ord2ymd_ymd2ord_cycle (year month day : Z) :
  1 <= year <= 400 -> 1 <= month <= 12 ->
  1 <= day <= days_in_month year month ->
  ord2ymd (ymd2ord year month day) = (year, month, day).
Proof.
  intros Hy Hm Hd.
  change (days_in_month year month) with (month_length (is_leap year) month)
    in Hd.
  pose proof (day_of_year_bounds (is_leap year) month day Hm Hd) as Hdoy.
  fold (month_offset (is_leap year) month) in Hdoy.
  rewrite ord2ymd_month_day. unfold ymd2ord, days_before_year. cbv zeta.
  change (days_before_month year month)
    with (month_offset (is_leap year) month).
  set (leap := is_leap year) in *.
  set (doy := month_offset leap month + day - 1).
  set (Y := year - 1).
  replace (Y * 365 + Y / 4 - Y / 100 + Y / 400 + month_offset leap month
           + day - 1)
    with (Y * 365 + Y / 4 - Y / 100 + Y / 400 + doy) by (unfold doy; ring).
  assert (Hleap : leap = true
                  <-> (Y + 1) mod 4 = 0
                      /\ ((Y + 1) mod 100 <> 0 \/ (Y + 1) mod 400 = 0)).
  { unfold leap, Y. replace (year - 1 + 1) with year by ring.
    apply is_leap_spec. }
  destruct (year_of_days Y doy leap ltac:(unfold Y; lia) Hleap
              ltac:(unfold doy; destruct leap; lia))
    as (Hn0 & Hlast & Hinside).
  set (n0 := Y * 365 + Y / 4 - Y / 100 + Y / 400 + doy) in *.
  rewrite (Z.div_small n0 146097), (Z.mod_small n0 146097) by exact Hn0.
  set (n100 := n0 / 36524) in *.
  set (r := n0 mod 36524) in *.
  set (n4 := r / 1461) in *.
  set (r4 := r mod 1461) in *.
  set (n1 := r4 / 365) in *.
  set (r1 := r4 mod 365) in *.
  destruct (Z.eqb_spec n1 4) as [H1|H1]; cbn [orb].
  - destruct (Hlast (or_introl H1)) as [Hdoy365 Hyear].
    destruct (last_day_of_year leap month day Hm Hd Hdoy365) as [-> ->].
    f_equal. f_equal. unfold Y in Hyear. lia.
  - destruct (Z.eqb_spec n100 4) as [H100|H100].
    + destruct (Hlast (or_intror H100)) as [Hdoy365 Hyear].
      destruct (last_day_of_year leap month day Hm Hd Hdoy365) as [-> ->].
      f_equal. f_equal. unfold Y in Hyear. lia.
    + destruct (Hinside H1 H100) as (Hyear & Hr1 & Hflag).
      assert (Hb : (n1 =? 3) && (negb (n4 =? 24) || (n100 =? 3)) = leap).
      { apply eq_true_iff_eq.
        rewrite andb_true_iff, orb_true_iff, negb_true_iff, !Z.eqb_eq,
          Z.eqb_neq.
        exact Hflag. }
      rewrite Hb, Hr1. unfold doy.
      rewrite (month_day_of_offset leap month day Hm Hd).
      f_equal. f_equal. unfold Y in Hyear. lia.
Qed.

Lemma is_leap_shift (year k : Z) : is_leap (year + 400 * k) = is_leap year.
Proof.
  unfold is_leap.
  replace ((year + 400 * k) mod 4) with (year mod 4)
    by (replace (year + 400 * k) with (year + (100 * k) * 4) by ring;
        now rewrite Z_mod_plus_full).
  replace ((year + 400 * k) mod 100) with (year mod 100)
    by (replace (year + 400 * k) with (year + (4 * k) * 100) by ring;
        now rewrite Z_mod_plus_full).
  replace ((year + 400 * k) mod 400) with (year mod 400)
    by (replace (year + 400 * k) with (year + k * 400) by ring;
        now rewrite Z_mod_plus_full).
  reflexivity.
Qed.

Lemma days_before_year_shift (year k : Z) :
  days_before_year (year + 400 * k) = days_before_year year + 146097 * k.
Proof.
  unfold days_before_year. cbv zeta.
  replace (year + 400 * k - 1) with (year - 1 + (100 * k) * 4) at 2 by ring.
  replace (year + 400 * k - 1) with (year - 1 + (4 * k) * 100) at 2 by ring.
  replace (year + 400 * k - 1) with (year - 1 + k * 400) at 2 by ring.
  rewrite !Z.div_add by lia. ring.
Qed.

Lemma ymd2ord_shift (year month day k : Z) :
  ymd2ord (year + 400 * k) month day = ymd2ord year month day + 146097 * k.
Proof.
  unfold ymd2ord, days_before_month.
  rewrite days_before_year_shift, is_leap_shift. ring.
Qed.

Lemma ord2ymd_shift (ordinal k : Z) :
  ord2ymd (ordinal + 146097 * k)
  = let '(year, month, day) := ord2ymd ordinal in (year + 400 * k, month, day).
Proof.
  unfold ord2ymd. cbv zeta.
  replace (ordinal + 146097 * k - 1) with (ordinal - 1 + k * 146097) by ring.
  rewrite Z.div_add, Z_mod_plus_full by lia.
  set (n := (ordinal - 1) mod 146097).
  set (n400 := (ordinal - 1) / 146097).
  destruct ((_ =? 4) || (_ =? 4)).
  - f_equal. f_equal. ring.
  - destruct (_ <? _); f_equal; f_equal; ring.
Qed.

(** [ord2ymd] undoes [ymd2ord] on every date. *)
Lemma ord2ymd_ymd2ord (year month day : Z) :
  1 <= month <= 12 -> 1 <= day <= days_in_month year month ->
  ord2ymd (ymd2ord year month day) = (year, month, day).
Proof.
  intros Hm Hd.
  set (k := (year - 1) / 400). set (y0 := year - 400 * k).
  assert (Hy0 : 1 <= y0 <= 400)
    by (unfold y0, k; Z.to_euclidean_division_equations; lia).
  replace year with (y0 + 400 * k) in * by (unfold y0; ring).
  assert (Hd0 : 1 <= day <= days_in_month y0 month)
    by (unfold days_in_month in *; rewrite is_leap_shift in Hd; exact Hd).
  rewrite ymd2ord_shift, ord2ymd_shift, ord2ymd_ymd2ord_cycle by assumption.
  reflexivity.
Qed.

Lemma make_inv (year month day : Z) (d : datetime) :
  make year month day = Ok d ->
  1 <= year <= 9999 /\ 1 <= month <= 12
  /\ 1 <= day <= days_in_month year month
  /\ d = Datetime (ymd2ord year month day).
Proof.
  unfold make.
  destruct (Z.leb_spec 1 year); [|discriminate].
  destruct (Z.leb_spec year 9999); [|discriminate].
  destruct (Z.leb_spec 1 month); [|discriminate].
  destruct (Z.leb_spec month 12); [|discriminate].
  destruct (Z.leb_spec 1 day); [|discriminate].
  destruct (Z.leb_spec day (days_in_month year month)); [|discriminate].
  cbn [negb andb]. intros [= <-]. repeat split; assumption.
Qed.

(** The inverse direction: the day of the year splits into a month and
    a day of that month. *)
Lemma month_day_inv (leap : bool) (n : Z) :
  0 <= n < 365 + (if leap then 1 else 0) ->
  let '(month, day) := month_day n leap in
  1 <= month <= 12 /\ 1 <= day <= month_length leap month
  /\ month_offset leap month + day - 1 = n.
Proof.
  intros Hn.
  assert (Hall :
    forallb (fun leap =>
      forallb (fun x =>
        let '(month, day) := month_day (x - 1) leap in
        (1 <=? month) && (month <=? 12) && (1 <=? day)
        && (day <=? month_length leap month)
        && (month_offset leap month + day - 1 =? x - 1))
        (from_1 (if leap then 366 else 365)))
      [true; false] = true) by (vm_compute; reflexivity).
  rewrite forallb_forall in Hall.
  specialize (Hall leap ltac:(destruct leap; cbn; tauto)).
  rewrite forallb_forall in Hall.
  specialize (Hall (n + 1)
                (in_from_1 (if leap then 366 else 365)%nat (n + 1)
                   ltac:(destruct leap; lia))).
  replace (n + 1 - 1) with n in Hall by ring.
  destruct (month_day n leap) as [month day].
  rewrite !andb_true_iff, !Z.leb_le, Z.eqb_eq in Hall. tauto.
Qed.

Lemma days_of_cycle (n : Z) :
  0 <= n < 146097 ->
  let n100 := n / 36524 in
  let r := n mod 36524 in
  let n4 := r / 1461 in
  let r4 := r mod 1461 in
  let n1 := r4 / 365 in
  let r1 := r4 mod 365 in
  let Y := n100 * 100 + n4 * 4 + n1 in
  (n1 = 4 \/ n100 = 4 ->
   (Y - 1) * 365 + (Y - 1) / 4 - (Y - 1) / 100 + (Y - 1) / 400 + 365 = n
   /\ Y mod 4 = 0 /\ (Y mod 100 <> 0 \/ Y mod 400 = 0)
   /\ 1 <= Y <= 400 /\ (n <= 145730 -> Y <= 399))
  /\ (n1 <> 4 -> n100 <> 4 ->
      Y * 365 + Y / 4 - Y / 100 + Y / 400 + r1 = n
      /\ 0 <= r1 < 365
      /\ 0 <= Y < 400 /\ (n <= 145730 -> Y < 399)
      /\ ((n1 = 3 /\ (n4 <> 24 \/ n100 = 3))
          <-> ((Y + 1) mod 4 = 0
               /\ ((Y + 1) mod 100 <> 0 \/ (Y + 1) mod 400 = 0)))).
Proof.
  intros Hn. cbv zeta. Z.to_euclidean_division_equations. lia.
Qed.

Lemma ymd2ord_ord2ymd_cycle (ordinal : Z) :
  1 <= ordinal <= 146097 ->
  let '(year, month, day) := ord2ymd ordinal in
  1 <= year <= 400 /\ (ordinal <= 145731 -> year <= 399)
  /\ 1 <= month <= 12 /\ 1 <= day <= days_in_month year month
  /\ ymd2ord year month day = ordinal.
Proof.
  intros Ho. rewrite ord2ymd_month_day. cbv zeta.
  set (n := ordinal - 1).
  assert (Hn : 0 <= n < 146097) by (unfold n; lia).
  rewrite (Z.div_small n 146097), (Z.mod_small n 146097) by exact Hn.
  destruct (days_of_cycle n Hn) as [Hlast Hinside].
  set (n100 := n / 36524) in *.
  set (r := n mod 36524) in *.
  set (n4 := r / 1461) in *.
  set (r4 := r mod 1461) in *.
  set (n1 := r4 / 365) in *.
  set (r1 := r4 mod 365) in *.
  replace (0 * 400 + 1 + n100 * 100 + n4 * 4 + n1)
    with (n100 * 100 + n4 * 4 + n1 + 1) by ring.
  set (Y := n100 * 100 + n4 * 4 + n1) in *.
  assert (Hexc : n1 = 4 \/ n100 = 4 ->
                 1 <= Y + 1 - 1 <= 400
                 /\ (ordinal <= 145731 -> Y + 1 - 1 <= 399)
                 /\ 1 <= 12 <= 12 /\ 1 <= 31 <= days_in_month (Y + 1 - 1) 12
                 /\ ymd2ord (Y + 1 - 1) 12 31 = ordinal).
  { intros H. destruct (Hlast H) as (Hdays & H4 & H100 & HY & Hsmall).
    replace (Y + 1 - 1) with Y by ring.
    assert (Hleap : is_leap Y = true) by (apply is_leap_spec; tauto).
    clear Hlast Hinside H H4 H100. clearbody Y. clear n1 r1 r4 n4 r n100.
    unfold n in *. clear n Hn.
    split; [assumption|]. split; [intros; apply Hsmall; lia|].
    split; [lia|].
    unfold days_in_month, ymd2ord, days_before_month, days_before_year.
    rewrite Hleap. cbv zeta. change (12 =? 2) with false.
    change (2 <? 12) with true. cbn [andb].
    change (nth (Z.to_nat 12) DAYS_IN_MONTH 0) with 31.
    change (nth (Z.to_nat 12) DAYS_BEFORE_MONTH 0) with 334.
    split; [lia|]. clear Hsmall HY Ho Hleap. lia. }
  destruct (Z.eqb_spec n1 4) as [H1|H1]; cbn [orb];
    [apply Hexc; left; assumption|].
  destruct (Z.eqb_spec n100 4) as [H100|H100];
    [apply Hexc; right; assumption|].
  destruct (Hinside H1 H100) as (Hdays & Hr1 & HY & Hsmall & Hflag).
  assert (Hb : (n1 =? 3) && (negb (n4 =? 24) || (n100 =? 3))
               = is_leap (Y + 1)).
  { apply eq_true_iff_eq.
    rewrite andb_true_iff, orb_true_iff, negb_true_iff, !Z.eqb_eq,
      Z.eqb_neq, is_leap_spec.
    exact Hflag. }
  rewrite Hb. clear Hb Hflag Hexc Hlast Hinside H1 H100.
  clearbody Y r1. clear n1 r4 n4 r n100. unfold n in *. clear n Hn.
  pose proof (month_day_inv (is_leap (Y + 1)) r1
                ltac:(destruct (is_leap (Y + 1)); lia)) as Hmd.
  destruct (month_day r1 (is_leap (Y + 1))) as [month day].
  destruct Hmd as (Hm & Hd & Hoff).
  split; [lia|]. split; [lia|].
  split; [assumption|]. split; [exact Hd|].
  unfold ymd2ord, days_before_year. cbv zeta.
  change (days_before_month (Y + 1) month)
    with (month_offset (is_leap (Y + 1)) month).
  replace (Y + 1 - 1) with Y by ring.
  clear Hd Hm Hr1 Hsmall HY Ho.
  set (offset := month_offset (is_leap (Y + 1)) month) in *.
  clearbody offset. lia.
Qed.

(** [ymd2ord] undoes [ord2ymd] on every ordinal of the calendar, and
    what [ord2ymd] returns is a date [datetime(...)] accepts. *)
Lemma ymd2ord_ord2ymd (ordinal : Z) :
  1 <= ordinal <= MAXORDINAL ->
  let '(year, month, day) := ord2ymd ordinal in
  1 <= year <= 9999 /\ 1 <= month <= 12
  /\ 1 <= day <= days_in_month year month
  /\ ymd2ord year month day = ordinal.
Proof.
  unfold MAXORDINAL. intros Ho.
  set (k := (ordinal - 1) / 146097). set (o0 := ordinal - 146097 * k).
  assert (Hk : 0 <= k <= 24 /\ 1 <= o0 <= 146097
               /\ (k = 24 -> o0 <= 145731))
    by (unfold o0, k; Z.to_euclidean_division_equations; lia).
  destruct Hk as (Hk & Ho0 & Hlast).
  replace ordinal with (o0 + 146097 * k) by (unfold o0; ring).
  rewrite ord2ymd_shift.
  pose proof (ymd2ord_ord2ymd_cycle o0 Ho0) as Hcycle.
  destruct (ord2ymd o0) as [[year month] day].
  destruct Hcycle as (Hy & Hsmall & Hm & Hd & Hord).
  split; [|split; [assumption|split]].
  - destruct (Z.eq_dec k 24) as [->|]; [specialize (Hsmall (Hlast eq_refl))|];
      lia.
  - unfold days_in_month in *. rewrite is_leap_shift. exact Hd.
  - rewrite ymd2ord_shift, Hord. reflexivity.
Qed.

Lemma make_ok (year month day : Z) :
  1 <= year <= 9999 -> 1 <= month <= 12 ->
  1 <= day <= days_in_month year month ->
  make year month day = Ok (Datetime (ymd2ord year month day)).
Proof.
  intros Hy Hm Hd. unfold make.
  replace (1 <=? year) with true by (symmetry; apply Z.leb_le; lia).
  replace (year <=? 9999) with true by (symmetry; apply Z.leb_le; lia).
  replace (1 <=? month) with true by (symmetry; apply Z.leb_le; lia).
  replace (month <=? 12) with true by (symmetry; apply Z.leb_le; lia).
  replace (1 <=? day) with true by (symmetry; apply Z.leb_le; lia).
  replace (day <=? days_in_month year month) with true
    by (symmetry; apply Z.leb_le; lia).
  reflexivity.
Qed.

End Ordinal_facts.

(** X23. A date that [strptime] read from [%Y-%m-%d] text is written
    by [strftime] with the year, the month and the day that were read:
    the month name and the two-digit day for ['%B %d'], and after them
    the year for ['%A, %B %d, %Y']. *)
Theorem strptime_strftime_round_trip (text : string) (d : datetime) :
  strptime_Y_m_d text = Ok d ->
  exists year month day,
    match_Y_m_d (chars text) = Some (year, month, day, [])
    /\ 1 <= year <= 9999 /\ 1 <= month <= 12
    /\ 1 <= day <= days_in_month year month
    /\ strftime_B_d d = nth (Z.to_nat month) month_names "" ++ " " ++ pad2 day
    /\ strftime_A_B_d_Y d
       = nth (Z.to_nat (weekday d)) day_names "" ++ ", "
         ++ nth (Z.to_nat month) month_names "" ++ " " ++ pad2 day ++ ", "
         ++ str_of_int year.
Proof.
  unfold strptime_Y_m_d.
  destruct (match_Y_m_d (chars text)) as [[[[year month] day] rest]|];
    [|discriminate].
  destruct rest; [|discriminate]. intros Hmake.
  destruct (make_inv _ _ _ _ Hmake) as (Hy & Hm & Hd & ->).
  exists year, month, day.
  split; [reflexivity|]. split; [assumption|]. split; [assumption|].
  split; [assumption|].
  unfold strftime_B_d, strftime_A_B_d_Y. cbn [toordinal].
  rewrite (ord2ymd_ymd2ord year month day Hm Hd). split; reflexivity.
Qed.

Lemma strptime_strftime_round_trip_witness :
  exists year month day,
    match_Y_m_d (chars "2024-2-29") = Some (year, month, day, [])
    /\ 1 <= year <= 9999 /\ 1 <= month <= 12
    /\ 1 <= day <= days_in_month year month
    /\ strftime_B_d (Datetime 738945)
       = nth (Z.to_nat month) month_names "" ++ " " ++ pad2 day
    /\ strftime_A_B_d_Y (Datetime 738945)
       = nth (Z.to_nat (weekday (Datetime 738945))) day_names "" ++ ", "
         ++ nth (Z.to_nat month) month_names "" ++ " " ++ pad2 day ++ ", "
         ++ str_of_int year.
Proof.
  apply (strptime_strftime_round_trip "2024-2-29" (Datetime 738945)).
  reflexivity.
Defined.

(** X24. Every date of the calendar is printed as a real date: the
    year, the month and the day that [strftime] writes for it are those
    of the one [datetime(year, month, day)] that is this date, so the
    month is one of the twelve and the day exists in that month. *)
Theorem strftime_prints_the_date (d : datetime) :
  valid d ->
  exists year month day,
    make year month day = Ok d
    /\ 1 <= year <= 9999 /\ 1 <= month <= 12
    /\ 1 <= day <= days_in_month year month
    /\ strftime_B_d d = nth (Z.to_nat month) month_names "" ++ " " ++ pad2 day
    /\ strftime_A_B_d_Y d
       = nth (Z.to_nat (weekday d)) day_names "" ++ ", "
         ++ nth (Z.to_nat month) month_names "" ++ " " ++ pad2 day ++ ", "
         ++ str_of_int year.
Proof.
  destruct d as [o]. unfold valid. cbn [toordinal]. intros Ho.
  pose proof (ymd2ord_ord2ymd o Ho) as H.
  unfold strftime_B_d, strftime_A_B_d_Y. cbn [toordinal].
  destruct (ord2ymd o) as [[year month] day].
  destruct H as (Hy & Hm & Hd & Hord).
  exists year, month, day.
  split; [rewrite make_ok by assumption; rewrite Hord; reflexivity|].
  repeat (split; [assumption|]). split; reflexivity.
Qed.

Lemma strftime_prints_the_date_witness :
  exists year month day,
    make year month day = Ok (Datetime MAXORDINAL)
    /\ 1 <= year <= 9999 /\ 1 <= month <= 12
    /\ 1 <= day <= days_in_month year month
    /\ strftime_B_d (Datetime MAXORDINAL)
       = nth (Z.to_nat month) month_names "" ++ " " ++ pad2 day
    /\ strftime_A_B_d_Y (Datetime MAXORDINAL)
       = nth (Z.to_nat (weekday (Datetime MAXORDINAL))) day_names "" ++ ", "
         ++ nth (Z.to_nat month) month_names "" ++ " " ++ pad2 day ++ ", "
         ++ str_of_int year.
Proof.
  apply (strftime_prints_the_date (Datetime MAXORDINAL)).
  unfold valid, MAXORDINAL. simpl. lia.
Defined.
